(** * BOLA / look-ahead-buffer ABR rules of dash.js: a shallow embedding

    The development follows four source files:
    - the [BolaRule]-shaped switch rule with the capped look-ahead loop
      (module [Bola]);
    - [LABAbandonRequestsRule_same.js], the abandonment rule (module
      [Abandon]);
    - the two sample [LABRule] files, whose look-ahead loop has no cap (module
      [LABRule]).

    Numbers.  The source computes with IEEE-754 doubles.  The embedding uses
    exact rationals extended with [NaN] and the two infinities: comparisons
    with [NaN] are false, [x / 0] is an infinity or [NaN], [isNaN] is
    available.  Rounding of results and the sign of zero are not tracked
    (a zero is always a positive zero). *)

From Stdlib Require Import QArith Qabs Qround Lqa ZArith List Bool Lia.
From stdpp Require Import gmap strings.

Local Open Scope Q_scope.

(* ===================================================================== *)
(** ** JavaScript numbers *)
(* ===================================================================== *)

Inductive number : Type :=
| NaN
| Inf (negative : bool)
| Fin (q : Q).

Definition isNaN (x : number) : bool :=
  match x with NaN => true | _ => false end.

Definition isFinite (x : number) : bool :=
  match x with Fin _ => true | _ => false end.

Definition num (z : Z) : number := Fin (inject_Z z).

(** [-x] *)
Definition jneg (x : number) : number :=
  match x with
  | NaN => NaN
  | Inf s => Inf (negb s)
  | Fin a => Fin (- a)
  end.

(** [x + y] *)
Definition jadd (x y : number) : number :=
  match x, y with
  | NaN, _ | _, NaN => NaN
  | Inf s, Inf t => if Bool.eqb s t then Inf s else NaN
  | Inf s, Fin _ => Inf s
  | Fin _, Inf t => Inf t
  | Fin a, Fin b => Fin (a + b)
  end.

(** [x - y] *)
Definition jsub (x y : number) : number := jadd x (jneg y).

(** Sign of a rational, a zero counting as positive. *)
Definition Qneg (a : Q) : bool := negb (Qle_bool 0 a).

(** [x * y] *)
Definition jmul (x y : number) : number :=
  match x, y with
  | NaN, _ | _, NaN => NaN
  | Inf s, Inf t => Inf (xorb s t)
  | Inf s, Fin b => if Qeq_bool b 0 then NaN else Inf (xorb s (Qneg b))
  | Fin a, Inf t => if Qeq_bool a 0 then NaN else Inf (xorb (Qneg a) t)
  | Fin a, Fin b => Fin (a * b)
  end.

(** [x / y] *)
Definition jdiv (x y : number) : number :=
  match x, y with
  | NaN, _ | _, NaN => NaN
  | Inf _, Inf _ => NaN
  | Inf s, Fin b => Inf (xorb s (Qneg b))
  | Fin _, Inf _ => Fin 0
  | Fin a, Fin b =>
      if Qeq_bool b 0
      then (if Qeq_bool a 0 then NaN else Inf (Qneg a))
      else Fin (a / b)
  end.

(** [x <= y]; false as soon as one side is [NaN]. *)
Definition jle (x y : number) : bool :=
  match x, y with
  | NaN, _ | _, NaN => false
  | Inf true, _ => true
  | _, Inf false => true
  | Inf false, _ => false
  | _, Inf true => false
  | Fin a, Fin b => Qle_bool a b
  end.

(** [x < y] *)
Definition jlt (x y : number) : bool := jle x y && negb (jle y x).
(** [x >= y] *)
Definition jge (x y : number) : bool := jle y x.
(** [x > y] *)
Definition jgt (x y : number) : bool := jlt y x.
(** [x === y] on numbers; [x == y] is the same on numbers. *)
Definition jeq (x y : number) : bool := jle x y && jle y x.
(** [x !== y] on numbers; [x != y] is the same on numbers. *)
Definition jne (x y : number) : bool := negb (jeq x y).

(** [Math.max(x, y)] *)
Definition Math_max (x y : number) : number :=
  match x, y with
  | NaN, _ | _, NaN => NaN
  | _, _ => if jle x y then y else x
  end.

(** [Math.round(x)]: the integer nearest to [x], halves going up. *)
Definition Math_round (x : number) : number :=
  match x with
  | Fin a => num (Qfloor (a + (1 # 2)))
  | _ => x
  end.

(** [+x.toFixed(2)]: the multiple of 1/100 nearest to [x], halves going away
    from zero. *)
Definition toFixed2 (x : number) : number :=
  match x with
  | Fin a =>
      if Qle_bool 0 a
      then Fin (inject_Z (Qfloor (a * 100 + (1 # 2))) / 100)
      else Fin (- (inject_Z (Qfloor (- a * 100 + (1 # 2))) / 100))
  | _ => x
  end.

(** [a.length] *)
Definition length_of {A} (l : list A) : number := num (Z.of_nat (length l)).

(** [a[i]] on an array of numbers used in arithmetic: an index out of range
    reads [undefined], which arithmetic and [isNaN] treat as [NaN]. *)
Definition at_index (l : list number) (i : nat) : number := nth i l NaN.

(** [a.reduce((acc, x, i) => f acc x i, init)] *)
Fixpoint reduceFrom {A B} (f : B -> A -> nat -> B) (l : list A) (i : nat) (acc : B) : B :=
  match l with
  | [] => acc
  | x :: t => reduceFrom f t (S i) (f acc x i)
  end.

Definition reduce {A B} (f : B -> A -> nat -> B) (l : list A) (init : B) : B :=
  reduceFrom f l 0%nat init.

(* ===================================================================== *)
(** ** Exceptions *)
(* ===================================================================== *)

Inductive error : Type :=
| TypeError       (* property read or call on undefined / null *)
| ReferenceError. (* read of an undeclared or not yet initialised binding *)

Inductive result (A : Type) : Type :=
| Ok (a : A)
| Throw (e : error).
Arguments Ok {A} a.
Arguments Throw {A} e.

Definition bind {A B} (r : result A) (k : A -> result B) : result B :=
  match r with
  | Ok a => k a
  | Throw e => Throw e
  end.

Notation "'let!' x ':=' r 'in' k" := (bind r (fun x => k))
  (at level 10, x name, r at level 100, k at level 200).

(** [o.f] where [o] may be undefined or null. *)
Definition deref {A} (o : option A) : result A :=
  match o with
  | Some a => Ok a
  | None => Throw TypeError
  end.

(* ===================================================================== *)
(** ** Utility model (shared by all variants) *)
(* ===================================================================== *)

Definition MINIMUM_BUFFER_S : number := num 10.
Definition MINIMUM_BUFFER_PER_BITRATE_LEVEL_S : number := num 2.

Record BolaParameters : Type := { p_gp : number; p_Vp : number }.

Section UtilityModel.

(** [Math.log], which the rationals do not have, is left abstract. *)
Variable Math_log : number -> number.

Definition utilitiesFromBitrates (bitrates : list number) : list number :=
  map (fun b => Math_log b) bitrates.

(** [utilities.map(u => u - utilities[0] + 1)] *)
Definition normalize (utilities : list number) : list number :=
  map (fun u => jadd (jsub u (at_index utilities 0)) (num 1)) utilities.

End UtilityModel.

Definition highestUtilityIndex (utilities : list number) : nat :=
  reduce (fun highestIndex u uIndex =>
            if jgt u (at_index utilities highestIndex) then uIndex else highestIndex)
         utilities 0%nat.

Definition calculateBolaParameters
    (stableBufferTime : number) (bitrates utilities : list number)
  : option BolaParameters :=
  let highestUtilityIndex := highestUtilityIndex utilities in
  if Nat.eqb highestUtilityIndex 0 then None
  else
    let bufferTime :=
      Math_max stableBufferTime
        (jadd MINIMUM_BUFFER_S
              (jmul MINIMUM_BUFFER_PER_BITRATE_LEVEL_S (length_of bitrates))) in
    let gp := jdiv (jsub (at_index utilities highestUtilityIndex) (num 1))
                   (jsub (jdiv bufferTime MINIMUM_BUFFER_S) (num 1)) in
    let Vp := jdiv MINIMUM_BUFFER_S gp in
    Some {| p_gp := gp; p_Vp := Vp |}.

(* ===================================================================== *)
(** ** Track state and the quality selection loop *)
(* ===================================================================== *)

(** A quality is an array index, or the [NaN] the loop variable starts with. *)
Inductive quality : Type :=
| QNaN
| QIndex (i : nat).

Record BolaState : Type := {
  bitrates : list number;
  utilities : list number;
  stableBufferTime : number;
  Vp : number;
  gp : number;
  lastQuality : quality;
  placeholderBuffer : number;
  mostAdvancedSegmentStart : number;
  lastSegmentWasReplacement : bool;
  lastSegmentStart : number;
  lastSegmentDurationS : number;
  lastSegmentRequestTimeMs : number;
  lastSegmentFinishTimeMs : number
}.

Definition clearBolaStateOnSeek (bolaState : BolaState) : BolaState :=
  {| bitrates := bitrates bolaState;
     utilities := utilities bolaState;
     stableBufferTime := stableBufferTime bolaState;
     Vp := Vp bolaState;
     gp := gp bolaState;
     lastQuality := lastQuality bolaState;
     placeholderBuffer := num 0;
     mostAdvancedSegmentStart := NaN;
     lastSegmentWasReplacement := false;
     lastSegmentStart := NaN;
     lastSegmentDurationS := NaN;
     lastSegmentRequestTimeMs := NaN;
     lastSegmentFinishTimeMs := NaN |}.

(** [bolaState.bitrates[quality]]; [bitrates[NaN]] is [undefined], which the
    loop only feeds to [isNaN] and to arithmetic. *)
Definition bitrate_at (bolaState : BolaState) (q : quality) : number :=
  match q with
  | QNaN => NaN
  | QIndex i => at_index (bitrates bolaState) i
  end.

(** The score of index [i] at working level [LABLevel]. *)
Definition score_of (bolaState : BolaState) (LABLevel : number) (i : nat) : number :=
  jdiv (jsub (jmul (Vp bolaState)
                   (jadd (at_index (utilities bolaState) i) (gp bolaState)))
             LABLevel)
       (at_index (bitrates bolaState) i).

(** One step of the inner [for] loop on the pair (score, quality). *)
Definition scoreStep (bolaState : BolaState) (LABLevel : number)
    (acc : number * quality) (i : nat) : number * quality :=
  let s := score_of bolaState LABLevel i in
  if isNaN (fst acc) || jge s (fst acc) then (s, QIndex i) else acc.

(** The inner [for (let i = 0; i < bitrateCount; ++i)] loop; [score] starts
    at [NaN], [quality] keeps the value it had before the pass. *)
Definition scoringPass (bolaState : BolaState) (bitrateCount : nat)
    (LABLevel : number) (q : quality) : number * quality :=
  fold_left (scoreStep bolaState LABLevel) (seq 0 bitrateCount) (NaN, q).

(** The variables of the [while] loop. *)
Record LoopState : Type := {
  quality_ : quality;
  bitrate : number;
  prev_bitrate : number;
  LABLevel : number;
  maxIte : Z
}.

(** A [while (cond) { body; if (stop) break; }] loop run for at most [fuel]
    passes: [None] when the fuel does not suffice. *)
Fixpoint while_loop {S : Type} (cond : S -> bool) (body : S -> result (S * bool))
    (fuel : nat) (s : S) : option (result S) :=
  match fuel with
  | O => None
  | S fuel' =>
      if cond s then
        match body s with
        | Throw e => Some (Throw e)
        | Ok (s', true) => Some (Ok s')
        | Ok (s', false) => while_loop cond body fuel' s'
        end
      else Some (Ok s)
  end.


(* ===================================================================== *)
(** ** Collaborators *)
(* ===================================================================== *)

(** [mediaInfo.bitrateList.map(b => b.bandwidth)] is the only use of the
    media info: the record keeps the bandwidths. *)
Record MediaInfo : Type := { bitrateList : list number }.

Record RepresentationInfo : Type := {
  fragmentDuration : number;
  quality_index : nat           (* [getRepresentationInfo().quality] *)
}.

(** The ABR controller and its throughput history, by what they answer. *)
Record AbrController : Type := {
  averageThroughput : number;   (* [getAverageThroughput(..)], [NaN] if unknown *)
  averageLatency : number;      (* [getAverageLatency(..)] *)
  abrBitrateList : list number; (* [getBitrateList(mediaInfo)[k].bitrate] *)
  qualityFor : nat              (* [getQualityFor(mediaType, streamId)] *)
}.

(** The request in flight.  [index] is [None] when [isNaN(req.index)];
    [firstByteDate] is [None] when it is [null], otherwise its [getTime()]. *)
Record FragmentRequest : Type := {
  index : option Z;
  firstByteDate : option number;
  duration : number;
  bytesTotal : number;
  bytesLoaded : number
}.

(** A rules context: each accessor is [None] when the context object does
    not have it, and otherwise carries what the call returns. *)
Record RulesContext : Type := {
  getMediaInfo : option MediaInfo;
  getMediaType : option string;
  getScheduleController : option unit;
  getStreamInfo : option unit;
  getAbrController : option AbrController;
  useBufferOccupancyABR : option bool;
  getRepresentationInfo : option RepresentationInfo;
  getCurrentRequest : option FragmentRequest
}.

(** [rulesContext.hasOwnProperty(name)] *)
Definition has {A} (accessor : option A) : bool :=
  match accessor with Some _ => true | None => false end.

(** What the injected models answer during one call. *)
Record Environment : Type := {
  getStableBufferTime : number;            (* [mediaPlayerModel.getStableBufferTime()] *)
  getCurrentBufferLevel : string -> number; (* [dashMetrics.getCurrentBufferLevel(type)] *)
  currentTime : number                     (* [new Date().getTime()] *)
}.

Inductive priority : Type := DEFAULT | STRONG.

Inductive requestedQuality : Type :=
| NO_CHANGE
| Chosen (q : quality).

(** The diagnostics bag; a field is [None] until it is assigned. *)
Record Reason : Type := {
  r_throughput : option number;
  r_latency : option number;
  r_bufferLevel : option number;
  r_placeholderBuffer : option number;
  r_fragmentID : option (option Z)
}.

Definition emptyReason : Reason :=
  {| r_throughput := None; r_latency := None; r_bufferLevel := None;
     r_placeholderBuffer := None; r_fragmentID := None |}.

(** Modelled from the spec: the switch request object ([SwitchRequest.js] is
    not among the sources).  A decision carries a quality index or the
    sentinel for no change, a priority, and the diagnostics bag; a fresh one
    has no quality set and [DEFAULT] priority. *)
Record SwitchRequest : Type := {
  sr_quality : requestedQuality;
  sr_reason : Reason;
  sr_priority : priority
}.

Definition SwitchRequest_create : SwitchRequest :=
  {| sr_quality := NO_CHANGE; sr_reason := emptyReason; sr_priority := DEFAULT |}.

(** The table [PRIORITY] of the [SwitchRequest] factory. *)
Record PriorityTable : Type := { t_DEFAULT : priority; t_STRONG : priority }.

(** [switchRequest.PRIORITY] on a request object: the object has the members
    [quality], [reason] and [priority]; the table is a member of the factory
    and not of the object, so the read gives [undefined]. *)
Definition sr_PRIORITY (switchRequest : SwitchRequest) : option PriorityTable := None.

(* ===================================================================== *)
(** ** The switch rule (the [BolaRule]-shaped file with the capped loop) *)
(* ===================================================================== *)

Module Bola.

Section LookAhead.

Variables (bolaState : BolaState) (bufferLevel throughput segmentDuration : number).

Definition bitrateCount : nat := length (bitrates bolaState).

Definition loopInit : LoopState :=
  {| quality_ := QNaN; bitrate := NaN; prev_bitrate := NaN;
     LABLevel := bufferLevel;
     maxIte := Z.of_nat bitrateCount |}.

(** [isNaN(bitrate) || bitrate != prev_bitrate] *)
Definition loopCond (st : LoopState) : bool :=
  isNaN (bitrate st) || jne (bitrate st) (prev_bitrate st).

(** The projected level
    [bufferLevel + (1 - bitrate / throughput / 1000) * segmentDuration]. *)
Definition projectedLevel (bitrate : number) : number :=
  jadd bufferLevel
       (jmul (jsub (num 1) (jdiv (jdiv bitrate throughput) (num 1000)))
             segmentDuration).

(** The statements of one pass, up to the decrement of [maxIte]. *)
Definition loopPass (st : LoopState) : LoopState :=
  let quality := snd (scoringPass bolaState bitrateCount (LABLevel st) (quality_ st)) in
  let prev_bitrate := bitrate st in
  let bitrate := bitrate_at bolaState quality in
  let LABLevel := projectedLevel bitrate in
  {| quality_ := quality; bitrate := bitrate; prev_bitrate := prev_bitrate;
     LABLevel := LABLevel; maxIte := (maxIte st - 1)%Z |}.

(** The body with its [if (maxIte < 0) break]. *)
Definition loopBody (st : LoopState) : result (LoopState * bool) :=
  let st' := loopPass st in
  Ok (st', (maxIte st' <? 0)%Z).

(** The loop of the capped variants.  It stops within
    [bitrateCount + 1] passes (lemma [lookAhead_terminates]), so the fuel
    given here is never exhausted and the defaults below are never
    taken. *)
Definition lookAheadFuel : nat := S bitrateCount.

Definition lookAheadLoop : LoopState :=
  match while_loop loopCond loopBody lookAheadFuel loopInit with
  | Some (Ok st) => st
  | _ => loopInit
  end.

Definition getQualityFromBufferLevel : quality := quality_ lookAheadLoop.

(** Number of passes the loop made: [maxIte] starts at [bitrateCount] and
    loses one per pass. *)
Definition passesMade : Z := (Z.of_nat bitrateCount - maxIte lookAheadLoop)%Z.

End LookAhead.

(** The rule instance: its state dictionary, and the delay it last asked
    the schedule controller for ([None] before any
    [setTimeToLoadDelay]). *)
Record Rule : Type := {
  bolaStateDict : gmap string BolaState;
  timeToLoadDelay : option number
}.

(** [resetInitialSettings()], as run by [setup()]. *)
Definition resetInitialSettings (r : Rule) : Rule :=
  {| bolaStateDict := ∅; timeToLoadDelay := timeToLoadDelay r |}.

(** The instance as [setup()] leaves it. *)
Definition setup : Rule :=
  resetInitialSettings {| bolaStateDict := ∅; timeToLoadDelay := None |}.

Section WithLog.

Variable Math_log : number -> number.

Definition getInitialBolaState (env : Environment) (rulesContext : RulesContext)
  : result BolaState :=
  let! mediaInfo := deref (getMediaInfo rulesContext) in
  let bitrates := bitrateList mediaInfo in
  let utilities := utilitiesFromBitrates Math_log bitrates in
  let utilities := normalize utilities in
  let stableBufferTime := getStableBufferTime env in
  let params := calculateBolaParameters stableBufferTime bitrates utilities in
  (* [params.Vp] and [params.gp] are read with no test of [params] *)
  let! params := deref params in
  Ok (clearBolaStateOnSeek
        {| bitrates := bitrates;
           utilities := utilities;
           stableBufferTime := stableBufferTime;
           Vp := p_Vp params;
           gp := p_gp params;
           lastQuality := QIndex 0;
           placeholderBuffer := NaN;
           mostAdvancedSegmentStart := NaN;
           lastSegmentWasReplacement := false;
           lastSegmentStart := NaN;
           lastSegmentDurationS := NaN;
           lastSegmentRequestTimeMs := NaN;
           lastSegmentFinishTimeMs := NaN |}).

(** Returns the rule with its dictionary as the call leaves it. *)
Definition getBolaState (env : Environment) (rulesContext : RulesContext) (r : Rule)
  : Rule * result BolaState :=
  match getMediaType rulesContext with
  | None => (r, Throw TypeError)
  | Some mediaType =>
      match bolaStateDict r !! mediaType with
      | Some bolaState => (r, Ok bolaState)
      | None =>
          match getInitialBolaState env rulesContext with
          | Throw e => (r, Throw e)
          | Ok bolaState =>
              ({| bolaStateDict := <[mediaType := bolaState]> (bolaStateDict r);
                  timeToLoadDelay := timeToLoadDelay r |},
               Ok bolaState)
          end
      end
  end.

Definition setLastQuality (q : quality) (s : BolaState) : BolaState :=
  {| bitrates := bitrates s; utilities := utilities s;
     stableBufferTime := stableBufferTime s; Vp := Vp s; gp := gp s;
     lastQuality := q;
     placeholderBuffer := placeholderBuffer s;
     mostAdvancedSegmentStart := mostAdvancedSegmentStart s;
     lastSegmentWasReplacement := lastSegmentWasReplacement s;
     lastSegmentStart := lastSegmentStart s;
     lastSegmentDurationS := lastSegmentDurationS s;
     lastSegmentRequestTimeMs := lastSegmentRequestTimeMs s;
     lastSegmentFinishTimeMs := lastSegmentFinishTimeMs s |}.

Definition getMaxIndex (env : Environment) (rulesContext : option RulesContext) (r : Rule)
  : Rule * result SwitchRequest :=
  let switchRequest := SwitchRequest_create in
  match rulesContext with
  | None => (r, Ok switchRequest)
  | Some ctx =>
      if negb (has (getMediaInfo ctx)) || negb (has (getMediaType ctx))
         || negb (has (getScheduleController ctx)) || negb (has (getStreamInfo ctx))
         || negb (has (getAbrController ctx)) || negb (has (useBufferOccupancyABR ctx))
      then (r, Ok switchRequest)
      else
        match getMediaType ctx, getAbrController ctx, useBufferOccupancyABR ctx with
        | Some mediaType, Some abrController, Some useBufferOccupancyABR =>
            (* [rulesContext.getRepresentationInfo().fragmentDuration]:
               the guard above does not ask for this accessor *)
            match getRepresentationInfo ctx with
            | None => (r, Throw TypeError)
            | Some representationInfo =>
                let segmentDuration := fragmentDuration representationInfo in
                if negb useBufferOccupancyABR then (r, Ok switchRequest)
                else
                  (* [scheduleController.setTimeToLoadDelay(0)] *)
                  let r := {| bolaStateDict := bolaStateDict r;
                              timeToLoadDelay := Some (num 0) |} in
                  match getBolaState env ctx r with
                  | (r, Throw e) => (r, Throw e)
                  | (r, Ok bolaState) =>
                      let bufferLevel := getCurrentBufferLevel env mediaType in
                      let throughput := averageThroughput abrController in
                      let latency := averageLatency abrController in
                      let reason :=
                        {| r_throughput := Some throughput;
                           r_latency := Some latency;
                           r_bufferLevel := None;
                           r_placeholderBuffer := None;
                           r_fragmentID := None |} in
                      if isNaN throughput
                      then (r, Ok {| sr_quality := NO_CHANGE;
                                     sr_reason := reason;
                                     sr_priority := DEFAULT |})
                      else
                        let quality :=
                          getQualityFromBufferLevel bolaState bufferLevel
                                                    throughput segmentDuration in
                        let reason :=
                          {| r_throughput := Some throughput;
                             r_latency := Some latency;
                             r_bufferLevel := Some bufferLevel;
                             r_placeholderBuffer := Some (placeholderBuffer bolaState);
                             r_fragmentID := None |} in
                        let switchRequest :=
                          {| sr_quality := Chosen quality;
                             sr_reason := reason;
                             sr_priority := DEFAULT |} in
                        (* [switchRequest.priority =
                            switchRequest.PRIORITY.STRONG]: [.STRONG] is read
                           on what [switchRequest.PRIORITY] gives *)
                        match deref (sr_PRIORITY switchRequest) with
                        | Throw e => (r, Throw e)
                        | Ok PRIORITY =>
                            (* [bolaState.lastQuality = quality] writes to
                               the object held by the dictionary *)
                            ({| bolaStateDict :=
                                  <[mediaType := setLastQuality quality bolaState]>
                                    (bolaStateDict r);
                                timeToLoadDelay := timeToLoadDelay r |},
                             Ok {| sr_quality := Chosen quality;
                                   sr_reason := reason;
                                   sr_priority := t_STRONG PRIORITY |})
                        end
                  end
            end
        | _, _, _ => (r, Ok switchRequest) (* excluded by the guard *)
        end
  end.

End WithLog.

End Bola.

(* ===================================================================== *)
(** ** The abandonment rule ([LABAbandonRequestsRule_same.js]) *)
(* ===================================================================== *)

Module Abandon.

Definition ABANDON_MULTIPLIER : number := Fin (18 # 10).
Definition GRACE_TIME_THRESHOLD : number := num 500.
Definition MIN_LENGTH_TO_AVERAGE : nat := 5.

(** A state object is [{ state: BOLA_STATE_ONE_BITRATE }] and nothing else,
    or carries [state: BOLA_STATE_STARTUP] and every field. *)
Inductive TrackState : Type :=
| OneBitrate
| Startup (fields : BolaState).

(** Per-request bookkeeping; a field is [None] while it is [undefined]. *)
Record FragmentInfo : Type := {
  firstByteTime : option number;
  segmentDuration : option number;
  f_bytesTotal : option number;
  id : option Z;
  f_bytesLoaded : option number;
  elapsedTime : option number;
  measuredBandwidthInKbps : option number;
  estimatedTimeOfDownload : option number
}.

Definition emptyFragmentInfo : FragmentInfo :=
  {| firstByteTime := None; segmentDuration := None; f_bytesTotal := None;
     id := None; f_bytesLoaded := None; elapsedTime := None;
     measuredBandwidthInKbps := None; estimatedTimeOfDownload := None |}.

(** A field read for arithmetic or comparison: [undefined] acts as [NaN]. *)
Definition numOf (field : option number) : number :=
  match field with Some x => x | None => NaN end.

(** The rule instance.  [abandonDict] is keyed by [fragmentInfo.id], where
    [None] is the key an [undefined] id turns into.  [bolaStateDict] is
    [None] while the variable is [undefined]. *)
Record Rule : Type := {
  fragmentDict : gmap string (gmap Z FragmentInfo);
  abandonDict : gmap (option Z) FragmentInfo;
  bolaStateDict : option (gmap string TrackState);
  throughputArray : gmap string (list number)
}.

(** [reset()] assigns three of the four variables. *)
Definition reset (r : Rule) : Rule :=
  {| fragmentDict := ∅; abandonDict := ∅;
     bolaStateDict := bolaStateDict r; throughputArray := ∅ |}.

(** The instance as [setup()] leaves it: the variables are declared
    without a value and [reset()] runs once. *)
Definition setup : Rule :=
  reset {| fragmentDict := ∅; abandonDict := ∅;
           bolaStateDict := None; throughputArray := ∅ |}.

Definition setFragmentRequestDict (type : string) (id : Z)
    (fragmentDict : gmap string (gmap Z FragmentInfo))
  : gmap string (gmap Z FragmentInfo) :=
  let ofType := default ∅ (fragmentDict !! type) in
  let info := default emptyFragmentInfo (ofType !! id) in
  <[type := <[id := info]> ofType]> fragmentDict.

Definition storeLastRequestThroughputByType (type : string) (throughput : number)
    (throughputArray : gmap string (list number))
  : gmap string (list number) :=
  let samples := default [] (throughputArray !! type) in
  <[type := samples ++ [throughput]]> throughputArray.

Section WithLog.

Variable Math_log : number -> number.

Definition getInitialBolaState (env : Environment) (rulesContext : RulesContext)
  : result TrackState :=
  let! mediaInfo := deref (getMediaInfo rulesContext) in
  let bitrates := bitrateList mediaInfo in
  let utilities := utilitiesFromBitrates Math_log bitrates in
  let utilities := normalize utilities in
  let stableBufferTime := getStableBufferTime env in
  match calculateBolaParameters stableBufferTime bitrates utilities with
  | None => Ok OneBitrate
  | Some params =>
      Ok (Startup (clearBolaStateOnSeek
        {| bitrates := bitrates;
           utilities := utilities;
           stableBufferTime := stableBufferTime;
           Vp := p_Vp params;
           gp := p_gp params;
           lastQuality := QIndex 0;
           placeholderBuffer := NaN;
           mostAdvancedSegmentStart := NaN;
           lastSegmentWasReplacement := false;
           lastSegmentStart := NaN;
           lastSegmentDurationS := NaN;
           lastSegmentRequestTimeMs := NaN;
           lastSegmentFinishTimeMs := NaN |}))
  end.

(** The four assignments at the end of the retarget. *)
Definition retargeted (bolaState : BolaState) (stableBufferTime : number)
    (params : BolaParameters) (placeholderBuffer : number) : BolaState :=
  {| bitrates := bitrates bolaState;
     utilities := utilities bolaState;
     stableBufferTime := stableBufferTime;
     Vp := p_Vp params;
     gp := p_gp params;
     lastQuality := lastQuality bolaState;
     placeholderBuffer := placeholderBuffer;
     mostAdvancedSegmentStart := mostAdvancedSegmentStart bolaState;
     lastSegmentWasReplacement := lastSegmentWasReplacement bolaState;
     lastSegmentStart := lastSegmentStart bolaState;
     lastSegmentDurationS := lastSegmentDurationS bolaState;
     lastSegmentRequestTimeMs := lastSegmentRequestTimeMs bolaState;
     lastSegmentFinishTimeMs := lastSegmentFinishTimeMs bolaState |}.

(** Returns the state object as the call leaves it.  [configured] is
    the local [stableBufferTime] of the source. *)
Definition checkBolaStateStableBufferTime (env : Environment)
    (bolaState : BolaState) (mediaType : string) : result BolaState :=
  let configured := getStableBufferTime env in
  if jne (stableBufferTime bolaState) configured then
    let params := calculateBolaParameters configured
                    (bitrates bolaState) (utilities bolaState) in
    (* [params.Vp] is read with no test of [params] *)
    let! params := deref params in
    if jne (p_Vp params) (Vp bolaState) || jne (p_gp params) (gp bolaState) then
      let bufferLevel := getCurrentBufferLevel env mediaType in
      let effectiveBufferLevel := jadd bufferLevel (placeholderBuffer bolaState) in
      let effectiveBufferLevel := jsub effectiveBufferLevel MINIMUM_BUFFER_S in
      let effectiveBufferLevel :=
        jmul effectiveBufferLevel (jdiv (p_Vp params) (Vp bolaState)) in
      let effectiveBufferLevel := jadd effectiveBufferLevel MINIMUM_BUFFER_S in
      Ok (retargeted bolaState configured params
            (Math_max (num 0) (jsub effectiveBufferLevel bufferLevel)))
    else Ok bolaState
  else Ok bolaState.

Definition withStates (r : Rule) (d : gmap string TrackState) : Rule :=
  {| fragmentDict := fragmentDict r; abandonDict := abandonDict r;
     bolaStateDict := Some d; throughputArray := throughputArray r |}.

Definition getBolaState (env : Environment) (rulesContext : RulesContext) (r : Rule)
  : Rule * result TrackState :=
  match getMediaType rulesContext with
  | None => (r, Throw TypeError)
  | Some mediaType =>
      (* [bolaStateDict[mediaType]] *)
      match bolaStateDict r with
      | None => (r, Throw TypeError)
      | Some dict =>
          match dict !! mediaType with
          | None =>
              match getInitialBolaState env rulesContext with
              | Throw e => (r, Throw e)
              | Ok bolaState =>
                  (withStates r (<[mediaType := bolaState]> dict), Ok bolaState)
              end
          | Some OneBitrate => (r, Ok OneBitrate)
          | Some (Startup fields) =>
              match checkBolaStateStableBufferTime env fields mediaType with
              | Throw e => (r, Throw e)
              | Ok fields' =>
                  (withStates r (<[mediaType := Startup fields']> dict),
                   Ok (Startup fields'))
              end
          end
      end
  end.

(** Same text as the switch rule's loop; [bolaState.bitrates.length]
    fails on a state object without [bitrates]. *)
Definition getQualityFromBufferLevel (bolaState : TrackState)
    (bufferLevel throughput segmentDuration : number) : result quality :=
  match bolaState with
  | OneBitrate => Throw TypeError
  | Startup fields =>
      Ok (Bola.getQualityFromBufferLevel fields bufferLevel throughput
                                              segmentDuration)
  end.

(** [fragmentDict[type][id]], as an alias of the stored object: a write to a
    field of [fragmentInfo] is a write to this entry. *)
Definition storeFragmentInfo (type : string) (id : Z) (info : FragmentInfo) (r : Rule)
  : Rule :=
  {| fragmentDict :=
       <[type := <[id := info]> (default ∅ (fragmentDict r !! type))]> (fragmentDict r);
     abandonDict := abandonDict r;
     bolaStateDict := bolaStateDict r;
     throughputArray := throughputArray r |}.

(** [delete fragmentDict[type][fragmentInfo.id]]; with an [undefined] id the
    key names no entry. *)
Definition deleteFragmentInfo (type : string) (id : option Z) (r : Rule) : Rule :=
  match id with
  | None => r
  | Some id =>
      {| fragmentDict :=
           <[type := delete id (default ∅ (fragmentDict r !! type))]> (fragmentDict r);
         abandonDict := abandonDict r;
         bolaStateDict := bolaStateDict r;
         throughputArray := throughputArray r |}
  end.

Definition withThroughputArray (r : Rule) (a : gmap string (list number)) : Rule :=
  {| fragmentDict := fragmentDict r; abandonDict := abandonDict r;
     bolaStateDict := bolaStateDict r; throughputArray := a |}.

(** The assignments made on the first progress event of a request. *)
Definition initFragmentInfo (req : FragmentRequest) (firstByte : number) (id : Z)
  : FragmentInfo :=
  {| firstByteTime := Some firstByte;
     segmentDuration := Some (duration req);
     f_bytesTotal := Some (bytesTotal req);
     id := Some id;
     f_bytesLoaded := None; elapsedTime := None;
     measuredBandwidthInKbps := None; estimatedTimeOfDownload := None |}.

Definition withProgress (info : FragmentInfo) (loaded elapsed : number) : FragmentInfo :=
  {| firstByteTime := firstByteTime info;
     segmentDuration := segmentDuration info;
     f_bytesTotal := f_bytesTotal info;
     id := id info;
     f_bytesLoaded := Some loaded; elapsedTime := Some elapsed;
     measuredBandwidthInKbps := measuredBandwidthInKbps info;
     estimatedTimeOfDownload := estimatedTimeOfDownload info |}.

Definition withEstimate (info : FragmentInfo) (bandwidth time : number) : FragmentInfo :=
  {| firstByteTime := firstByteTime info;
     segmentDuration := segmentDuration info;
     f_bytesTotal := f_bytesTotal info;
     id := id info;
     f_bytesLoaded := f_bytesLoaded info; elapsedTime := elapsedTime info;
     measuredBandwidthInKbps := Some bandwidth;
     estimatedTimeOfDownload := Some time |}.

(** [bitrateList[k].bitrate] *)
Definition bitrateOf (bitrateList : list number) (k : quality) : result number :=
  match k with
  | QNaN => Throw TypeError
  | QIndex i => deref (nth_error bitrateList i)
  end.

(** The decision of lines 267 to 285, entered when the download is
    estimated late, the request is above the lowest quality and the fragment
    is not in [abandonDict].

    Line 268 reads [segmentDuration], a [const] of this block that line 271
    initialises.  [readEarly v] is the outcome of that read, [v] being the
    value line 271 would give; in JavaScript the outcome is a
    [ReferenceError] whatever [v] is, which is how [shouldAbandon] below
    instantiates it. *)
Definition abandonDecision (readEarly : number -> result number)
    (env : Environment) (ctx : RulesContext)
    (representationInfo : RepresentationInfo) (abrController : AbrController)
    (mediaType : string) (bufferLevel : number) (fragmentInfo : FragmentInfo)
    (switchRequest : SwitchRequest) (r : Rule)
  : Rule * result SwitchRequest :=
  match getBolaState env ctx r with
  | (r, Throw e) => (r, Throw e)
  | (r, Ok bolaState) =>
      let measured := numOf (measuredBandwidthInKbps fragmentInfo) in
      let decision :=
        let! segmentDuration := readEarly (fragmentDuration representationInfo) in
        let! newQuality :=
          getQualityFromBufferLevel bolaState (jsub bufferLevel segmentDuration)
                                    measured segmentDuration in
        let bytesRemaining :=
          jsub (numOf (f_bytesTotal fragmentInfo)) (numOf (f_bytesLoaded fragmentInfo)) in
        let bitrateList := abrBitrateList abrController in
        let! newBitrate := bitrateOf bitrateList newQuality in
        let! currentBitrate := bitrateOf bitrateList (QIndex (qualityFor abrController)) in
        let estimateOtherBytesTotal :=
          jdiv (jmul (numOf (f_bytesTotal fragmentInfo)) newBitrate) currentBitrate in
        Ok (newQuality, jgt bytesRemaining estimateOtherBytesTotal) in
      match decision with
      | Throw e => (r, Throw e)
      | Ok (newQuality, true) =>
          let r :=
            {| fragmentDict := fragmentDict r;
               abandonDict := <[id fragmentInfo := fragmentInfo]> (abandonDict r);
               bolaStateDict := bolaStateDict r;
               throughputArray := throughputArray r |} in
          (deleteFragmentInfo mediaType (id fragmentInfo) r,
           Ok {| sr_quality := Chosen newQuality;
                 sr_reason :=
                   {| r_throughput := Some measured;
                      r_latency := None; r_bufferLevel := None;
                      r_placeholderBuffer := None;
                      r_fragmentID := Some (id fragmentInfo) |};
                 sr_priority := sr_priority switchRequest |})
      | Ok (_, false) => (r, Ok switchRequest)
      end
  end.

(** Lines 235 to 242: on the first progress event of a request the samples
    of the track are dropped and the entry is initialised. *)
Definition noteFirstProgress (req : FragmentRequest) (firstByte : number)
    (mediaType : string) (reqIndex : Z) (fragmentInfo : FragmentInfo) (r : Rule)
  : FragmentInfo * Rule :=
  match firstByteTime fragmentInfo with
  | None =>
      (initFragmentInfo req firstByte reqIndex,
       withThroughputArray r (<[mediaType := []]> (throughputArray r)))
  | Some _ => (fragmentInfo, r)
  end.

(** Lines 243 to 248: the bytes loaded and the elapsed time are recorded and,
    when both are positive, a throughput sample is stored. *)
Definition noteProgress (env : Environment) (req : FragmentRequest)
    (mediaType : string) (reqIndex : Z) (fragmentInfo : FragmentInfo) (r : Rule)
  : FragmentInfo * Rule :=
  let loaded := bytesLoaded req in
  let elapsed := jsub (currentTime env) (numOf (firstByteTime fragmentInfo)) in
  let fragmentInfo := withProgress fragmentInfo loaded elapsed in
  let r := storeFragmentInfo mediaType reqIndex fragmentInfo r in
  let r :=
    if jgt loaded (num 0) && jgt elapsed (num 0)
    then withThroughputArray r
           (storeLastRequestThroughputByType mediaType
              (Math_round (jdiv (jmul loaded (num 8)) elapsed))
              (throughputArray r))
    else r in
  (fragmentInfo, r).

(** Lines 250 to 289, [samples] being [throughputArray[mediaType]]. *)
Definition evaluateProgress (readEarly : number -> result number)
    (env : Environment) (ctx : RulesContext)
    (representationInfo : RepresentationInfo) (abrController : AbrController)
    (mediaType : string) (reqIndex : Z) (bufferLevel : number)
    (switchRequest : SwitchRequest) (samples : list number)
    (fragmentInfo : FragmentInfo) (r : Rule)
  : Rule * result SwitchRequest :=
  if (MIN_LENGTH_TO_AVERAGE <=? length samples)%nat
     && jgt (numOf (elapsedTime fragmentInfo)) GRACE_TIME_THRESHOLD
     && jlt (numOf (f_bytesLoaded fragmentInfo)) (numOf (f_bytesTotal fragmentInfo))
  then
    let totalSampledValue := fold_left (fun a b => jadd a b) samples (num 0) in
    let measured := Math_round (jdiv totalSampledValue (length_of samples)) in
    let estimated :=
      toFixed2 (jdiv (jdiv (jmul (numOf (f_bytesTotal fragmentInfo)) (num 8)) measured)
                     (num 1000)) in
    let fragmentInfo := withEstimate fragmentInfo measured estimated in
    let r := storeFragmentInfo mediaType reqIndex fragmentInfo r in
    if jlt estimated (jmul (numOf (segmentDuration fragmentInfo)) ABANDON_MULTIPLIER)
       || (quality_index representationInfo =? 0)%nat
    then (r, Ok switchRequest)
    else if negb (has (abandonDict r !! id fragmentInfo))
    then abandonDecision readEarly env ctx representationInfo abrController
           mediaType bufferLevel fragmentInfo switchRequest r
    else (r, Ok switchRequest)
  else if jeq (numOf (f_bytesLoaded fragmentInfo)) (numOf (f_bytesTotal fragmentInfo))
  then (deleteFragmentInfo mediaType (id fragmentInfo) r, Ok switchRequest)
  else (r, Ok switchRequest).

Definition shouldAbandonWith (readEarly : number -> result number)
    (env : Environment) (rulesContext : option RulesContext) (r : Rule)
  : Rule * result SwitchRequest :=
  let switchRequest := SwitchRequest_create in
  match rulesContext with
  | None => (r, Ok switchRequest)
  | Some ctx =>
      if negb (has (getMediaInfo ctx)) || negb (has (getMediaType ctx))
         || negb (has (getCurrentRequest ctx)) || negb (has (getRepresentationInfo ctx))
         || negb (has (getAbrController ctx))
      then (r, Ok switchRequest)
      else
        match getMediaType ctx, getCurrentRequest ctx,
              getRepresentationInfo ctx, getAbrController ctx with
        | Some mediaType, Some req, Some representationInfo, Some abrController =>
            (* [rulesContext.getStreamInfo()]: the guard above does not ask for
               this accessor *)
            match getStreamInfo ctx, index req with
            | None, _ => (r, Throw TypeError)
            | Some _, None => (r, Ok switchRequest)
            | Some _, Some reqIndex =>
                let r :=
                  {| fragmentDict :=
                       setFragmentRequestDict mediaType reqIndex (fragmentDict r);
                     abandonDict := abandonDict r;
                     bolaStateDict := bolaStateDict r;
                     throughputArray := throughputArray r |} in
                let bufferLevel := getCurrentBufferLevel env mediaType in
                let fragmentInfo :=
                  default emptyFragmentInfo
                          (default ∅ (fragmentDict r !! mediaType) !! reqIndex) in
                match firstByteDate req with
                | None => (r, Ok switchRequest)
                | Some firstByte =>
                    if has (abandonDict r !! id fragmentInfo) then (r, Ok switchRequest)
                    else
                      let '(fragmentInfo, r) :=
                        noteFirstProgress req firstByte mediaType reqIndex
                                          fragmentInfo r in
                      let '(fragmentInfo, r) :=
                        noteProgress env req mediaType reqIndex fragmentInfo r in
                      (* [throughputArray[mediaType].length] *)
                      match throughputArray r !! mediaType with
                      | None => (r, Throw TypeError)
                      | Some samples =>
                          evaluateProgress readEarly env ctx representationInfo
                            abrController mediaType reqIndex bufferLevel
                            switchRequest samples fragmentInfo r
                      end
                end
            end
        | _, _, _, _ => (r, Ok switchRequest) (* excluded by the guard *)
        end
  end.

(** The read of a [const] before its declaration has run. *)
Definition temporalDeadZone (later : number) : result number := Throw ReferenceError.

Definition shouldAbandon : Environment -> option RulesContext -> Rule
                           -> Rule * result SwitchRequest :=
  shouldAbandonWith temporalDeadZone.

(** One progress notification: the context handed to the rule, and what the
    injected models and the clock answer during the call. *)
Record Notification : Type := {
  n_env : Environment;
  n_context : option RulesContext
}.

(** The rule fed a sequence of notifications; an exception leaves the rule
    as the interrupted call left it.  Returns the outcome of each call. *)
Fixpoint run (readEarly : number -> result number) (r : Rule)
    (notifications : list Notification) : list (result SwitchRequest) * Rule :=
  match notifications with
  | [] => ([], r)
  | n :: rest =>
      let '(r, outcome) := shouldAbandonWith readEarly (n_env n) (n_context n) r in
      let '(outcomes, r) := run readEarly r rest in
      (outcome :: outcomes, r)
  end.

End WithLog.

End Abandon.

(* ===================================================================== *)
(** ** The sample [LABRule] files: the loop without a cap *)
(* ===================================================================== *)

Module LABRule.

Section LookAhead.

(** The scoring line names [bolaState], which the function (whose parameter
    is [state]) and the file do not declare: [None] when no global of that
    name exists either, otherwise the object it holds. *)
Variable bolaState : option BolaState.

Variables (state : BolaState) (bufferLevel throughput segmentDuration : number).

Definition bitrateCount : nat := length (bitrates state).

(** The [maxIte] field of the record is not a variable of this loop and
    keeps the value 0. *)
Definition loopInit : LoopState :=
  {| quality_ := QNaN; bitrate := NaN; prev_bitrate := NaN;
     LABLevel := bufferLevel; maxIte := 0 |}.

Definition loopCond (st : LoopState) : bool :=
  isNaN (bitrate st) || jne (bitrate st) (prev_bitrate st).

Definition projectedLevel (bitrate : number) : number :=
  jadd bufferLevel
       (jmul (jsub (num 1) (jdiv (jdiv bitrate throughput) (num 1000)))
             segmentDuration).

(** The [for] loop: its body, when it runs at all, reads [bolaState]. *)
Definition scoringPassOf (LABLevel : number) (q : quality) : result quality :=
  match bitrateCount with
  | O => Ok q
  | S _ =>
      match bolaState with
      | None => Throw ReferenceError
      | Some bolaState => Ok (snd (scoringPass bolaState bitrateCount LABLevel q))
      end
  end.

Definition loopBody (st : LoopState) : result (LoopState * bool) :=
  let! quality := scoringPassOf (LABLevel st) (quality_ st) in
  let prev_bitrate := bitrate st in
  let bitrate := bitrate_at state quality in
  let LABLevel := projectedLevel bitrate in
  Ok ({| quality_ := quality; bitrate := bitrate; prev_bitrate := prev_bitrate;
         LABLevel := LABLevel; maxIte := maxIte st |}, false).

(** [None]: the loop is still running after [fuel] passes. *)
Definition getQualityFromBufferLevel (fuel : nat) : option (result quality) :=
  match while_loop loopCond loopBody fuel loopInit with
  | None => None
  | Some (Throw e) => Some (Throw e)
  | Some (Ok st) => Some (Ok (quality_ st))
  end.

End LookAhead.

End LABRule.

(* ===================================================================== *)
(** ** Predicates used by the statements *)
(* ===================================================================== *)

(** What the [for] loop of a scoring pass has established after [n] rounds:
    the pair holds an index [c < n] and its score, no index below [n] scores
    more, no index between [c] and [n] scores as much, and a [NaN] score at
    [c] means that all the scores so far are [NaN]. *)
Definition bestSoFar (bolaState : BolaState) (level : number)
    (n : nat) (acc : number * quality) : Prop :=
  let score := score_of bolaState level in
  exists c, acc = (score c, QIndex c) /\ (c < n)%nat
    /\ (forall i, (i < n)%nat -> jgt (score i) (score c) = false)
    /\ (forall i, (c < i < n)%nat -> jge (score i) (score c) = false)
    /\ (isNaN (score c) = true -> forall i, (i < n)%nat -> isNaN (score i) = true).

(** [quality1 <= quality2] on what the loop returns ([NaN] compares false). *)
Definition quality_leb (q1 q2 : quality) : bool :=
  match q1, q2 with
  | QIndex i, QIndex j => (i <=? j)%nat
  | _, _ => false
  end.

(** The rational a finite number holds. *)
Definition qOf (x : number) : Q :=
  match x with Fin q => q | _ => 0 end.

(** [prev < l[0] < l[1] < ...] *)
Fixpoint ascendingFrom (prev : number) (l : list number) : bool :=
  match l with
  | [] => true
  | b :: t => jlt prev b && ascendingFrom b t
  end.

(** A ladder as the data model describes it: every number of the state is
    finite, there is a utility for each bitrate, and the bitrates are
    positive and strictly increasing by index. *)
Definition properLadder (bolaState : BolaState) : bool :=
  forallb isFinite (bitrates bolaState)
  && forallb isFinite (utilities bolaState)
  && (length (bitrates bolaState) <=? length (utilities bolaState))%nat
  && isFinite (Vp bolaState) && isFinite (gp bolaState)
  && ascendingFrom (num 0) (bitrates bolaState).

(** The operations that write to a track state once it exists: the clear on
    seek, the retarget (which leaves the state alone when it throws, the
    exception coming before its first write) and the recording of the last
    decided quality. *)
Inductive stateOp : Type :=
| OpClearOnSeek
| OpRetarget (env : Environment) (mediaType : string)
| OpDecide (q : quality).

Definition applyOp (bolaState : BolaState) (op : stateOp) : BolaState :=
  match op with
  | OpClearOnSeek => clearBolaStateOnSeek bolaState
  | OpRetarget env mediaType =>
      match Abandon.checkBolaStateStableBufferTime env bolaState mediaType with
      | Ok bolaState' => bolaState'
      | Throw _ => bolaState
      end
  | OpDecide q => Bola.setLastQuality q bolaState
  end.

(** The operation reads finite numbers from its environment. *)
Definition finiteOp (op : stateOp) : bool :=
  match op with
  | OpRetarget env mediaType =>
      isFinite (getStableBufferTime env) && isFinite (getCurrentBufferLevel env mediaType)
  | _ => true
  end.

(** What the finite-input part of the placeholder invariant carries along:
    a finite positive [Vp], a finite non-negative placeholder buffer, a
    ladder with at least one bitrate, and a highest utility that is finite,
    above 1 and not at index 0. *)
Definition soundState (bolaState : BolaState) : Prop :=
  (exists v, Vp bolaState = Fin v /\ 0 < v)
  /\ (exists p, placeholderBuffer bolaState = Fin p /\ 0 <= p)
  /\ (0 < length (bitrates bolaState))%nat
  /\ highestUtilityIndex (utilities bolaState) <> 0%nat
  /\ (exists q, at_index (utilities bolaState)
                        (highestUtilityIndex (utilities bolaState)) = Fin q
                /\ 1 < q).

(** The outcome is an abandon decision for fragment [k]: a switch request
    with a quality set, whose diagnostics name the fragment. *)
Definition abandons (outcome : result SwitchRequest) (k : Z) : Prop :=
  exists switchRequest,
    outcome = Ok switchRequest
    /\ sr_quality switchRequest <> NO_CHANGE
    /\ r_fragmentID (sr_reason switchRequest) = Some (Some k).

(** The outcome is a decision that changes nothing. *)
Definition noChange (outcome : result SwitchRequest) : Prop :=
  exists switchRequest,
    outcome = Ok switchRequest /\ sr_quality switchRequest = NO_CHANGE.

(** The index of the request a notification reports on. *)
Definition requestIndex (n : Abandon.Notification) : option Z :=
  match Abandon.n_context n with
  | Some ctx =>
      match getCurrentRequest ctx with
      | Some req => index req
      | None => None
      end
  | None => None
  end.

(** The quality index of the request a notification reports on. *)
Definition currentQuality (n : Abandon.Notification) : option nat :=
  match Abandon.n_context n with
  | Some ctx =>
      match getRepresentationInfo ctx with
      | Some representationInfo => Some (quality_index representationInfo)
      | None => None
      end
  | None => None
  end.

(** The context of the notification, if any, has [getStreamInfo]. *)
Definition offersStreamInfo (n : Abandon.Notification) : bool :=
  match Abandon.n_context n with
  | Some ctx => has (getStreamInfo ctx)
  | None => true
  end.

(** [fragmentDict[type][k]] *)
Definition fragmentAt (fragmentDict : gmap string (gmap Z Abandon.FragmentInfo))
    (type : string) (k : Z) : option Abandon.FragmentInfo :=
  default ∅ (fragmentDict !! type) !! k.

(** A bookkeeping entry stored under index [k] is untouched (no first byte
    time, no id) or initialised (a first byte time, and the id [k]). *)
Definition wfInfo (k : Z) (info : Abandon.FragmentInfo) : Prop :=
  (Abandon.firstByteTime info = None /\ Abandon.id info = None)
  \/ (Abandon.firstByteTime info <> None /\ Abandon.id info = Some k).

Definition wfRule (r : Abandon.Rule) : Prop :=
  forall type k info,
    fragmentAt (Abandon.fragmentDict r) type k = Some info -> wfInfo k info.

(** The entries of [r'] are those of [r], except perhaps the one of
    [(t, k)], which is absent or well formed. *)
Definition sameExceptAt (t : string) (k : Z) (r r' : Abandon.Rule) : Prop :=
  forall t' k',
    fragmentAt (Abandon.fragmentDict r') t' k' = fragmentAt (Abandon.fragmentDict r) t' k'
    \/ (t' = t /\ k' = k
        /\ (fragmentAt (Abandon.fragmentDict r') t' k' = None
            \/ exists info, fragmentAt (Abandon.fragmentDict r') t' k' = Some info
                            /\ wfInfo k info)).

(** What one call of the abandonment rule guarantees, from rule [r] to rule
    [r'] with outcome [o] on notification [n]: the bookkeeping stays well
    formed; [abandonDict] only grows; an abandon decision for fragment [k]
    is made on a notification about [k] whose quality index is not 0, for a
    [k] that was not in [abandonDict] and is in it afterwards; and a
    notification about a fragment already in [abandonDict] gets a decision
    that changes nothing. *)
Definition stepSpec (n : Abandon.Notification) (r r' : Abandon.Rule)
    (o : result SwitchRequest) : Prop :=
  wfRule r'
  /\ (forall key, is_Some (Abandon.abandonDict r !! key) ->
                  is_Some (Abandon.abandonDict r' !! key))
  /\ (forall k, abandons o k ->
         Abandon.abandonDict r !! Some k = None
         /\ is_Some (Abandon.abandonDict r' !! Some k)
         /\ requestIndex n = Some k
         /\ currentQuality n <> Some 0%nat)
  /\ (forall k, is_Some (Abandon.abandonDict r !! Some k) ->
         requestIndex n = Some k -> offersStreamInfo n = true -> noChange o).

(* ===================================================================== *)
(** ** Example inputs *)
(* ===================================================================== *)

(** A three-tier ladder, 500, 1000 and 2000 kbit/s, with the normalised
    utilities [1], [1 + ln 2], [1 + 2 ln 2] to three decimals. *)
Definition ladder3 : list number := [num 500000; num 1000000; num 2000000].
Definition utilities3 : list number := [Fin 1; Fin (1693 # 1000); Fin (2386 # 1000)].

(** A track state over a ladder, with the constants that
    [calculateBolaParameters] derives and the fields a fresh state has. *)
Definition stateOver (bitrates utilities : list number) (stableBufferTime : number)
  : option BolaState :=
  match calculateBolaParameters stableBufferTime bitrates utilities with
  | None => None
  | Some params =>
      Some (clearBolaStateOnSeek
              {| bitrates := bitrates; utilities := utilities;
                 stableBufferTime := stableBufferTime;
                 Vp := p_Vp params; gp := p_gp params;
                 lastQuality := QIndex 0;
                 placeholderBuffer := NaN;
                 mostAdvancedSegmentStart := NaN;
                 lastSegmentWasReplacement := false;
                 lastSegmentStart := NaN;
                 lastSegmentDurationS := NaN;
                 lastSegmentRequestTimeMs := NaN;
                 lastSegmentFinishTimeMs := NaN |})
  end.

(** The state of the three-tier ladder for a 12 s target:
    [gp = 2.31], [Vp = 10 / 2.31]. *)
Definition state3 : BolaState :=
  clearBolaStateOnSeek
    {| bitrates := ladder3; utilities := utilities3;
       stableBufferTime := num 12;
       Vp := Fin (60000 # 13860); gp := Fin (13860 # 6000);
       lastQuality := QIndex 0;
       placeholderBuffer := NaN;
       mostAdvancedSegmentStart := NaN;
       lastSegmentWasReplacement := false;
       lastSegmentStart := NaN;
       lastSegmentDurationS := NaN;
       lastSegmentRequestTimeMs := NaN;
       lastSegmentFinishTimeMs := NaN |}.

(** An environment with the same buffer level for every track. *)
Definition envOf (stableBufferTime bufferLevel now : number) : Environment :=
  {| getStableBufferTime := stableBufferTime;
     getCurrentBufferLevel := fun _ => bufferLevel;
     currentTime := now |}.

(** A context with every accessor, for a video track. *)
Definition videoContext (bandwidths : list number) (throughput : number)
    (segmentDuration : number) (currentQuality : nat)
    (request : FragmentRequest) : RulesContext :=
  {| getMediaInfo := Some {| bitrateList := bandwidths |};
     getMediaType := Some "video"%string;
     getScheduleController := Some tt;
     getStreamInfo := Some tt;
     getAbrController :=
       Some {| averageThroughput := throughput; averageLatency := num 20;
               abrBitrateList := bandwidths; qualityFor := currentQuality |};
     useBufferOccupancyABR := Some true;
     getRepresentationInfo :=
       Some {| fragmentDuration := segmentDuration; quality_index := currentQuality |};
     getCurrentRequest := Some request |}.

(** Fragment 7: 2 000 000 bytes for 4 s of media, first byte at time 0, of
    which [loaded] bytes have arrived. *)
Definition fragment7 (loaded : Z) : FragmentRequest :=
  {| index := Some 7%Z; firstByteDate := Some (num 0); duration := num 4;
     bytesTotal := num 2000000; bytesLoaded := num loaded |}.

(** The progress notification of fragment 7 at time [now] ms, the download
    running at quality 2 of the three-tier ladder with 25 bytes arriving per
    millisecond (200 kbit/s), 9 s in the buffer and a 12 s target. *)
Definition progress7 (now : Z) : Abandon.Notification :=
  {| Abandon.n_env := envOf (num 12) (num 9) (num now);
     Abandon.n_context :=
       Some (videoContext ladder3 (num 1000) (num 4) 2 (fragment7 (25 * now))) |}.

(** Six notifications, 100 ms apart. *)
Definition slowDownload : list Abandon.Notification :=
  map progress7 [100; 200; 300; 400; 500; 600]%Z.

(** The abandonment rule with a state dictionary that holds the three-tier
    state for the video track (the value the variable would need). *)
Definition abandonRuleWithStates : Abandon.Rule :=
  {| Abandon.fragmentDict := ∅; Abandon.abandonDict := ∅;
     Abandon.bolaStateDict := Some {[ "video"%string := Abandon.Startup state3 ]};
     Abandon.throughputArray := ∅ |}.

(** A ladder with a single bitrate. *)
Definition singleBitrateContext : RulesContext :=
  videoContext [num 500000] (num 1000) (num 4) 0 (fragment7 0).

(** A stand-in for [Math.log] on the three-tier ladder: the natural
    logarithms of its bitrates to three decimals, 0 elsewhere. *)
Definition logTable (x : number) : number :=
  if jeq x (num 500000) then Fin (13122 # 1000)
  else if jeq x (num 1000000) then Fin (13816 # 1000)
  else if jeq x (num 2000000) then Fin (14509 # 1000)
  else Fin 0.

(** The state the abandonment rule creates for the three-tier ladder with
    [logTable] and a 12 s target. *)
Definition createdExample : BolaState :=
  match Abandon.getInitialBolaState logTable (envOf (num 12) (num 9) (num 0))
          (videoContext ladder3 (num 1000) (num 4) 2 (fragment7 0)) with
  | Ok (Abandon.Startup fields) => fields
  | _ => state3
  end.

(** A retarget to 30 s with 15 s buffered, a decision, a retarget to 20 s, a
    seek and a retarget to 30 s. *)
Definition exampleOps : list stateOp :=
  [OpRetarget (envOf (num 30) (num 15) (num 0)) "video"%string;
   OpDecide (QIndex 1);
   OpRetarget (envOf (num 20) (num 15) (num 0)) "video"%string;
   OpClearOnSeek;
   OpRetarget (envOf (num 30) (num 15) (num 0)) "video"%string].

(** Thirteen notifications of the slow download, 100 ms apart. *)
Definition longSlowDownload : list Abandon.Notification :=
  map progress7 [100; 200; 300; 400; 500; 600; 700; 800; 900; 1000; 1100; 1200; 1300]%Z.

(** 1 for an abandon decision, 0 for a decision that changes nothing, 2 for
    an exception. *)
Definition outcomeKind (o : result SwitchRequest) : nat :=
  match o with
  | Ok switchRequest =>
      match sr_quality switchRequest with NO_CHANGE => 0 | Chosen _ => 1 end
  | Throw _ => 2
  end.

(* ===================================================================== *)
(** ** Further predicates and examples *)
(* ===================================================================== *)

(** What the [reduce] of [calculateBolaParameters] has established once the
    first [n] utilities of [l] are seen and [acc] is the index kept: [acc]
    is 0 or below [n], no utility seen is greater than the one at [acc], and
    none before [acc] is as great. *)
Definition firstMaximumSoFar (l : list number) (n acc : nat) : Prop :=
  (acc = 0%nat \/ (acc < n)%nat)
  /\ (forall i, (i < n)%nat -> jgt (at_index l i) (at_index l acc) = false)
  /\ (forall i, (i < acc)%nat -> jge (at_index l i) (at_index l acc) = false).

(** The context has the six accessors the guard of [getMaxIndex] asks for. *)
Definition offersSwitchAccessors (ctx : RulesContext) : bool :=
  has (getMediaInfo ctx) && has (getMediaType ctx)
  && has (getScheduleController ctx) && has (getStreamInfo ctx)
  && has (getAbrController ctx) && has (useBufferOccupancyABR ctx).

(** One call of the switch rule: what the injected models answer, and the
    context handed over. *)
Record SwitchCall : Type := {
  c_env : Environment;
  c_context : option RulesContext
}.

(** The switch rule called in sequence; an exception leaves the rule as the
    interrupted call left it.  Returns the outcome of each call. *)
Fixpoint switchRun (Math_log : number -> number) (r : Bola.Rule)
    (calls : list SwitchCall) : list (result SwitchRequest) * Bola.Rule :=
  match calls with
  | [] => ([], r)
  | c :: rest =>
      let '(r, outcome) := Bola.getMaxIndex Math_log (c_env c) (c_context c) r in
      let '(outcomes, r) := switchRun Math_log r rest in
      (outcome :: outcomes, r)
  end.

(** What a call of [getMaxIndex] may answer: a [TypeError], or a request
    without quality and with [DEFAULT] priority. *)
Definition switchOutcomeOk (o : result SwitchRequest) : Prop :=
  match o with
  | Throw e => e = TypeError
  | Ok switchRequest =>
      sr_quality switchRequest = NO_CHANGE /\ sr_priority switchRequest = DEFAULT
  end.

(** Every state of the dictionary is as its creation left it: at least two
    bitrates, 0 as last quality and a placeholder buffer of 0. *)
Definition statesAsCreated (r : Bola.Rule) : Prop :=
  forall mediaType bolaState,
    Bola.bolaStateDict r !! mediaType = Some bolaState ->
    (1 < length (bitrates bolaState))%nat
    /\ lastQuality bolaState = QIndex 0
    /\ placeholderBuffer bolaState = num 0.

(** A call of the switch rule for the video track of the three-tier ladder:
    throughput 1000 kbit/s, 8 s segments, a 12 s target and [level] seconds
    in the buffer. *)
Definition videoCall (level : Z) : SwitchCall :=
  {| c_env := envOf (num 12) (num level) (num 0);
     c_context := Some (videoContext ladder3 (num 1000) (num 8) 0 (fragment7 0)) |}.


(** The video context of the three-tier ladder with buffer-occupancy ABR
    switched off. *)
Definition optedOutContext : RulesContext :=
  {| getMediaInfo := Some {| bitrateList := ladder3 |};
     getMediaType := Some "video"%string;
     getScheduleController := Some tt;
     getStreamInfo := Some tt;
     getAbrController :=
       Some {| averageThroughput := num 1000; averageLatency := num 20;
               abrBitrateList := ladder3; qualityFor := 0 |};
     useBufferOccupancyABR := Some false;
     getRepresentationInfo := Some {| fragmentDuration := num 8; quality_index := 0 |};
     getCurrentRequest := None |}.

(** The conditions under which the rule abandons the request of entry
    [info], given the samples of the track and the bitrate list and current
    quality the ABR controller reports: at least five samples, more than
    500 ms since the first byte, bytes still missing, the rounded mean of the
    samples as measured bandwidth, the estimated download time computed from
    it and not below 1.8 times the segment duration, and a new quality whose
    estimated total size is strictly below the bytes that remain. *)
Definition abandonConditions (info : Abandon.FragmentInfo) (samples : list number)
    (abrController : AbrController) (newQuality : quality) : Prop :=
  (Abandon.MIN_LENGTH_TO_AVERAGE <= length samples)%nat
  /\ jgt (Abandon.numOf (Abandon.elapsedTime info)) Abandon.GRACE_TIME_THRESHOLD = true
  /\ jlt (Abandon.numOf (Abandon.f_bytesLoaded info))
         (Abandon.numOf (Abandon.f_bytesTotal info)) = true
  /\ Abandon.measuredBandwidthInKbps info
     = Some (Math_round (jdiv (fold_left (fun a b => jadd a b) samples (num 0))
                              (length_of samples)))
  /\ Abandon.estimatedTimeOfDownload info
     = Some (toFixed2
               (jdiv (jdiv (jmul (Abandon.numOf (Abandon.f_bytesTotal info)) (num 8))
                           (Abandon.numOf (Abandon.measuredBandwidthInKbps info)))
                     (num 1000)))
  /\ jlt (Abandon.numOf (Abandon.estimatedTimeOfDownload info))
         (jmul (Abandon.numOf (Abandon.segmentDuration info)) Abandon.ABANDON_MULTIPLIER)
     = false
  /\ exists newBitrate currentBitrate,
       Abandon.bitrateOf (abrBitrateList abrController) newQuality = Ok newBitrate
       /\ Abandon.bitrateOf (abrBitrateList abrController)
                            (QIndex (qualityFor abrController)) = Ok currentBitrate
       /\ jgt (jsub (Abandon.numOf (Abandon.f_bytesTotal info))
                    (Abandon.numOf (Abandon.f_bytesLoaded info)))
              (jdiv (jmul (Abandon.numOf (Abandon.f_bytesTotal info)) newBitrate)
                    currentBitrate) = true.

(** A switch rule that already holds the state of the three-tier ladder for
    the video track. *)
Definition ruleWithVideoState : Bola.Rule :=
  {| Bola.bolaStateDict := {[ "video"%string := state3 ]};
     Bola.timeToLoadDelay := None |}.

(** The abandonment rule after the first five notifications of the slow
    download, the early read being answered. *)
Definition ruleAfterFiveSamples : Abandon.Rule :=
  snd (Abandon.run logTable Ok abandonRuleWithStates (take 5 slowDownload)).

(** The decision of an outcome, the fresh request standing for an
    exception. *)
Definition decisionOf (o : result SwitchRequest) : SwitchRequest :=
  match o with Ok switchRequest => switchRequest | Throw _ => SwitchRequest_create end.

(** The loop variables of the sample rule's loop, which has no [maxIte]:
    the field keeps the 0 of [LABRule.loopInit]. *)
Definition withoutCap (st : LoopState) : LoopState :=
  {| quality_ := quality_ st; bitrate := bitrate st; prev_bitrate := prev_bitrate st;
     LABLevel := LABLevel st; maxIte := 0 |}.

(** ** The byte count of a request (sample rule) *)

(** An HTTP request as the sample rule reads it: its [trace], a list of
    entries, each with an array [b] of byte counts.  [None] is a property
    that is not there. *)
Module HTTPRequest.

Record TraceEntry : Type := { b : option (list number) }.

Record t : Type := { trace : option (list TraceEntry) }.

End HTTPRequest.

(** [request.trace.reduce(function (a, b) { return a + b.b[0]; }, 0)]; an
    exception in the callback ends the reduction. *)
Definition getBytesLength (request : HTTPRequest.t) : result number :=
  let! trace := deref (HTTPRequest.trace request) in
  reduce (fun a entry _ =>
            let! a := a in
            let! bytes := deref (HTTPRequest.b entry) in
            Ok (jadd a (at_index bytes 0)))
         trace (Ok (num 0)).

(** The first byte count of each entry of a trace, when every entry has its
    array and the array starts with a finite number. *)
Fixpoint firstByteCounts (trace : list HTTPRequest.TraceEntry) : option (list Q) :=
  match trace with
  | [] => Some []
  | entry :: rest =>
      match HTTPRequest.b entry, firstByteCounts rest with
      | Some (Fin q :: _), Some qs => Some (q :: qs)
      | _, _ => None
      end
  end.

(** A request whose trace has three entries of 1000, 500 and 250 bytes. *)
Definition tracedRequest : HTTPRequest.t :=
  {| HTTPRequest.trace :=
       Some [ {| HTTPRequest.b := Some [num 1000] |};
              {| HTTPRequest.b := Some [num 500; num 7] |};
              {| HTTPRequest.b := Some [num 250] |} ] |}.

(** The same trace with an empty array in the middle. *)
Definition gappedRequest : HTTPRequest.t :=
  {| HTTPRequest.trace :=
       Some [ {| HTTPRequest.b := Some [num 1000] |};
              {| HTTPRequest.b := Some [] |};
              {| HTTPRequest.b := Some [num 250] |} ] |}.

(** Every full state of the dictionary has its highest utility away from
    index 0, which is what the creation of a full state requires. *)
Definition createdByRule (dict : gmap string Abandon.TrackState) : Prop :=
  forall mediaType fields,
    dict !! mediaType = Some (Abandon.Startup fields) ->
    highestUtilityIndex (utilities fields) <> 0%nat.

(** [throughputArray[type].length], 0 when the track has no array. *)
Definition samplesOf (r : Abandon.Rule) (type : string) : nat :=
  length (default [] (Abandon.throughputArray r !! type)).

(** A state over the three-tier ladder with utilities 1, 2 and 3, as a 30 s
    target gives it ([gp = (3 - 1) / (30 / 10 - 1) = 1], [Vp = 10 / 1]),
    with 6 s in the placeholder buffer. *)
Definition state123 : BolaState :=
  {| bitrates := ladder3; utilities := [num 1; num 2; num 3];
     stableBufferTime := num 30;
     Vp := num 10; gp := num 1;
     lastQuality := QIndex 0;
     placeholderBuffer := num 6;
     mostAdvancedSegmentStart := NaN;
     lastSegmentWasReplacement := false;
     lastSegmentStart := NaN;
     lastSegmentDurationS := NaN;
     lastSegmentRequestTimeMs := NaN;
     lastSegmentFinishTimeMs := NaN |}.

(** The indices that the passes of a run of the look-ahead loop choose, the
    run leaving on a stable bitrate at the last of them.  The pass scores
    against [level], starting from quality [q], and chooses the head of the
    list; [previous] is the bitrate of the pass before.  When other passes
    follow, the bitrate chosen is not a number or differs from [previous],
    and the next pass scores against
    [bufferLevel + (1 - bitrate / throughput / 1000) * segmentDuration];
    at the last pass the bitrate chosen is a number equal to [previous]. *)
Fixpoint lookAheadPicks (bolaState : BolaState)
    (bufferLevel throughput segmentDuration : number)
    (level : number) (q : quality) (previous : number) (picks : list nat) : Prop :=
  match picks with
  | [] => True
  | c :: rest =>
      let chosenBitrate := at_index (bitrates bolaState) c in
      snd (scoringPass bolaState (length (bitrates bolaState)) level q) = QIndex c
      /\ match rest with
         | [] => isNaN chosenBitrate = false /\ jeq chosenBitrate previous = true
         | _ :: _ =>
             (isNaN chosenBitrate = true \/ jeq chosenBitrate previous = false)
             /\ lookAheadPicks bolaState bufferLevel throughput segmentDuration
                  (jadd bufferLevel
                        (jmul (jsub (num 1)
                                    (jdiv (jdiv chosenBitrate throughput) (num 1000)))
                              segmentDuration))
                  (QIndex c) chosenBitrate rest
         end
  end.

(** ** Where double precision orders the scores as exact arithmetic does *)

(** The source computes the scores and the projected levels in double
    precision, each operation with a relative error of at most [2^-53]; the
    embedding computes them exactly.  The two agree on the order of two
    scores as soon as the exact scores differ by more than the error the
    doubles can have made.  [tolerance], about a billionth, is far above
    [2^-53]; [magnitudeBound] keeps every intermediate result far from
    overflow. *)
Definition tolerance : Q := 1 # (2 ^ 30).

Definition magnitudeBound : Q := inject_Z (2 ^ 100).

(** The exact score of tier [i] at working level [level]. *)
Definition exactScore (bolaState : BolaState) (level : Q) (i : nat) : Q :=
  (qOf (Vp bolaState)
   * (qOf (at_index (utilities bolaState) i) + qOf (gp bolaState)) - level)
  / qOf (at_index (bitrates bolaState) i).

(** The size of the numbers that enter the score of tier [i] in a run from
    [bufferLevel]: the product [Vp * (utilities[i] + gp)], the working
    level, which is the buffer level moved by at most
    [(1 + bitrate / throughput / 1000) * segmentDuration], and 1 as a floor,
    all divided by the bitrate as the score is. *)
Definition scoreScale (bolaState : BolaState)
    (bufferLevel throughput segmentDuration : Q) (i : nat) : Q :=
  let highestBitrate :=
    qOf (at_index (bitrates bolaState) (length (bitrates bolaState) - 1)) in
  (1
   + Qabs (qOf (Vp bolaState))
     * (Qabs (qOf (at_index (utilities bolaState) i)) + Qabs (qOf (gp bolaState)))
   + Qabs bufferLevel
   + (1 + highestBitrate / throughput / 1000) * segmentDuration)
  / qOf (at_index (bitrates bolaState) i).

(** The working levels a run from [bufferLevel] can score against: the
    buffer level, and the level projected from each bitrate of the ladder. *)
Definition workingLevels (bolaState : BolaState)
    (bufferLevel throughput segmentDuration : Q) : list Q :=
  bufferLevel
  :: map (fun bitrate =>
            bufferLevel + (1 - qOf bitrate / throughput / 1000) * segmentDuration)
         (bitrates bolaState).

(** At every working level of the run, any two tiers have exact scores that
    differ by more than [tolerance] times their scales. *)
Definition scoresSeparated (bolaState : BolaState)
    (bufferLevel throughput segmentDuration : Q) : bool :=
  let n := length (bitrates bolaState) in
  let scale := scoreScale bolaState bufferLevel throughput segmentDuration in
  forallb (fun level =>
    forallb (fun j =>
      forallb (fun i =>
        negb (Qle_bool (Qabs (exactScore bolaState level i
                              - exactScore bolaState level j))
                       (tolerance * (scale i + scale j))))
        (seq 0 j))
      (seq 0 n))
    (workingLevels bolaState bufferLevel throughput segmentDuration).

(** No input is larger than [2^100] in size, and the bitrates and the
    throughput are at least [2^-100]. *)
Definition magnitudesBounded (bolaState : BolaState)
    (bufferLevel throughput segmentDuration : Q) : bool :=
  forallb (fun x => Qle_bool (Qabs (qOf x)) magnitudeBound)
          (Vp bolaState :: gp bolaState :: utilities bolaState ++ bitrates bolaState)
  && forallb (fun x => Qle_bool (/ magnitudeBound) (qOf x)) (bitrates bolaState)
  && Qle_bool (Qabs bufferLevel) magnitudeBound
  && Qle_bool segmentDuration magnitudeBound
  && Qle_bool (/ magnitudeBound) throughput
  && Qle_bool throughput magnitudeBound.

(** The inputs of a run on which the choices the source makes in double
    precision are the choices of exact arithmetic. *)
Definition roundingKeepsOrder (bolaState : BolaState)
    (bufferLevel throughput segmentDuration : Q) : bool :=
  magnitudesBounded bolaState bufferLevel throughput segmentDuration
  && scoresSeparated bolaState bufferLevel throughput segmentDuration.

(* ===================================================================== *)
(** * Properties *)
(* ===================================================================== *)

(** ** Order on numbers *)

Lemma jle_refl (x : number) : isNaN x = false -> jle x x = true.
Proof.
  destruct x as [|[]|a]; simpl; try easy.
  intros _. apply Qle_bool_iff. apply Qle_refl.
Qed.

Lemma jle_trans (x y z : number) :
  jle x y = true -> jle y z = true -> jle x z = true.
Proof.
  destruct x as [|[]|a], y as [|[]|b], z as [|[]|c]; simpl; try easy.
  rewrite !Qle_bool_iff. apply Qle_trans.
Qed.

Lemma jle_total (x y : number) :
  isNaN x = false -> isNaN y = false -> jle x y = true \/ jle y x = true.
Proof.
  destruct x as [|[]|a], y as [|[]|b]; simpl; try easy; auto.
  intros _ _. rewrite !Qle_bool_iff.
  destruct (Qlt_le_dec a b) as [H|H]; [left; apply Qlt_le_weak, H | right; exact H].
Qed.

Lemma jle_NaN_l (y : number) : jle NaN y = false.
Proof. reflexivity. Qed.

Lemma jle_NaN_r (x : number) : jle x NaN = false.
Proof. destruct x as [|[]|a]; reflexivity. Qed.

Lemma jle_true_not_NaN (x y : number) :
  jle x y = true -> isNaN x = false /\ isNaN y = false.
Proof. destruct x as [|[]|a], y as [|[]|b]; simpl; auto; discriminate. Qed.

Lemma jlt_irrefl (x : number) : jlt x x = false.
Proof. unfold jlt. destruct (jle x x); reflexivity. Qed.

Lemma jlt_false_jle (x y : number) :
  isNaN x = false -> isNaN y = false -> jlt x y = false -> jle y x = true.
Proof.
  intros Hx Hy. unfold jlt.
  destruct (jle_total x y Hx Hy) as [H|H]; rewrite H; [|reflexivity].
  simpl. destruct (jle y x); [reflexivity | discriminate].
Qed.


Lemma Math_max_zero (x : number) :
  Math_max (num 0) x = NaN \/ jle (num 0) (Math_max (num 0) x) = true.
Proof.
  destruct x as [|[]|a]; simpl; auto.
  destruct (Qle_bool (inject_Z 0) a) eqn:E; right; simpl; [exact E|reflexivity].
Qed.

(** ** Utility model *)

Lemma calculateBolaParameters_some
    (stableBufferTime : number) (bitrates utilities : list number) :
  highestUtilityIndex utilities <> 0%nat ->
  exists params,
    calculateBolaParameters stableBufferTime bitrates utilities = Some params.
Proof.
  intros H. unfold calculateBolaParameters.
  destruct (Nat.eqb_spec (highestUtilityIndex utilities) 0); [contradiction|].
  eexists. reflexivity.
Qed.

(** ** The scoring pass *)

Section ScoringPass.

Variables (bolaState : BolaState) (level : number).

Local Abbreviation score := (score_of bolaState level).

Lemma scoringPass_S (n : nat) (q : quality) :
  scoringPass bolaState (S n) level q
  = scoreStep bolaState level (scoringPass bolaState n level q) n.
Proof. unfold scoringPass. rewrite seq_S, fold_left_app. reflexivity. Qed.

Lemma jgt_NaN_l (x y : number) : isNaN x = true -> jgt x y = false.
Proof.
  destruct x; try discriminate. intros _. unfold jgt, jlt.
  rewrite jle_NaN_r. reflexivity.
Qed.

Lemma bestSoFar_step (n : nat) (acc : number * quality) :
  bestSoFar bolaState level (S n) acc ->
  bestSoFar bolaState level (S (S n)) (scoreStep bolaState level acc (S n)).
Proof.
  intros (c & -> & Hc & Hmax & Htie & Hnan).
  unfold scoreStep. cbn [fst].
  destruct (isNaN (score c)) eqn:Ec; cbn [orb].
  - (* nothing but NaN so far: the new score is taken *)
    exists (S n). repeat split; try lia.
    + intros i Hi. destruct (Nat.eq_dec i (S n)) as [->|Hne]; [apply jlt_irrefl|].
      apply jgt_NaN_l, Hnan; [reflexivity | lia].
    + intros En i Hi. destruct (Nat.eq_dec i (S n)) as [->|Hne]; [exact En|].
      apply Hnan; [reflexivity | lia].
  - destruct (jge (score (S n)) (score c)) eqn:Ege.
    + (* the new score is at least the best one *)
      exists (S n). repeat split; try lia.
      * intros i Hi. destruct (Nat.eq_dec i (S n)) as [->|Hne]; [apply jlt_irrefl|].
        specialize (Hmax i ltac:(lia)). unfold jge in Ege.
        destruct (isNaN (score i)) eqn:Ei; [now apply jgt_NaN_l|].
        unfold jgt in *. unfold jlt.
        assert (Hle : jle (score i) (score (S n)) = true).
        { eapply jle_trans; [|exact Ege]. now apply jlt_false_jle. }
        rewrite Hle. destruct (jle (score (S n)) (score i)); reflexivity.
      * intros En. unfold jge in Ege. apply jle_true_not_NaN in Ege.
        destruct Ege; congruence.
    + (* the best one stays *)
      exists c. repeat split; try lia.
      * intros i Hi. destruct (Nat.eq_dec i (S n)) as [->|Hne]; [|apply Hmax; lia].
        unfold jgt, jlt. unfold jge in Ege. rewrite Ege. reflexivity.
      * intros i Hi. destruct (Nat.eq_dec i (S n)) as [->|Hne]; [exact Ege|apply Htie; lia].
      * intros En. congruence.
Qed.

Lemma scoringPass_bestSoFar (n : nat) (q : quality) :
  bestSoFar bolaState level (S n) (scoringPass bolaState (S n) level q).
Proof.
  induction n as [|n IH].
  - exists 0%nat. cbn. unfold scoreStep. cbn.
    repeat split; try lia.
    + intros i Hi. replace i with 0%nat by lia. apply jlt_irrefl.
    + intros E i Hi. replace i with 0%nat by lia. exact E.
  - rewrite scoringPass_S. apply bestSoFar_step, IH.
Qed.

End ScoringPass.


(** ** The look-ahead loop of the capped variants *)

Section CappedLoop.

Variables (bolaState : BolaState) (bufferLevel throughput segmentDuration : number).

Local Abbreviation pass := (Bola.loopPass bolaState bufferLevel throughput segmentDuration).
Local Abbreviation body := (Bola.loopBody bolaState bufferLevel throughput segmentDuration).
Local Abbreviation init := (Bola.loopInit bolaState bufferLevel).

Lemma loopPass_maxIte (st : LoopState) : maxIte (pass st) = (maxIte st - 1)%Z.
Proof. reflexivity. Qed.

(** From a state whose [maxIte] is [m >= 0] the loop stops within [m + 1]
    passes: either the condition fails, or the pass that brings [maxIte]
    below 0 breaks. *)
Lemma while_capped (m : nat) : forall (fuel : nat) (st : LoopState),
  maxIte st = Z.of_nat m -> (m < fuel)%nat ->
  exists k, (k <= S m)%nat
    /\ while_loop Bola.loopCond body fuel st = Some (Ok (Nat.iter k pass st))
    /\ (forall j, (j < k)%nat -> Bola.loopCond (Nat.iter j pass st) = true)
    /\ (Bola.loopCond (Nat.iter k pass st) = false \/ k = S m).
Proof.
  induction m as [|m IH]; intros fuel st Hm Hfuel;
    (destruct fuel as [|fuel]; [lia|]); cbn [while_loop];
    destruct (Bola.loopCond st) eqn:Ec.
  - exists 1%nat. unfold Bola.loopBody. rewrite loopPass_maxIte, Hm. cbn.
    repeat split; auto.
    intros j Hj. replace j with 0%nat by lia. exact Ec.
  - exists 0%nat. cbn. repeat split; auto; intros; lia.
  - unfold Bola.loopBody. rewrite loopPass_maxIte, Hm.
    destruct (Z.ltb_spec (Z.of_nat (S m) - 1) 0) as [Hlt|_]; [lia|].
    destruct (IH fuel (pass st)) as (k & Hk & Hrun & Hcond & Hend).
    { rewrite loopPass_maxIte, Hm. lia. }
    { lia. }
    exists (S k). rewrite !Nat.iter_succ_r. repeat split.
    + lia.
    + exact Hrun.
    + intros [|j] Hj; [exact Ec|]. rewrite Nat.iter_succ_r. apply Hcond. lia.
    + destruct Hend as [H| ->]; auto.
  - exists 0%nat. cbn. repeat split; auto; intros; lia.
Qed.

(** The loop returns: the fuel of [lookAheadLoop] is enough, the loop makes
    between one and [bitrateCount + 1] passes, and it stops at the first
    state that fails the condition or at the pass that exhausts the cap,
    whose state it returns. *)
Lemma lookAhead_terminates :
  exists k, (1 <= k <= S (Bola.bitrateCount bolaState))%nat
    /\ while_loop Bola.loopCond body (Bola.lookAheadFuel bolaState) init
       = Some (Ok (Nat.iter k pass init))
    /\ Bola.lookAheadLoop bolaState bufferLevel throughput segmentDuration
       = Nat.iter k pass init
    /\ (forall j, (j < k)%nat -> Bola.loopCond (Nat.iter j pass init) = true)
    /\ (Bola.loopCond (Nat.iter k pass init) = false
        \/ k = S (Bola.bitrateCount bolaState)).
Proof.
  destruct (while_capped (Bola.bitrateCount bolaState)
              (Bola.lookAheadFuel bolaState) init)
    as (k & Hk & Hrun & Hcond & Hend); [reflexivity | unfold Bola.lookAheadFuel; lia |].
  exists k. repeat split; auto.
  - destruct k; [|lia]. destruct Hend as [H|H]; [discriminate H | lia].
  - unfold Bola.lookAheadLoop. rewrite Hrun. reflexivity.
Qed.

End CappedLoop.

(** A run of the loop along a list of picks: from a state that meets the
    loop condition and whose counter allows for the passes, the loop makes
    one pass per pick and returns after the last. *)
Lemma lookAhead_follows_picks
    (bolaState : BolaState) (bufferLevel throughput segmentDuration : number)
    (picks : list nat) : forall (st : LoopState) (fuel : nat) (c : nat),
  lookAheadPicks bolaState bufferLevel throughput segmentDuration
    (LABLevel st) (quality_ st) (bitrate st) picks ->
  last picks = Some c ->
  Bola.loopCond st = true ->
  Z.of_nat fuel = (maxIte st + 1)%Z ->
  (length picks <= fuel)%nat ->
  exists final,
    while_loop Bola.loopCond
      (Bola.loopBody bolaState bufferLevel throughput segmentDuration) fuel st
    = Some (Ok final)
    /\ quality_ final = QIndex c
    /\ bitrate final = at_index (bitrates bolaState) c
    /\ jeq (bitrate final) (prev_bitrate final) = true
    /\ LABLevel final
       = jadd bufferLevel
              (jmul (jsub (num 1)
                          (jdiv (jdiv (at_index (bitrates bolaState) c) throughput)
                                (num 1000)))
                    segmentDuration)
    /\ maxIte final = (maxIte st - Z.of_nat (length picks))%Z.
Proof.
  induction picks as [|c0 rest IH]; intros st fuel c Hpicks Hlast Hcond Hfuel Hlen;
    [discriminate Hlast|].
  destruct fuel as [|fuel]; [cbn in Hlen; lia|].
  cbn [while_loop]. rewrite Hcond. unfold Bola.loopBody.
  set (st' := Bola.loopPass bolaState bufferLevel throughput segmentDuration st).
  cbn [lookAheadPicks] in Hpicks. destruct Hpicks as [Hpick Hrest].
  assert (Hq : quality_ st' = QIndex c0) by exact Hpick.
  assert (Hb : bitrate st' = at_index (bitrates bolaState) c0).
  { unfold st', Bola.loopPass. cbn [bitrate]. unfold Bola.bitrateCount.
    rewrite Hpick. reflexivity. }
  assert (Hp : prev_bitrate st' = bitrate st) by reflexivity.
  assert (Hl : LABLevel st'
               = jadd bufferLevel
                      (jmul (jsub (num 1)
                                  (jdiv (jdiv (at_index (bitrates bolaState) c0) throughput)
                                        (num 1000)))
                            segmentDuration)).
  { unfold st', Bola.loopPass. cbn [LABLevel]. unfold Bola.bitrateCount.
    rewrite Hpick. reflexivity. }
  assert (Hm : maxIte st' = (maxIte st - 1)%Z) by reflexivity.
  destruct rest as [|c1 rest].
  - (* the last pass *)
    cbn in Hlast. injection Hlast as <-. destruct Hrest as [Hnum Hsame].
    assert (Hstop : Bola.loopCond st' = false).
    { unfold Bola.loopCond, jne. rewrite Hb, Hp, Hnum, Hsame. reflexivity. }
    exists st'. split.
    + destruct (maxIte st' <? 0)%Z eqn:Ecap; [reflexivity|].
      apply Z.ltb_ge in Ecap. destruct fuel as [|fuel]; [lia|].
      cbn [while_loop]. now rewrite Hstop.
    + split; [exact Hq|]. split; [exact Hb|].
      split; [rewrite Hb, Hp; exact Hsame|]. split; [exact Hl|].
      rewrite Hm. cbn [length]. lia.
  - (* other passes follow *)
    destruct Hrest as [Hon Hrest]. cbn [length] in Hlen.
    assert (Ecap : (maxIte st' <? 0)%Z = false) by (apply Z.ltb_ge; lia).
    rewrite Ecap.
    assert (Hgo : Bola.loopCond st' = true).
    { unfold Bola.loopCond, jne. rewrite Hb, Hp.
      destruct Hon as [-> | ->]; [reflexivity | apply orb_true_r]. }
    destruct (IH st' fuel c) as (final & Hrun & H1 & H2 & H3 & H4 & H5).
    + rewrite Hl, Hq, Hb. exact Hrest.
    + exact Hlast.
    + exact Hgo.
    + lia.
    + cbn [length]. lia.
    + exists final. split; [exact Hrun|]. split; [exact H1|]. split; [exact H2|].
      split; [exact H3|]. split; [exact H4|].
      rewrite H5, Hm. cbn [length]. lia.
Qed.

(** C6.  Let [picks] be the indices the passes of a run choose as
    [lookAheadPicks] describes them: the first pass scores against the
    buffer level, each later pass against
    [bufferLevel + (1 - bitrate / throughput / 1000) * segmentDuration] for
    the bitrate [bitrates[quality]] chosen by the pass before, the loop
    going on while the bitrate chosen is not a number or differs from the one
    before, and the last pass choosing a bitrate that is a number equal to
    the one before.  When the cap allows for that many passes, the loop
    makes exactly these passes and leaves: it returns the last index chosen,
    its working level is the level projected from the bitrate of that index,
    and its counter has lost one per pass. *)
Theorem lookAhead_projection_and_exit
    (bolaState : BolaState) (bufferLevel throughput segmentDuration : number)
    (picks : list nat) (c : nat) :
  lookAheadPicks bolaState bufferLevel throughput segmentDuration
    bufferLevel QNaN NaN picks ->
  last picks = Some c ->
  (length picks <= S (length (bitrates bolaState)))%nat ->
  let result := Bola.lookAheadLoop bolaState bufferLevel throughput segmentDuration in
  Bola.getQualityFromBufferLevel bolaState bufferLevel throughput segmentDuration
  = QIndex c
  /\ quality_ result = QIndex c
  /\ bitrate result = at_index (bitrates bolaState) c
  /\ jeq (bitrate result) (prev_bitrate result) = true
  /\ LABLevel result
     = jadd bufferLevel
            (jmul (jsub (num 1)
                        (jdiv (jdiv (at_index (bitrates bolaState) c) throughput)
                              (num 1000)))
                  segmentDuration)
  /\ maxIte result
     = (Z.of_nat (length (bitrates bolaState)) - Z.of_nat (length picks))%Z.
Proof.
  intros Hpicks Hlast Hlen result.
  destruct (lookAhead_follows_picks bolaState bufferLevel throughput segmentDuration
              picks (Bola.loopInit bolaState bufferLevel)
              (Bola.lookAheadFuel bolaState) c)
    as (final & Hrun & H1 & H2 & H3 & H4 & H5).
  - exact Hpicks.
  - exact Hlast.
  - reflexivity.
  - unfold Bola.lookAheadFuel, Bola.loopInit, Bola.bitrateCount. cbn [maxIte]. lia.
  - exact Hlen.
  - assert (E : result = final).
    { unfold result, Bola.lookAheadLoop. now rewrite Hrun. }
    unfold Bola.getQualityFromBufferLevel. fold result. rewrite E.
    split; [exact H1|]. split; [exact H1|]. split; [exact H2|].
    split; [exact H3|]. split; [exact H4|].
    rewrite H5. unfold Bola.loopInit, Bola.bitrateCount. cbn [maxIte]. reflexivity.
Qed.

(** Two runs on the three-tier state.  With 12 s in the buffer, a throughput
    of 1000 kbit/s and 8 s segments the passes choose 1 and 1: the level
    projected from 1000 kbit/s is 12 s again.  With 11 s, 1500 kbit/s and
    2 s segments they choose 0, 1 and 1. *)
Lemma lookAhead_projection_and_exit_witness :
  (Bola.getQualityFromBufferLevel state3 (num 12) (num 1000) (num 8) = QIndex 1
   /\ maxIte (Bola.lookAheadLoop state3 (num 12) (num 1000) (num 8)) = 1%Z)
  /\ (Bola.getQualityFromBufferLevel state3 (num 11) (num 1500) (num 2) = QIndex 1
      /\ maxIte (Bola.lookAheadLoop state3 (num 11) (num 1500) (num 2)) = 0%Z).
Proof.
  split.
  - destruct (lookAhead_projection_and_exit state3 (num 12) (num 1000) (num 8) [1; 1]%nat 1)
      as (H1 & _ & _ & _ & _ & H2).
    + vm_compute. auto.
    + reflexivity.
    + cbn. lia.
    + split; [exact H1 | exact H2].
  - destruct (lookAhead_projection_and_exit state3 (num 11) (num 1500) (num 2) [0; 1; 1]%nat 1)
      as (H1 & _ & _ & _ & _ & H2).
    + vm_compute. auto 10.
    + reflexivity.
    + cbn. lia.
    + split; [exact H1 | exact H2].
Defined.
(** ** Retargeting *)

Lemma state3_is_derived : stateOver ladder3 utilities3 (num 12) = Some state3.
Proof. reflexivity. Qed.

(** C7.  With a configured target buffer time equal to the cached one the
    retarget returns the state object as it was, and [getBolaState] leaves
    the whole rule as it was. *)
Theorem retarget_unchanged_target_is_noop
    (env : Environment) (bolaState : BolaState) (mediaType : string) :
  jeq (stableBufferTime bolaState) (getStableBufferTime env) = true ->
  Abandon.checkBolaStateStableBufferTime env bolaState mediaType = Ok bolaState
  /\ forall Math_log ctx r dict,
       getMediaType ctx = Some mediaType ->
       Abandon.bolaStateDict r = Some dict ->
       dict !! mediaType = Some (Abandon.Startup bolaState) ->
       Abandon.getBolaState Math_log env ctx r = (r, Ok (Abandon.Startup bolaState)).
Proof.
  intros He.
  assert (H : Abandon.checkBolaStateStableBufferTime env bolaState mediaType
              = Ok bolaState).
  { unfold Abandon.checkBolaStateStableBufferTime, jne. now rewrite He. }
  split; [exact H|].
  intros Math_log ctx r dict Ht Hd Hl. unfold Abandon.getBolaState.
  rewrite Ht, Hd, Hl, H. rewrite insert_id by exact Hl.
  destruct r as [fd ad bd ta]. cbn in Hd. subst bd. reflexivity.
Qed.

Lemma retarget_unchanged_target_is_noop_witness :
  Abandon.checkBolaStateStableBufferTime (envOf (num 12) (num 9) (num 0)) state3 "video"
  = Ok state3.
Proof.
  apply (retarget_unchanged_target_is_noop (envOf (num 12) (num 9) (num 0)) state3 "video").
  reflexivity.
Defined.

(** C8.  With a configured target buffer time different from the cached
    one, the retarget recomputes the constants.  If one of them differs from
    the cached one, the state it leaves has the new target, the new [Vp] and
    [gp], and as placeholder buffer
    [max(0, ((bufferLevel + placeholderBuffer - 10) * newVp / oldVp + 10)
    - bufferLevel)], the ladder, the utilities and the last quality being
    those of before; otherwise the state is left as it was. *)
Theorem retarget_rescales_placeholder
    (env : Environment) (bolaState : BolaState) (mediaType : string)
    (params : BolaParameters) :
  jne (stableBufferTime bolaState) (getStableBufferTime env) = true ->
  calculateBolaParameters (getStableBufferTime env)
                          (bitrates bolaState) (utilities bolaState) = Some params ->
  let realBufferLevel := getCurrentBufferLevel env mediaType in
  let differ := jne (p_Vp params) (Vp bolaState) || jne (p_gp params) (gp bolaState) in
  let rescaled :=
    Math_max (num 0)
      (jsub (jadd (jmul (jsub (jadd realBufferLevel (placeholderBuffer bolaState))
                              (num 10))
                        (jdiv (p_Vp params) (Vp bolaState)))
                  (num 10))
            realBufferLevel) in
  exists bolaState',
    Abandon.checkBolaStateStableBufferTime env bolaState mediaType = Ok bolaState'
    /\ (differ = true ->
        stableBufferTime bolaState' = getStableBufferTime env
        /\ Vp bolaState' = p_Vp params
        /\ gp bolaState' = p_gp params
        /\ placeholderBuffer bolaState' = rescaled
        /\ bitrates bolaState' = bitrates bolaState
        /\ utilities bolaState' = utilities bolaState
        /\ lastQuality bolaState' = lastQuality bolaState)
    /\ (differ = false -> bolaState' = bolaState).
Proof.
  intros Hne Hp realBufferLevel differ rescaled.
  unfold Abandon.checkBolaStateStableBufferTime. rewrite Hne, Hp. cbn [deref bind].
  fold differ. destruct differ.
  - eexists. split; [reflexivity|]. split; [|discriminate].
    intros _. cbn [Abandon.retargeted stableBufferTime Vp gp placeholderBuffer bitrates
                   utilities lastQuality].
    split; [reflexivity|]. split; [reflexivity|]. split; [reflexivity|].
    split; [reflexivity|]. split; [reflexivity|]. split; reflexivity.
  - exists bolaState. split; [reflexivity|]. split; [discriminate|reflexivity].
Qed.

(** The state with [Vp = 10], [gp = 1], a 30 s target and 6 s of
    placeholder, retargeted to 20 s with 8 s in the buffer: the new constants
    are [gp = 2] and [Vp = 5], and the placeholder becomes
    [(8 + 6 - 10) * 5 / 10 + 10 - 8 = 4]. *)
Lemma retarget_rescales_placeholder_witness :
  exists bolaState',
    Abandon.checkBolaStateStableBufferTime (envOf (num 20) (num 8) (num 0)) state123 "video"
    = Ok bolaState'
    /\ stableBufferTime bolaState' = num 20
    /\ jeq (Vp bolaState') (num 5) = true
    /\ jeq (gp bolaState') (num 2) = true
    /\ jeq (placeholderBuffer bolaState') (num 4) = true.
Proof.
  destruct (calculateBolaParameters (num 20) (bitrates state123) (utilities state123))
    as [params|] eqn:Ep; [|vm_compute in Ep; discriminate Ep].
  destruct (retarget_rescales_placeholder (envOf (num 20) (num 8) (num 0)) state123
              "video" params)
    as (bolaState' & E & Hd & _); [reflexivity | exact Ep |].
  vm_compute in Ep. injection Ep as <-.
  destruct Hd as (Ht & Hv & Hg & Hp & _); [reflexivity|].
  exists bolaState'. split; [exact E|]. split; [exact Ht|].
  rewrite Hv, Hg, Hp. repeat split; vm_compute; reflexivity.
Defined.
(** ** Monotonicity in the buffer level *)

Lemma finite_qOf (x : number) : isFinite x = true -> x = Fin (qOf x).
Proof. destruct x; try discriminate. reflexivity. Qed.

Lemma forallb_at_index (l : list number) (i : nat) :
  forallb isFinite l = true -> (i < length l)%nat ->
  at_index l i = Fin (qOf (at_index l i)).
Proof.
  intros H Hi. apply finite_qOf. unfold at_index.
  rewrite forallb_forall in H. apply H. apply nth_In. exact Hi.
Qed.

Lemma jlt_Fin (a b : Q) : jlt (Fin a) (Fin b) = true <-> a < b.
Proof.
  unfold jlt. cbn [jle]. rewrite andb_true_iff, negb_true_iff.
  rewrite Qle_bool_iff. split.
  - intros [H1 H2]. apply Qnot_le_lt. intros H. apply Qle_bool_iff in H. congruence.
  - intros H. split; [apply Qlt_le_weak, H|].
    destruct (Qle_bool b a) eqn:E; [|reflexivity].
    apply Qle_bool_iff in E. exfalso. apply (Qlt_not_le _ _ H E).
Qed.

Lemma ascendingFrom_spec (l : list number) : forall (prev : Q),
  forallb isFinite l = true -> ascendingFrom (Fin prev) l = true ->
  (forall i, (i < length l)%nat -> prev < qOf (at_index l i))
  /\ (forall i j, (i < j < length l)%nat ->
        qOf (at_index l i) < qOf (at_index l j)).
Proof.
  induction l as [|b t IH]; intros prev Hf Ha.
  - split; intros; cbn in *; lia.
  - cbn in Hf, Ha. apply andb_true_iff in Hf as [Hb Hf].
    apply andb_true_iff in Ha as [Hpb Ha].
    rewrite (finite_qOf b Hb) in Hpb, Ha. apply jlt_Fin in Hpb.
    destruct (IH (qOf b) Hf Ha) as [IH1 IH2]. split.
    + intros [|i] Hi; [exact Hpb|]. cbn in Hi.
      eapply Qlt_trans; [exact Hpb|]. apply IH1. lia.
    + intros [|i] [|j] Hij; cbn in Hij; try lia.
      * apply IH1. lia.
      * apply IH2. lia.
Qed.

Section ProperLadder.

Variable bolaState : BolaState.
Hypothesis proper : properLadder bolaState = true.

Local Abbreviation b := (fun i => qOf (at_index (bitrates bolaState) i)).
Local Abbreviation u := (fun i => qOf (at_index (utilities bolaState) i)).

Lemma proper_bitrates :
  (forall i, (i < length (bitrates bolaState))%nat -> 0 < b i)
  /\ (forall i j, (i < j < length (bitrates bolaState))%nat -> b i < b j).
Proof using proper.
  unfold properLadder in proper. repeat (apply andb_true_iff in proper as [proper ?]).
  now apply (ascendingFrom_spec (bitrates bolaState) 0).
Qed.

(** On a proper ladder every score is the rational
    [(Vp * (u_i + gp) - level) / b_i]. *)
Lemma proper_score (level : Q) (i : nat) :
  (i < length (bitrates bolaState))%nat ->
  score_of bolaState (Fin level) i
  = Fin ((qOf (Vp bolaState) * (u i + qOf (gp bolaState)) - level) / b i).
Proof using proper.
  intros Hi. destruct proper_bitrates as [Hpos _]. specialize (Hpos i Hi).
  unfold properLadder in proper. repeat (apply andb_true_iff in proper as [proper ?]).
  unfold score_of.
  rewrite (forallb_at_index (bitrates bolaState) i) by assumption.
  rewrite (forallb_at_index (utilities bolaState) i)
    by (try assumption; apply Nat.leb_le in H2; lia).
  rewrite (finite_qOf (Vp bolaState)), (finite_qOf (gp bolaState)) by assumption.
  cbn. destruct (Qeq_bool (b i) 0) eqn:E.
  - apply Qeq_bool_iff in E. rewrite E in Hpos. exfalso. apply (Qlt_irrefl _ Hpos).
  - unfold Qminus. reflexivity.
Qed.

End ProperLadder.

(** The arithmetic behind the monotonicity of one pass.  Take two tiers with
    bitrates [b2 < b1] and two levels [l1 <= l2]: the higher tier cannot
    score at least as much as the lower one at [l1] and strictly less at
    [l2]. *)
Lemma score_crossing (A1 A2 b1 b2 l1 l2 : Q) :
  0 < b2 -> b2 < b1 -> l1 <= l2 ->
  (A1 - l2) / b1 < (A2 - l2) / b2 ->
  (A2 - l1) / b2 <= (A1 - l1) / b1 ->
  False.
Proof.
  intros Hb2 Hb Hl H1 H2.
  assert (Hb1 : 0 < b1) by (eapply Qlt_trans; eassumption).
  assert (Hr2 : 0 < / b2) by now apply Qinv_lt_0_compat.
  assert (Hr : / b1 < / b2) by now apply -> Qinv_lt_contravar.
  unfold Qdiv in H1, H2.
  set (r1 := / b1) in *. set (r2 := / b2) in *.
  assert (Hp : 0 <= (l2 - l1) * (r2 - r1)).
  { apply Qmult_le_0_compat; lra. }
  nra.
Qed.

(** On a proper ladder with at least one tier the index chosen by one
    scoring pass does not decrease when the working level it scores against
    increases. *)
Lemma scoringPass_monotone
    (bolaState : BolaState) (level1 level2 : Q) (q1 q2 : quality) :
  properLadder bolaState = true ->
  (0 < length (bitrates bolaState))%nat ->
  level1 <= level2 ->
  exists c1 c2,
    snd (scoringPass bolaState (length (bitrates bolaState)) (Fin level1) q1) = QIndex c1
    /\ snd (scoringPass bolaState (length (bitrates bolaState)) (Fin level2) q2) = QIndex c2
    /\ (c1 <= c2)%nat.
Proof.
  intros Hp Hn Hl.
  destruct (length (bitrates bolaState)) as [|n] eqn:En; [lia|].
  destruct (scoringPass_bestSoFar bolaState (Fin level1) n q1)
    as (c1 & E1 & Hc1 & Hmax1 & _).
  destruct (scoringPass_bestSoFar bolaState (Fin level2) n q2)
    as (c2 & E2 & Hc2 & _ & Htie2 & _).
  exists c1, c2. rewrite E1, E2. repeat split.
  destruct (le_lt_dec c1 c2) as [|Hlt]; [assumption|exfalso].
  specialize (Hmax1 c2 Hc2). specialize (Htie2 c1 (conj Hlt Hc1)).
  destruct (proper_bitrates bolaState Hp) as [Hpos Hasc].
  rewrite !(proper_score bolaState Hp) in Hmax1, Htie2 by lia.
  unfold jgt in Hmax1. unfold jge in Htie2. cbn [jle] in Htie2.
  assert (H1 : ~ (_ < _)) by (intros H; apply jlt_Fin in H; rewrite H in Hmax1; discriminate).
  apply Qnot_lt_le in H1.
  assert (H2 : ~ (_ <= _)) by (intros H; apply Qle_bool_iff in H; rewrite H in Htie2; discriminate).
  apply Qnot_le_lt in H2.
  eapply (score_crossing _ _ _ _ level1 level2); [| |exact Hl|exact H2|exact H1].
  - apply Hpos. lia.
  - apply Hasc. lia.
Qed.

(** C3 as stated fails: on the three-tier ladder, with a throughput of
    1000 kbit/s and 8 s segments, a buffer level of 11 s yields index 2 and a
    buffer level of 12 s yields index 1. *)
Lemma lookAhead_not_monotone_in_buffer_level :
  ~ (forall (bolaState : BolaState) (throughput segmentDuration : number)
            (bufferLevel1 bufferLevel2 : number),
        (1 < length (bitrates bolaState))%nat ->
        jle bufferLevel1 bufferLevel2 = true ->
        quality_leb
          (Bola.getQualityFromBufferLevel bolaState bufferLevel1 throughput segmentDuration)
          (Bola.getQualityFromBufferLevel bolaState bufferLevel2 throughput segmentDuration)
        = true).
Proof.
  intros H.
  specialize (H state3 (num 1000) (num 8) (num 11) (num 12)).
  assert (E1 : Bola.getQualityFromBufferLevel state3 (num 11) (num 1000) (num 8)
               = QIndex 2) by (vm_compute; reflexivity).
  assert (E2 : Bola.getQualityFromBufferLevel state3 (num 12) (num 1000) (num 8)
               = QIndex 1) by (vm_compute; reflexivity).
  rewrite E1, E2 in H. cbn in H. specialize (H ltac:(lia) eq_refl). discriminate H.
Qed.

(** ** The cap of the loop *)

(** The uncapped loop on an empty ladder: no pass ever assigns [bitrate], so
    the condition holds for ever. *)
Lemma LABRule_empty_ladder_never_returns
    (bolaState : option BolaState) (state : BolaState)
    (bufferLevel throughput segmentDuration : number) :
  bitrates state = [] ->
  forall fuel,
    LABRule.getQualityFromBufferLevel bolaState state bufferLevel throughput
                                      segmentDuration fuel = None.
Proof.
  intros He fuel. unfold LABRule.getQualityFromBufferLevel.
  set (body := LABRule.loopBody bolaState state bufferLevel throughput segmentDuration).
  assert (Hbody : forall st, quality_ st = QNaN ->
            exists st', body st = Ok (st', false)
                        /\ isNaN (bitrate st') = true /\ quality_ st' = QNaN).
  { intros st Hq. eexists. split; [|split].
    - unfold body, LABRule.loopBody, LABRule.scoringPassOf, LABRule.bitrateCount.
      rewrite He. cbn [length bind]. reflexivity.
    - cbn [bitrate]. rewrite Hq. reflexivity.
    - exact Hq. }
  assert (H : forall st, isNaN (bitrate st) = true -> quality_ st = QNaN ->
              while_loop LABRule.loopCond body fuel st = None).
  { induction fuel as [|fuel IH]; intros st Hb Hq; [reflexivity|].
    cbn [while_loop]. unfold LABRule.loopCond at 1. rewrite Hb. cbn [orb].
    destruct (Hbody st Hq) as (st' & -> & Hb' & Hq'). now apply IH. }
  rewrite H; reflexivity.
Qed.

(** The uncapped loop on the three-tier state, were [bolaState] bound to it:
    from a buffer level of 11 s the choice alternates between index 0 and
    index 2 for ever. *)
Lemma LABRule_oscillation_never_returns : forall fuel,
  LABRule.getQualityFromBufferLevel (Some state3) state3 (num 11) (num 1000) (num 8) fuel
  = None.
Proof.
  pose (body := LABRule.loopBody (Some state3) state3 (num 11) (num 1000) (num 8)).
  pose (low := {| quality_ := QIndex 0; bitrate := num 500000;
                  prev_bitrate := num 2000000;
                  LABLevel := LABRule.projectedLevel (num 11) (num 1000) (num 8) (num 500000);
                  maxIte := 0 |}).
  pose (high := {| quality_ := QIndex 2; bitrate := num 2000000;
                   prev_bitrate := num 500000;
                   LABLevel := LABRule.projectedLevel (num 11) (num 1000) (num 8) (num 2000000);
                   maxIte := 0 |}).
  assert (Hlow : body low = Ok (high, false)) by (vm_compute; reflexivity).
  assert (Hhigh : body high = Ok (low, false)) by (vm_compute; reflexivity).
  assert (Hcycle : forall fuel,
             while_loop LABRule.loopCond body fuel low = None
             /\ while_loop LABRule.loopCond body fuel high = None).
  { induction fuel as [|fuel [IH1 IH2]]; [split; reflexivity|].
    split; cbn [while_loop].
    - replace (LABRule.loopCond low) with true by (vm_compute; reflexivity).
      rewrite Hlow. exact IH2.
    - replace (LABRule.loopCond high) with true by (vm_compute; reflexivity).
      rewrite Hhigh. exact IH1. }
  intros fuel. unfold LABRule.getQualityFromBufferLevel. fold body.
  destruct fuel as [|[|fuel]]; [reflexivity | reflexivity |].
  cbn [while_loop].
  replace (LABRule.loopCond (LABRule.loopInit (num 11))) with true by reflexivity.
  replace (body (LABRule.loopInit (num 11)))
    with (Ok ({| quality_ := QIndex 0; bitrate := num 500000; prev_bitrate := NaN;
                 LABLevel := LABRule.projectedLevel (num 11) (num 1000) (num 8) (num 500000);
                 maxIte := 0 |}, false))
    by (vm_compute; reflexivity).
  match goal with |- context [LABRule.loopCond ?st] =>
    replace (LABRule.loopCond st) with true by (vm_compute; reflexivity);
    replace (body st) with (Ok (high, false)) by (vm_compute; reflexivity)
  end.
  now rewrite (proj2 (Hcycle fuel)).
Qed.

(** C4, the failing input.  On the three-tier ladder (buffer level 11 s,
    throughput 1000 kbit/s, 8 s segments) the capped loop makes four passes,
    one more than the ladder has tiers, and ends with [maxIte = -1].  In the
    sample [LABRule] files the same loop has no cap: with [bolaState] bound
    to the state it never returns on this input, and with [bolaState]
    unbound its first pass raises a [ReferenceError]. *)
Theorem lookAhead_cap_is_off_by_one :
  Bola.bitrateCount state3 = 3%nat
  /\ Bola.passesMade state3 (num 11) (num 1000) (num 8) = 4%Z
  /\ maxIte (Bola.lookAheadLoop state3 (num 11) (num 1000) (num 8)) = (-1)%Z
  /\ Bola.getQualityFromBufferLevel state3 (num 11) (num 1000) (num 8) = QIndex 2
  /\ (forall fuel,
        LABRule.getQualityFromBufferLevel (Some state3) state3
          (num 11) (num 1000) (num 8) fuel = None)
  /\ (forall fuel,
        LABRule.getQualityFromBufferLevel None state3
          (num 11) (num 1000) (num 8) (S fuel) = Some (Throw ReferenceError)).
Proof.
  split; [reflexivity|]. split; [vm_compute; reflexivity|].
  split; [vm_compute; reflexivity|]. split; [vm_compute; reflexivity|].
  split; [exact LABRule_oscillation_never_returns|].
  intros fuel. reflexivity.
Qed.

(** ** Exceptions reaching the caller *)

Lemma highestUtilityIndex_single (x : number) : highestUtilityIndex [x] = 0%nat.
Proof.
  unfold highestUtilityIndex, reduce. cbn.
  destruct (jgt x x); reflexivity.
Qed.

(** With a single bitrate there are no parameters, whatever the logarithm. *)
Lemma calculateBolaParameters_single
    (Math_log : number -> number) (stableBufferTime b : number) :
  calculateBolaParameters stableBufferTime [b]
    (normalize (utilitiesFromBitrates Math_log [b])) = None.
Proof.
  unfold calculateBolaParameters. cbn [utilitiesFromBitrates normalize map].
  rewrite highestUtilityIndex_single. reflexivity.
Qed.

(** C1, the failing inputs.  [getMaxIndex], called on a fresh rule with a
    context that has every accessor and a one-bitrate ladder, raises a
    [TypeError] (the null parameters are dereferenced).  [shouldAbandon],
    fed six progress notifications of a slow download, raises a [TypeError]
    on the sixth (the state dictionary is undefined); and were the
    dictionary to hold a state, it raises a [ReferenceError] there (the
    segment duration is read before its declaration). *)
Theorem entry_points_throw (Math_log : number -> number) :
  (forall env,
      snd (Bola.getMaxIndex Math_log env (Some singleBitrateContext) Bola.setup)
      = Throw TypeError)
  /\ nth_error (fst (Abandon.run Math_log Abandon.temporalDeadZone
                                 Abandon.setup slowDownload)) 5
     = Some (Throw TypeError)
  /\ nth_error (fst (Abandon.run Math_log Abandon.temporalDeadZone
                                 abandonRuleWithStates slowDownload)) 5
     = Some (Throw ReferenceError).
Proof.
  split; [|split].
  - intros env. unfold Bola.getMaxIndex, singleBitrateContext, videoContext.
    cbn [has getMediaInfo getMediaType getScheduleController getStreamInfo
         getAbrController useBufferOccupancyABR getRepresentationInfo negb orb].
    unfold Bola.getBolaState. cbn [getMediaType Bola.bolaStateDict].
    replace (Bola.bolaStateDict Bola.setup !! "video"%string) with (@None BolaState)
      by reflexivity.
    unfold Bola.getInitialBolaState. cbn [getMediaInfo deref bind bitrateList].
    rewrite calculateBolaParameters_single. reflexivity.
  - vm_compute. reflexivity.
  - vm_compute. reflexivity.
Qed.

(** ** The placeholder buffer *)

Lemma jlt_trans (x y z : number) :
  jlt x y = true -> jlt y z = true -> jlt x z = true.
Proof.
  unfold jlt. rewrite !andb_true_iff, !negb_true_iff.
  intros [H1 H2] [H3 H4]. split; [eapply jle_trans; eassumption|].
  destruct (jle z x) eqn:E; [|reflexivity].
  rewrite (jle_trans z x y E H1) in H4. discriminate.
Qed.

(** The index the [reduce] ends on is 0 or an index of the array whose
    utility is greater than the first one. *)
Lemma reduceFrom_highest (l : list number) : forall (rest pre : list number) (acc : nat),
  l = pre ++ rest ->
  (acc = 0%nat \/ ((acc < length l)%nat /\ jlt (at_index l 0) (at_index l acc) = true)) ->
  let h := reduceFrom (fun highestIndex u uIndex =>
                         if jgt u (at_index l highestIndex) then uIndex else highestIndex)
                      rest (length pre) acc in
  h = 0%nat \/ ((h < length l)%nat /\ jlt (at_index l 0) (at_index l h) = true).
Proof.
  induction rest as [|x t IH]; intros pre acc Hl Hacc; [exact Hacc|].
  cbn [reduceFrom].
  assert (Hx : at_index l (length pre) = x).
  { subst l. unfold at_index. rewrite app_nth2 by lia.
    now rewrite Nat.sub_diag. }
  assert (Hlen : (length pre < length l)%nat).
  { subst l. rewrite length_app. cbn. lia. }
  replace (S (length pre)) with (length (pre ++ [x])) by (rewrite length_app; cbn; lia).
  apply IH; [now rewrite <- app_assoc|].
  destruct (jgt x (at_index l acc)) eqn:E; [|exact Hacc].
  unfold jgt in E.
  destruct (Nat.eq_dec (length pre) 0%nat) as [H0|H0]; [left; exact H0|right].
  split; [exact Hlen|]. rewrite Hx.
  destruct Hacc as [->|[_ Hacc]]; [exact E|]. eapply jlt_trans; eassumption.
Qed.

Lemma highestUtilityIndex_spec (l : list number) :
  highestUtilityIndex l <> 0%nat ->
  (highestUtilityIndex l < length l)%nat
  /\ jlt (at_index l 0) (at_index l (highestUtilityIndex l)) = true.
Proof.
  intros H. destruct (reduceFrom_highest l l [] 0%nat eq_refl (or_introl eq_refl))
    as [H0|H1]; [contradiction|exact H1].
Qed.

Lemma normalize_at (us : list number) (i : nat) :
  (i < length us)%nat ->
  at_index (normalize us) i = jadd (jsub (at_index us i) (at_index us 0)) (num 1).
Proof.
  intros Hi. unfold normalize, at_index.
  rewrite (nth_indep _ NaN (jadd (jsub NaN (nth 0 us NaN)) (num 1)))
    by (rewrite length_map; exact Hi).
  apply (map_nth (fun u => jadd (jsub u (nth 0 us NaN)) (num 1))).
Qed.

Lemma normalize_length (us : list number) : length (normalize us) = length us.
Proof. apply length_map. Qed.

(** With finite logarithms the normalised utilities are
    [log b_i - log b_0 + 1]. *)
Lemma normalized_utilities_finite
    (Math_log : number -> number) (bitrates : list number) (i : nat) :
  forallb (fun b => isFinite (Math_log b)) bitrates = true ->
  (i < length bitrates)%nat ->
  at_index (normalize (utilitiesFromBitrates Math_log bitrates)) i
  = Fin (qOf (Math_log (at_index bitrates i)) + - qOf (Math_log (at_index bitrates 0)) + 1).
Proof.
  intros Hf Hi. unfold utilitiesFromBitrates.
  rewrite normalize_at by (rewrite length_map; exact Hi).
  assert (Hat : forall j, (j < length bitrates)%nat ->
            at_index (map (fun b => Math_log b) bitrates) j
            = Fin (qOf (Math_log (at_index bitrates j)))).
  { intros j Hj. unfold at_index.
    rewrite (nth_indep _ NaN (Math_log NaN)) by (rewrite length_map; exact Hj).
    rewrite (map_nth (fun b => Math_log b)). apply finite_qOf.
    rewrite forallb_forall in Hf. apply Hf. apply nth_In. exact Hj. }
  rewrite !Hat by lia. reflexivity.
Qed.

Lemma jdiv_Fin (a b : Q) : ~ b == 0 -> jdiv (Fin a) (Fin b) = Fin (a / b).
Proof.
  intros Hb. cbn. destruct (Qeq_bool b 0) eqn:E; [|reflexivity].
  apply Qeq_bool_iff in E. contradiction.
Qed.

Lemma Qdiv_pos (a b : Q) : 0 < a -> 0 < b -> 0 < a / b.
Proof.
  intros Ha Hb. apply Qlt_shift_div_l; [exact Hb|]. lra.
Qed.

Lemma Math_max_Fin (a b : Q) :
  exists m, Math_max (Fin a) (Fin b) = Fin m /\ a <= m /\ b <= m.
Proof.
  cbn. destruct (Qle_bool a b) eqn:E.
  - exists b. apply Qle_bool_iff in E. repeat split; [exact E|lra].
  - exists a. repeat split; [lra|].
    destruct (Qlt_le_dec b a) as [H|H]; [lra|].
    apply Qle_bool_iff in H. congruence.
Qed.

(** With a finite target, a ladder of at least one bitrate and a finite
    highest utility above 1, the constants are finite and positive. *)
Lemma calculateBolaParameters_positive
    (target : Q) (bitrates utilities : list number) (q : Q) :
  (0 < length bitrates)%nat ->
  highestUtilityIndex utilities <> 0%nat ->
  at_index utilities (highestUtilityIndex utilities) = Fin q -> 1 < q ->
  exists g v,
    calculateBolaParameters (Fin target) bitrates utilities
    = Some {| p_gp := Fin g; p_Vp := Fin v |}
    /\ 0 < g /\ 0 < v.
Proof.
  intros Hn Hh Hq Hq1. unfold calculateBolaParameters.
  destruct (Nat.eqb_spec (highestUtilityIndex utilities) 0) as [|_]; [contradiction|].
  rewrite Hq. unfold MINIMUM_BUFFER_S, MINIMUM_BUFFER_PER_BITRATE_LEVEL_S, length_of, num.
  cbn [jmul jadd].
  destruct (Math_max_Fin target
              (inject_Z 10 + inject_Z 2 * inject_Z (Z.of_nat (length bitrates))))
    as (m & -> & _ & Hm).
  assert (Hlen : 1 <= inject_Z (Z.of_nat (length bitrates))).
  { replace 1 with (inject_Z 1) by reflexivity. rewrite <- Zle_Qle. lia. }
  assert (H10 : inject_Z 10 == 10) by reflexivity.
  assert (H2 : inject_Z 2 == 2) by reflexivity.
  assert (H1 : inject_Z 1 == 1) by reflexivity.
  rewrite H10, H2 in Hm.
  rewrite (jdiv_Fin m (inject_Z 10)) by (rewrite H10; lra).
  unfold jsub. cbn [jneg jadd].
  assert (Hd : 0 < m / inject_Z 10 + - inject_Z 1).
  { rewrite H10, H1. assert (1 < m / 10); [|lra].
    apply Qlt_shift_div_l; lra. }
  assert (Hg : 0 < (q + - inject_Z 1) / (m / inject_Z 10 + - inject_Z 1)).
  { apply Qdiv_pos; [rewrite H1; lra | exact Hd]. }
  rewrite jdiv_Fin by lra. rewrite jdiv_Fin by lra.
  eexists _, _. split; [reflexivity|]. split; [exact Hg|].
  apply Qdiv_pos; [rewrite H10; lra | exact Hg].
Qed.

Lemma soundState_retarget (env : Environment) (mediaType : string) (bolaState : BolaState) :
  soundState bolaState ->
  isFinite (getStableBufferTime env) = true ->
  isFinite (getCurrentBufferLevel env mediaType) = true ->
  exists bolaState',
    Abandon.checkBolaStateStableBufferTime env bolaState mediaType = Ok bolaState'
    /\ soundState bolaState'.
Proof.
  intros Hs Ht Hb.
  destruct Hs as ((v & Hv & Hvpos) & (p & Hp & Hppos) & Hn & Hh & (q & Hq & Hq1)).
  unfold Abandon.checkBolaStateStableBufferTime.
  destruct (jne (stableBufferTime bolaState) (getStableBufferTime env));
    [|exists bolaState; split; [reflexivity|]; repeat split; eauto].
  rewrite (finite_qOf _ Ht).
  destruct (calculateBolaParameters_positive (qOf (getStableBufferTime env))
              (bitrates bolaState) (utilities bolaState) q Hn Hh Hq Hq1)
    as (g & v' & -> & Hg & Hv').
  cbn [deref bind p_Vp p_gp].
  destruct (jne (Fin v') (Vp bolaState) || jne (Fin g) (gp bolaState));
    [|exists bolaState; split; [reflexivity|]; repeat split; eauto].
  eexists. split; [reflexivity|].
  unfold soundState, Abandon.retargeted.
  cbn [Vp placeholderBuffer bitrates utilities p_Vp p_gp].
  split; [exists v'; auto|]. split; [|repeat split; eauto].
  rewrite (finite_qOf _ Hb), Hp, Hv. rewrite (jdiv_Fin v' v) by lra.
  unfold MINIMUM_BUFFER_S, jsub, num. cbn [jadd jneg jmul].
  match goal with |- context [Math_max (Fin ?a) (Fin ?x)] =>
    destruct (Math_max_Fin a x) as (m & -> & Hm & _) end.
  exists m. split; [reflexivity|]. exact Hm.
Qed.

Lemma applyOp_sound (bolaState : BolaState) (op : stateOp) :
  soundState bolaState -> finiteOp op = true -> soundState (applyOp bolaState op).
Proof.
  intros Hs Hf. destruct op as [|env mediaType|q]; cbn [applyOp].
  - destruct Hs as (Hv & _ & Hrest). split; [exact Hv|]. split; [|exact Hrest].
    exists 0. split; [reflexivity|lra].
  - cbn in Hf. apply andb_true_iff in Hf as [Ht Hb].
    destruct (soundState_retarget env mediaType bolaState Hs Ht Hb) as (s' & -> & Hs').
    exact Hs'.
  - exact Hs.
Qed.

(** Whatever the inputs, an operation leaves the placeholder buffer [NaN]
    or at least 0 if it was so before. *)
Lemma applyOp_not_negative (bolaState : BolaState) (op : stateOp) :
  placeholderBuffer bolaState = NaN \/ jle (num 0) (placeholderBuffer bolaState) = true ->
  placeholderBuffer (applyOp bolaState op) = NaN
  \/ jle (num 0) (placeholderBuffer (applyOp bolaState op)) = true.
Proof.
  intros H. destruct op as [|env mediaType|q]; cbn [applyOp].
  - right. reflexivity.
  - unfold Abandon.checkBolaStateStableBufferTime.
    destruct (jne _ _); [|exact H].
    destruct (calculateBolaParameters _ _ _) as [params|]; cbn [deref bind]; [|exact H].
    destruct (_ || _); [|exact H].
    cbn [Abandon.retargeted placeholderBuffer]. apply Math_max_zero.
  - exact H.
Qed.

Lemma fold_applyOp_not_negative (ops : list stateOp) : forall bolaState,
  placeholderBuffer bolaState = NaN \/ jle (num 0) (placeholderBuffer bolaState) = true ->
  placeholderBuffer (fold_left applyOp ops bolaState) = NaN
  \/ jle (num 0) (placeholderBuffer (fold_left applyOp ops bolaState)) = true.
Proof.
  induction ops as [|op ops IH]; intros s H; [exact H|].
  cbn [fold_left]. apply IH, applyOp_not_negative, H.
Qed.

Lemma fold_applyOp_sound (ops : list stateOp) : forall bolaState,
  soundState bolaState -> forallb finiteOp ops = true ->
  soundState (fold_left applyOp ops bolaState).
Proof.
  induction ops as [|op ops IH]; intros s Hs Hf; [exact Hs|].
  cbn in Hf. apply andb_true_iff in Hf as [Hop Hf].
  cbn [fold_left]. apply IH; [apply applyOp_sound; assumption | exact Hf].
Qed.

(** A state built from finite inputs, as both [getInitialBolaState] build
    it, starts sound. *)
Lemma fresh_state_sound
    (Math_log : number -> number) (target : Q) (bandwidths : list number)
    (params : BolaParameters) (bolaState : BolaState) :
  forallb (fun b => isFinite (Math_log b)) bandwidths = true ->
  calculateBolaParameters (Fin target) bandwidths
    (normalize (utilitiesFromBitrates Math_log bandwidths)) = Some params ->
  bitrates bolaState = bandwidths ->
  utilities bolaState = normalize (utilitiesFromBitrates Math_log bandwidths) ->
  Vp bolaState = p_Vp params ->
  placeholderBuffer bolaState = num 0 ->
  soundState bolaState.
Proof.
  intros Hf Hc Hb Hu Hv Hp.
  set (us := normalize (utilitiesFromBitrates Math_log bandwidths)) in *.
  assert (Hh : highestUtilityIndex us <> 0%nat).
  { intros E. unfold calculateBolaParameters in Hc. rewrite E in Hc. discriminate. }
  destruct (highestUtilityIndex_spec us Hh) as [Hlt Hgt].
  assert (Hlen : length us = length bandwidths)
    by (unfold us, utilitiesFromBitrates; now rewrite normalize_length, length_map).
  rewrite Hlen in Hlt.
  unfold us in Hgt.
  rewrite !(normalized_utilities_finite Math_log bandwidths) in Hgt by (assumption || lia).
  apply jlt_Fin in Hgt. fold us in Hgt.
  set (q := qOf (Math_log (at_index bandwidths (highestUtilityIndex us)))
            + - qOf (Math_log (at_index bandwidths 0)) + 1) in *.
  assert (Hq : at_index us (highestUtilityIndex us) = Fin q)
    by (unfold us at 1; now rewrite normalized_utilities_finite).
  assert (Hq1 : 1 < q) by lra.
  destruct (calculateBolaParameters_positive target bandwidths us q
              ltac:(lia) Hh Hq Hq1) as (g & v & Hc' & Hg & Hvpos).
  rewrite Hc' in Hc. injection Hc as <-.
  unfold soundState. rewrite Hv, Hp, Hb, Hu. fold us. cbn [p_Vp].
  split; [exists v; auto|]. split; [exists 0; split; [reflexivity|lra]|].
  split; [lia|]. split; [exact Hh|]. exists q. auto.
Qed.

(** C10.  A track state is created with a placeholder buffer of 0, the clear
    on seek sets it to 0, and after any sequence of clears, retargets and
    decisions the placeholder buffer is not negative.  When the inputs are
    finite numbers (the logarithms of the ladder, the target buffer times and
    the buffer levels read) it is a finite number, at least 0. *)
Theorem placeholderBuffer_never_negative
    (Math_log : number -> number) (env : Environment) (ctx : RulesContext)
    (created : BolaState) (ops : list stateOp) :
  Bola.getInitialBolaState Math_log env ctx = Ok created
  \/ Abandon.getInitialBolaState Math_log env ctx = Ok (Abandon.Startup created) ->
  placeholderBuffer created = num 0
  /\ (forall bolaState, placeholderBuffer (clearBolaStateOnSeek bolaState) = num 0)
  /\ jlt (placeholderBuffer (fold_left applyOp ops created)) (num 0) = false
  /\ (isFinite (getStableBufferTime env) = true ->
      (forall mediaInfo, getMediaInfo ctx = Some mediaInfo ->
         forallb (fun b => isFinite (Math_log b)) (bitrateList mediaInfo) = true) ->
      forallb finiteOp ops = true ->
      exists p, placeholderBuffer (fold_left applyOp ops created) = Fin p /\ 0 <= p).
Proof.
  intros Hcreated.
  assert (Hshape : exists mediaInfo params,
             getMediaInfo ctx = Some mediaInfo
             /\ calculateBolaParameters (getStableBufferTime env) (bitrateList mediaInfo)
                  (normalize (utilitiesFromBitrates Math_log (bitrateList mediaInfo)))
                = Some params
             /\ bitrates created = bitrateList mediaInfo
             /\ utilities created
                = normalize (utilitiesFromBitrates Math_log (bitrateList mediaInfo))
             /\ Vp created = p_Vp params
             /\ placeholderBuffer created = num 0).
  { destruct Hcreated as [H|H];
      unfold Bola.getInitialBolaState, Abandon.getInitialBolaState in H;
      destruct (getMediaInfo ctx) as [mediaInfo|]; try discriminate H;
      cbn [deref bind] in H;
      destruct (calculateBolaParameters _ _ _) as [params|] eqn:Ec; try discriminate H;
      cbn [deref bind] in H; injection H as <-;
      exists mediaInfo, params; repeat split; auto. }
  destruct Hshape as (mediaInfo & params & Hm & Hc & Hb & Hu & Hv & Hp).
  split; [exact Hp|]. split; [reflexivity|]. split.
  - destruct (fold_applyOp_not_negative ops created) as [E|E].
    + right. rewrite Hp. reflexivity.
    + rewrite E. reflexivity.
    + unfold jlt. rewrite E. apply andb_false_r.
  - intros Ht Hlog Hops.
    assert (Hs : soundState created).
    { rewrite (finite_qOf _ Ht) in Hc.
      eapply fresh_state_sound; eauto. }
    destruct (fold_applyOp_sound ops created Hs Hops) as (_ & Hpb & _).
    exact Hpb.
Qed.

Lemma placeholderBuffer_never_negative_witness :
  jlt (placeholderBuffer (fold_left applyOp exampleOps createdExample)) (num 0) = false
  /\ exists p, placeholderBuffer (fold_left applyOp exampleOps createdExample) = Fin p
               /\ 0 <= p.
Proof.
  destruct (placeholderBuffer_never_negative logTable (envOf (num 12) (num 9) (num 0))
              (videoContext ladder3 (num 1000) (num 4) 2 (fragment7 0))
              createdExample exampleOps) as (_ & _ & H & Hfin).
  - right. vm_compute. reflexivity.
  - split; [exact H|]. apply Hfin.
    + reflexivity.
    + intros mediaInfo Hm. injection Hm as <-. vm_compute. reflexivity.
    + reflexivity.
Defined.

(** ** The abandonment monitor *)

Lemma fragmentAt_store (fd : gmap string (gmap Z Abandon.FragmentInfo))
    (t t' : string) (k k' : Z) (info : Abandon.FragmentInfo) :
  fragmentAt (<[t := <[k := info]> (default ∅ (fd !! t))]> fd) t' k'
  = if decide (t = t' /\ k = k') then Some info else fragmentAt fd t' k'.
Proof.
  unfold fragmentAt. destruct (decide (t = t')) as [<-|Ht].
  - rewrite lookup_insert_eq. simpl.
    destruct (decide (k = k')) as [<-|Hk].
    + rewrite lookup_insert_eq. now rewrite decide_True.
    + rewrite lookup_insert_ne by exact Hk. rewrite decide_False by tauto. reflexivity.
  - rewrite lookup_insert_ne by exact Ht. rewrite decide_False by tauto. reflexivity.
Qed.

Lemma fragmentAt_delete (fd : gmap string (gmap Z Abandon.FragmentInfo))
    (t t' : string) (k k' : Z) :
  fragmentAt (<[t := delete k (default ∅ (fd !! t))]> fd) t' k'
  = if decide (t = t' /\ k = k') then None else fragmentAt fd t' k'.
Proof.
  unfold fragmentAt. destruct (decide (t = t')) as [<-|Ht].
  - rewrite lookup_insert_eq. simpl.
    destruct (decide (k = k')) as [<-|Hk].
    + rewrite lookup_delete_eq. now rewrite decide_True.
    + rewrite lookup_delete_ne by exact Hk. rewrite decide_False by tauto. reflexivity.
  - rewrite lookup_insert_ne by exact Ht. rewrite decide_False by tauto. reflexivity.
Qed.


Lemma wfRule_sameExceptAt (t : string) (k : Z) (r r' : Abandon.Rule) :
  wfRule r -> sameExceptAt t k r r' -> wfRule r'.
Proof.
  intros Hwf Hsame t' k' info Hat.
  destruct (Hsame t' k') as [E|(-> & -> & [E|(info' & E & Hinfo)])].
  - rewrite E in Hat. eapply Hwf, Hat.
  - congruence.
  - rewrite E in Hat. injection Hat as <-. exact Hinfo.
Qed.

Lemma sameExceptAt_refl (t : string) (k : Z) (r : Abandon.Rule) : sameExceptAt t k r r.
Proof. intros t' k'. left. reflexivity. Qed.

Lemma sameExceptAt_trans (t : string) (k : Z) (r1 r2 r3 : Abandon.Rule) :
  sameExceptAt t k r1 r2 -> sameExceptAt t k r2 r3 -> sameExceptAt t k r1 r3.
Proof.
  intros H12 H23 t' k'. destruct (H23 t' k') as [E|H]; [|right; exact H].
  rewrite E. apply H12.
Qed.

Lemma sameExceptAt_store (t : string) (k : Z) (info : Abandon.FragmentInfo)
    (r : Abandon.Rule) :
  wfInfo k info -> sameExceptAt t k r (Abandon.storeFragmentInfo t k info r).
Proof.
  intros Hinfo t' k'. cbn [Abandon.storeFragmentInfo Abandon.fragmentDict].
  rewrite fragmentAt_store. destruct (decide (t = t' /\ k = k')) as [[<- <-]|_].
  - right. repeat split. right. exists info. auto.
  - left. reflexivity.
Qed.

Lemma sameExceptAt_delete (t : string) (k : Z) (key : option Z) (r : Abandon.Rule) :
  key = None \/ key = Some k ->
  sameExceptAt t k r (Abandon.deleteFragmentInfo t key r).
Proof.
  intros [->| ->]; [apply sameExceptAt_refl|].
  intros t' k'. cbn [Abandon.deleteFragmentInfo Abandon.fragmentDict].
  rewrite fragmentAt_delete. destruct (decide (t = t' /\ k = k')) as [[<- <-]|_].
  - right. repeat split. left. reflexivity.
  - left. reflexivity.
Qed.

(** [getBolaState] writes to the state dictionary only. *)
Lemma getBolaState_frame (Math_log : number -> number) (env : Environment)
    (ctx : RulesContext) (r r' : Abandon.Rule) (o : result Abandon.TrackState) :
  Abandon.getBolaState Math_log env ctx r = (r', o) ->
  Abandon.fragmentDict r' = Abandon.fragmentDict r
  /\ Abandon.abandonDict r' = Abandon.abandonDict r
  /\ Abandon.throughputArray r' = Abandon.throughputArray r.
Proof.
  unfold Abandon.getBolaState. intros H.
  repeat match type of H with
         | context [match ?x with _ => _ end] => destruct x
         end;
    injection H as <- <-; repeat split.
Qed.

(** The decision either leaves the two dictionaries alone and decides
    nothing, or commits: it files the entry under its id in [abandonDict],
    deletes it from [fragmentDict] and names the id in the request. *)
Lemma abandonDecision_cases (Math_log : number -> number)
    (readEarly : number -> result number) (env : Environment) (ctx : RulesContext)
    (representationInfo : RepresentationInfo) (abrController : AbrController)
    (mediaType : string) (bufferLevel : number) (info : Abandon.FragmentInfo)
    (switchRequest : SwitchRequest) (r r' : Abandon.Rule) (o : result SwitchRequest) :
  Abandon.abandonDecision Math_log readEarly env ctx representationInfo abrController
    mediaType bufferLevel info switchRequest r = (r', o) ->
  (Abandon.fragmentDict r' = Abandon.fragmentDict r
   /\ Abandon.abandonDict r' = Abandon.abandonDict r
   /\ (o = Ok switchRequest \/ exists e, o = Throw e))
  \/ (exists r1 sr,
        Abandon.fragmentDict r1 = Abandon.fragmentDict r
        /\ r' = Abandon.deleteFragmentInfo mediaType (Abandon.id info) r1
        /\ Abandon.abandonDict r'
           = <[Abandon.id info := info]> (Abandon.abandonDict r)
        /\ o = Ok sr
        /\ sr_quality sr <> NO_CHANGE
        /\ r_fragmentID (sr_reason sr) = Some (Abandon.id info)).
Proof.
  unfold Abandon.abandonDecision. intros H.
  destruct (Abandon.getBolaState Math_log env ctx r) as [r1 [bolaState|e]] eqn:Eg;
    destruct (getBolaState_frame _ _ _ _ _ _ Eg) as (Hf & Ha & Ht).
  - match type of H with
    | context [match ?d with _ => _ end] => destruct d as [[newQuality [|]]|e]
    end.
    + right. injection H as <- <-. eexists _, _. split; [|split; [reflexivity|]].
      * cbn. exact Hf.
      * split; [|repeat split; try reflexivity; discriminate].
        destruct (Abandon.id info); cbn; now rewrite Ha.
    + left. injection H as <- <-. eauto.
    + left. injection H as <- <-. eauto.
  - left. injection H as <- <-. eauto.
Qed.

Lemma wfInfo_empty (k : Z) : wfInfo k Abandon.emptyFragmentInfo.
Proof. left. split; reflexivity. Qed.

Lemma wfInfo_default (r : Abandon.Rule) (t : string) (k : Z) :
  wfRule r ->
  wfInfo k (default Abandon.emptyFragmentInfo (fragmentAt (Abandon.fragmentDict r) t k)).
Proof.
  intros Hwf. destruct (fragmentAt (Abandon.fragmentDict r) t k) as [info|] eqn:E.
  - exact (Hwf t k info E).
  - apply wfInfo_empty.
Qed.

(** A call that decides nothing and touches at most the entry of its own
    request. *)
Lemma stepSpec_no_change (n : Abandon.Notification) (t : string) (k : Z)
    (r r' : Abandon.Rule) :
  wfRule r -> sameExceptAt t k r r' ->
  Abandon.abandonDict r' = Abandon.abandonDict r ->
  stepSpec n r r' (Ok SwitchRequest_create).
Proof.
  intros Hwf Hsame Ha. split; [eapply wfRule_sameExceptAt; eassumption|].
  split; [now rewrite Ha|]. split.
  - intros k' (sr & E & Hq & _). injection E as <-. contradiction.
  - intros. eexists. split; reflexivity.
Qed.

(** A call that throws: it must not be one about an abandoned fragment on a
    context that offers the stream info. *)
Lemma stepSpec_throw (n : Abandon.Notification) (t : string) (k : Z)
    (r r' : Abandon.Rule) (e : error) :
  wfRule r -> sameExceptAt t k r r' ->
  Abandon.abandonDict r' = Abandon.abandonDict r ->
  (forall k', is_Some (Abandon.abandonDict r !! Some k') ->
              requestIndex n = Some k' -> offersStreamInfo n = true -> False) ->
  stepSpec n r r' (Throw e).
Proof.
  intros Hwf Hsame Ha Hno. split; [eapply wfRule_sameExceptAt; eassumption|].
  split; [now rewrite Ha|]. split.
  - intros k' (sr & E & _). discriminate E.
  - intros k' H1 H2 H3. destruct (Hno k' H1 H2 H3).
Qed.

Lemma noteFirstProgress_spec (req : FragmentRequest) (firstByte : number)
    (t : string) (k : Z) (info info' : Abandon.FragmentInfo) (r r' : Abandon.Rule) :
  wfInfo k info ->
  Abandon.noteFirstProgress req firstByte t k info r = (info', r') ->
  Abandon.id info' = Some k
  /\ Abandon.firstByteTime info' <> None
  /\ Abandon.fragmentDict r' = Abandon.fragmentDict r
  /\ Abandon.abandonDict r' = Abandon.abandonDict r
  /\ (Abandon.id info = None -> is_Some (Abandon.throughputArray r' !! t)).
Proof.
  unfold Abandon.noteFirstProgress. intros Hinfo H.
  destruct (Abandon.firstByteTime info) as [x|] eqn:E; injection H as <- <-.
  - destruct Hinfo as [[H1 _]|[_ H2]]; [congruence|].
    repeat split; auto; congruence.
  - repeat split; try discriminate. intros _. cbn. rewrite lookup_insert_eq. eauto.
Qed.

Lemma noteProgress_spec (env : Environment) (req : FragmentRequest)
    (t : string) (k : Z) (info info' : Abandon.FragmentInfo) (r r' : Abandon.Rule) :
  Abandon.id info = Some k -> Abandon.firstByteTime info <> None ->
  Abandon.noteProgress env req t k info r = (info', r') ->
  Abandon.id info' = Some k
  /\ Abandon.firstByteTime info' <> None
  /\ sameExceptAt t k r r'
  /\ Abandon.abandonDict r' = Abandon.abandonDict r
  /\ (is_Some (Abandon.throughputArray r !! t) ->
      is_Some (Abandon.throughputArray r' !! t)).
Proof.
  unfold Abandon.noteProgress. intros Hid Hfb H. injection H as <- <-.
  assert (Hwf : wfInfo k (Abandon.withProgress info (bytesLoaded req)
                  (jsub (currentTime env) (Abandon.numOf (Abandon.firstByteTime info)))))
    by (right; split; assumption).
  split; [exact Hid|]. split; [exact Hfb|].
  destruct (_ && _).
  - split; [|split].
    + intros t' k'. destruct (sameExceptAt_store t k _ r Hwf t' k') as [E|E]; [left|right]; exact E.
    + reflexivity.
    + intros _. cbn. unfold Abandon.storeLastRequestThroughputByType.
      rewrite lookup_insert_eq. eauto.
  - split; [now apply sameExceptAt_store|]. split; [reflexivity|].
    intros Hs. exact Hs.
Qed.

Lemma evaluateProgress_spec (Math_log : number -> number)
    (readEarly : number -> result number) (n : Abandon.Notification) (ctx : RulesContext)
    (ri : RepresentationInfo) (abr : AbrController) (t : string) (k : Z)
    (bufferLevel : number) (samples : list number)
    (info : Abandon.FragmentInfo) (r0 r r' : Abandon.Rule) (o : result SwitchRequest) :
  wfRule r0 -> sameExceptAt t k r0 r ->
  Abandon.abandonDict r = Abandon.abandonDict r0 ->
  Abandon.id info = Some k -> Abandon.firstByteTime info <> None ->
  requestIndex n = Some k -> currentQuality n = Some (quality_index ri) ->
  Abandon.evaluateProgress Math_log readEarly (Abandon.n_env n) ctx ri abr t k bufferLevel
    SwitchRequest_create samples info r = (r', o) ->
  stepSpec n r0 r' o.
Proof.
  intros Hwf Hsame Ha Hid Hfb Hreq Hcq. unfold Abandon.evaluateProgress.
  destruct (_ && _) eqn:Econd.
  - set (info2 := Abandon.withEstimate info _ _).
    set (r2 := Abandon.storeFragmentInfo t k info2 r).
    assert (Hwf2 : wfInfo k info2) by (right; split; assumption).
    assert (Hsame2 : sameExceptAt t k r0 r2)
      by (eapply sameExceptAt_trans; [exact Hsame | now apply sameExceptAt_store]).
    assert (Ha2 : Abandon.abandonDict r2 = Abandon.abandonDict r0) by exact Ha.
    destruct (_ || _) eqn:Elate.
    { intros H. injection H as <- <-. now apply (stepSpec_no_change n t k). }
    destruct (negb _) eqn:Ehas.
    2:{ intros H. injection H as <- <-. now apply (stepSpec_no_change n t k). }
    intros H. apply abandonDecision_cases in H.
    assert (Hfresh : Abandon.abandonDict r0 !! Some k = None).
    { apply negb_true_iff in Ehas. rewrite Ha2 in Ehas.
      change (Abandon.id info2) with (Abandon.id info) in Ehas. rewrite Hid in Ehas.
      destruct (Abandon.abandonDict r0 !! Some k); [discriminate Ehas|reflexivity]. }
    destruct H as [(Hf & Ha' & Ho)|(r1 & sr & Hf & -> & Ha' & -> & Hq & Hfid)].
    + assert (Hsame' : sameExceptAt t k r0 r').
      { intros t' k'. rewrite Hf. apply Hsame2. }
      destruct Ho as [->|[e ->]].
      * apply (stepSpec_no_change n t k); auto. congruence.
      * apply (stepSpec_throw n t k); auto; [congruence|].
        intros k' Hk' Hr' _. rewrite Hreq in Hr'. injection Hr' as <-.
        rewrite Hfresh in Hk'. destruct Hk' as [? Hk']. discriminate Hk'.
    + change (Abandon.id info2) with (Abandon.id info) in *. rewrite Hid in *.
      split; [|split; [|split]].
      * eapply wfRule_sameExceptAt; [exact Hwf|].
        eapply sameExceptAt_trans; [|apply sameExceptAt_delete; right; reflexivity].
        intros t' k'. rewrite Hf. apply Hsame2.
      * intros key Hkey. rewrite Ha', Ha2.
        destruct (decide (Some k = key)) as [<-|Hne];
          [rewrite lookup_insert_eq; eauto | now rewrite lookup_insert_ne].
      * intros k' (sr' & E & _ & Hfid'). injection E as <-.
        rewrite Hfid in Hfid'. injection Hfid' as <-.
        split; [exact Hfresh|]. split; [|split; [exact Hreq|]].
        -- rewrite Ha'. rewrite lookup_insert_eq. eauto.
        -- rewrite Hcq. apply orb_false_iff in Elate as [_ Hq0].
           apply Nat.eqb_neq in Hq0. congruence.
      * intros k' Hk' Hr' _. rewrite Hreq in Hr'. injection Hr' as <-.
        rewrite Hfresh in Hk'. destruct Hk' as [? Hk']. discriminate Hk'.
  - assert (Hdel : sameExceptAt t k r0 (Abandon.deleteFragmentInfo t (Abandon.id info) r)).
    { eapply sameExceptAt_trans; [exact Hsame|]. apply sameExceptAt_delete. now right. }
    assert (Hda : Abandon.abandonDict (Abandon.deleteFragmentInfo t (Abandon.id info) r)
                  = Abandon.abandonDict r0).
    { rewrite Hid. exact Ha. }
    destruct (jeq _ _); intros H; injection H as <- <-;
      now apply (stepSpec_no_change n t k).
Qed.

Lemma sameExceptAt_set (t : string) (k : Z) (r : Abandon.Rule) :
  wfRule r ->
  sameExceptAt t k r
    {| Abandon.fragmentDict := Abandon.setFragmentRequestDict t k (Abandon.fragmentDict r);
       Abandon.abandonDict := Abandon.abandonDict r;
       Abandon.bolaStateDict := Abandon.bolaStateDict r;
       Abandon.throughputArray := Abandon.throughputArray r |}.
Proof.
  intros Hwf t' k'. cbn [Abandon.fragmentDict]. unfold Abandon.setFragmentRequestDict.
  rewrite fragmentAt_store. destruct (decide (t = t' /\ k = k')) as [[<- <-]|_].
  - right. repeat split. right. eexists. split; [reflexivity|].
    now apply wfInfo_default.
  - left. reflexivity.
Qed.

(** One call of the rule, from a well-formed rule. *)
Lemma shouldAbandon_step (Math_log : number -> number)
    (readEarly : number -> result number) (n : Abandon.Notification)
    (r r' : Abandon.Rule) (o : result SwitchRequest) :
  wfRule r ->
  Abandon.shouldAbandonWith Math_log readEarly (Abandon.n_env n) (Abandon.n_context n) r
  = (r', o) ->
  stepSpec n r r' o.
Proof.
  intros Hwf. unfold Abandon.shouldAbandonWith.
  assert (Hquiet : stepSpec n r r (Ok SwitchRequest_create))
    by (apply (stepSpec_no_change n ""%string 0%Z); auto using sameExceptAt_refl).
  destruct (Abandon.n_context n) as [ctx|] eqn:Ectx;
    [|intros H; injection H as <- <-; exact Hquiet].
  destruct (_ || _) eqn:Eguard; [intros H; injection H as <- <-; exact Hquiet|].
  destruct (getMediaType ctx) as [t|]; [|intros H; injection H as <- <-; exact Hquiet].
  destruct (getCurrentRequest ctx) as [req|] eqn:Ereq;
    [|intros H; injection H as <- <-; exact Hquiet].
  destruct (getRepresentationInfo ctx) as [ri|] eqn:Eri;
    [|intros H; injection H as <- <-; exact Hquiet].
  destruct (getAbrController ctx) as [abr|];
    [|intros H; injection H as <- <-; exact Hquiet].
  destruct (getStreamInfo ctx) as [si|] eqn:Esi.
  2:{ intros H; injection H as <- <-.
      apply (stepSpec_throw n ""%string 0%Z); auto using sameExceptAt_refl.
      intros k' _ _ Ho. unfold offersStreamInfo in Ho. rewrite Ectx, Esi in Ho.
      discriminate Ho. }
  destruct (index req) as [k|] eqn:Ek;
    [|intros H; injection H as <- <-; exact Hquiet].
  assert (Hreq : requestIndex n = Some k)
    by (unfold requestIndex; now rewrite Ectx, Ereq).
  assert (Hcq : currentQuality n = Some (quality_index ri))
    by (unfold currentQuality; now rewrite Ectx, Eri).
  pose proof (sameExceptAt_set t k r Hwf) as Hsame1.
  set (r1 := {| Abandon.fragmentDict := _ |}) in *.
  assert (Hinfo : wfInfo k (default Abandon.emptyFragmentInfo
                              (default ∅ (Abandon.fragmentDict r1 !! t) !! k))).
  { change (default ∅ (Abandon.fragmentDict r1 !! t) !! k)
      with (fragmentAt (Abandon.fragmentDict r1) t k).
    apply wfInfo_default. eapply wfRule_sameExceptAt; eassumption. }
  set (info := default Abandon.emptyFragmentInfo _) in *.
  cbv zeta.
  destruct (firstByteDate req) as [firstByte|].
  2:{ intros H. injection H as <- <-. now apply (stepSpec_no_change n t k). }
  destruct (has (Abandon.abandonDict r1 !! Abandon.id info)) eqn:Ehas.
  { intros H. injection H as <- <-. now apply (stepSpec_no_change n t k). }
  destruct (Abandon.noteFirstProgress req firstByte t k info r1) as [info2 r2] eqn:E2.
  destruct (noteFirstProgress_spec _ _ _ _ _ _ _ _ Hinfo E2)
    as (Hid2 & Hfb2 & Hf2 & Ha2 & Hta2).
  destruct (Abandon.noteProgress (Abandon.n_env n) req t k info2 r2) as [info3 r3] eqn:E3.
  destruct (noteProgress_spec _ _ _ _ _ _ _ _ Hid2 Hfb2 E3)
    as (Hid3 & Hfb3 & Hsame3 & Ha3 & Hta3).
  assert (Hsame : sameExceptAt t k r r3).
  { eapply sameExceptAt_trans; [|exact Hsame3].
    intros t' k'. rewrite Hf2. apply Hsame1. }
  assert (Ha : Abandon.abandonDict r3 = Abandon.abandonDict r) by (now rewrite Ha3, Ha2).
  destruct (Abandon.throughputArray r3 !! t) as [samples|] eqn:Esamples.
  - now apply (evaluateProgress_spec Math_log readEarly n ctx ri abr t k _ samples info3 r r3).
  - intros H. injection H as <- <-. apply (stepSpec_throw n t k); auto.
    intros k' Hk' Hr' _. rewrite Hreq in Hr'. injection Hr' as <-.
    (* the fragment is abandoned, so the entry was untouched and has just been
       initialised, samples included *)
    assert (Hnone : Abandon.id info = None).
    { destruct Hinfo as [[_ H]|[_ H]]; [exact H|].
      rewrite H in Ehas. change (Abandon.abandonDict r1) with (Abandon.abandonDict r) in Ehas.
      destruct Hk' as [x Hx]. rewrite Hx in Ehas. discriminate Ehas. }
    destruct (Hta3 (Hta2 Hnone)) as [x Hx]. discriminate Hx.
Qed.

Lemma run_length (Math_log : number -> number) (readEarly : number -> result number)
    (ns : list Abandon.Notification) : forall (r r' : Abandon.Rule) outs,
  Abandon.run Math_log readEarly r ns = (outs, r') -> length outs = length ns.
Proof.
  induction ns as [|n ns IH]; intros r r' outs Hrun.
  - cbn in Hrun. injection Hrun as <- <-. reflexivity.
  - cbn [Abandon.run] in Hrun.
    destruct (Abandon.shouldAbandonWith _ _ _ _ r) as [r1 o].
    destruct (Abandon.run Math_log readEarly r1 ns) as [outs1 r2] eqn:Erest.
    injection Hrun as <- <-. cbn. f_equal. eapply IH, Erest.
Qed.

(** A run of the rule from a well-formed rule: every call meets [stepSpec]
    against the dictionary the run started with, and an abandon decision
    for a fragment rules out a later one. *)
Lemma run_spec (Math_log : number -> number) (readEarly : number -> result number)
    (ns : list Abandon.Notification) : forall (r r' : Abandon.Rule) outs,
  wfRule r ->
  Abandon.run Math_log readEarly r ns = (outs, r') ->
  (forall key, is_Some (Abandon.abandonDict r !! key) ->
               is_Some (Abandon.abandonDict r' !! key))
  /\ (forall j o n, outs !! j = Some o -> ns !! j = Some n ->
        (forall k, abandons o k ->
           Abandon.abandonDict r !! Some k = None
           /\ is_Some (Abandon.abandonDict r' !! Some k)
           /\ requestIndex n = Some k /\ currentQuality n <> Some 0%nat)
        /\ (forall k, is_Some (Abandon.abandonDict r !! Some k) ->
              requestIndex n = Some k -> offersStreamInfo n = true -> noChange o))
  /\ (forall i j oi oj k, (i < j)%nat ->
        outs !! i = Some oi -> outs !! j = Some oj -> abandons oi k ->
        ~ abandons oj k
        /\ (forall n, ns !! j = Some n -> requestIndex n = Some k ->
              offersStreamInfo n = true -> noChange oj)).
Proof.
  induction ns as [|n ns IH]; intros r r' outs Hwf Hrun.
  - cbn in Hrun. injection Hrun as <- <-. repeat split; auto; intros; discriminate.
  - cbn [Abandon.run] in Hrun.
    destruct (Abandon.shouldAbandonWith Math_log readEarly (Abandon.n_env n)
                (Abandon.n_context n) r) as [r1 o] eqn:Estep.
    destruct (Abandon.run Math_log readEarly r1 ns) as [outs1 r2] eqn:Erest.
    injection Hrun as <- <-.
    destruct (shouldAbandon_step _ _ _ _ _ _ Hwf Estep) as (Hwf1 & Hmono1 & Hab1 & Hno1).
    destruct (IH r1 r2 outs1 Hwf1 Erest) as (Hmono & Hcalls & Honce).
    split; [auto|]. split.
    + intros [|j] o' n' Ho Hn; cbn in Ho, Hn.
      * injection Ho as <-. injection Hn as <-. split; [|exact Hno1].
        intros k Hk. destruct (Hab1 k Hk) as (H1 & H2 & H3 & H4). auto.
      * destruct (Hcalls j o' n' Ho Hn) as [Hab Hno]. split.
        -- intros k Hk. destruct (Hab k Hk) as (H1 & H2 & H3 & H4).
           repeat split; auto.
           destruct (Abandon.abandonDict r !! Some k) eqn:E; [|reflexivity].
           destruct (Hmono1 (Some k)) as [x Hx]; [rewrite E; eauto|]. congruence.
        -- intros k Hk. apply Hno, Hmono1, Hk.
    + intros [|i] [|j] oi oj k Hij Hi Hj Hk; try lia; cbn in Hi, Hj.
      * injection Hi as <-. destruct (Hab1 k Hk) as (_ & Hin & _).
        split.
        -- intros Hk'. 
           assert (exists n', ns !! j = Some n') as [n' Hn'].
           { apply lookup_lt_is_Some. apply lookup_lt_Some in Hj.
             erewrite <- run_length; eauto. }
           destruct (Hcalls j oj n' Hj Hn') as [Hab _].
           destruct (Hab k Hk') as (Hnone & _). destruct Hin as [x Hx]. congruence.
        -- intros n' Hn' Hreq Hoff. cbn in Hn'.
           destruct (Hcalls j oj n' Hj Hn') as [_ Hno]. now apply (Hno k).
      * apply (Honce i j oi oj k); auto. lia.
Qed.

Lemma wfRule_reset (r : Abandon.Rule) : wfRule (Abandon.reset r).
Proof. intros t k info H. cbn in H. discriminate H. Qed.

(** C9.  Take any run of the abandonment rule from a reset instance,
    whatever the state dictionary holds and whatever the early read of the
    segment duration answers (the source's [ReferenceError] included).
    Once a call has returned an abandon decision for a fragment id, no later
    call returns one for that id, and every later notification about that
    fragment on a context with the stream info gets a decision that changes
    nothing; and a call that returns an abandon decision is one about a
    request whose quality index is not 0. *)
Theorem abandon_once_and_never_lowest
    (Math_log : number -> number) (readEarly : number -> result number)
    (r : Abandon.Rule) (ns : list Abandon.Notification) :
  let outs := fst (Abandon.run Math_log readEarly (Abandon.reset r) ns) in
  (forall i j oi oj k, (i < j)%nat ->
     outs !! i = Some oi -> outs !! j = Some oj ->
     abandons oi k -> ~ abandons oj k)
  /\ (forall i j oi oj n k, (i < j)%nat ->
        outs !! i = Some oi -> outs !! j = Some oj -> ns !! j = Some n ->
        abandons oi k -> requestIndex n = Some k -> offersStreamInfo n = true ->
        noChange oj)
  /\ (forall i o n k,
        outs !! i = Some o -> ns !! i = Some n -> abandons o k ->
        requestIndex n = Some k /\ currentQuality n <> Some 0%nat).
Proof.
  intros outs. subst outs.
  destruct (Abandon.run Math_log readEarly (Abandon.reset r) ns) as [outs r'] eqn:Erun.
  destruct (run_spec Math_log readEarly ns _ _ _ (wfRule_reset r) Erun)
    as (_ & Hcalls & Honce).
  cbn [fst]. split; [|split].
  - intros i j oi oj k Hij Hi Hj Hk. now apply (Honce i j oi oj k).
  - intros i j oi oj n k Hij Hi Hj Hn Hk Hreq Hoff.
    destruct (Honce i j oi oj k Hij Hi Hj Hk) as [_ H]. now apply (H n).
  - intros i o n k Hi Hn Hk. destruct (Hcalls i o n Hi Hn) as [Hab _].
    destruct (Hab k Hk) as (_ & _ & H1 & H2). auto.
Qed.

(** With the source's early read the rule never returns an abandon decision
    at all: the branch that would make it always throws. *)
Lemma shouldAbandon_never_abandons (Math_log : number -> number)
    (env : Environment) (rulesContext : option RulesContext) (r : Abandon.Rule) (k : Z) :
  ~ abandons (snd (Abandon.shouldAbandon Math_log env rulesContext r)) k.
Proof.
  assert (Hdecision : forall ctx ri abr t level info r0,
            ~ abandons (snd (Abandon.abandonDecision Math_log Abandon.temporalDeadZone
                               env ctx ri abr t level info SwitchRequest_create r0)) k).
  { intros. unfold Abandon.abandonDecision.
    destruct (Abandon.getBolaState Math_log env ctx r0) as [r1 [s|e]];
      cbn; intros (sr & E & _); discriminate E. }
  assert (Hquiet : ~ abandons (Ok SwitchRequest_create) k).
  { intros (sr & E & Hq & _). injection E as <-. contradiction. }
  unfold Abandon.shouldAbandon, Abandon.shouldAbandonWith.
  repeat match goal with
         | |- context [match ?x with _ => _ end] =>
             lazymatch x with
             | Abandon.abandonDecision _ _ _ _ _ _ _ _ _ _ _ => fail
             | _ => destruct x
             end
         end; cbn [snd]; auto;
    try (intros (sr & E & _); discriminate E).
  unfold Abandon.evaluateProgress.
  repeat match goal with
         | |- context [if ?x then _ else _] => destruct x
         end; cbn [snd]; auto.
Qed.

(** The guards do work when the early read answers (here with the value the
    declaration would give) and the state dictionary exists: the slow
    download is abandoned on its sixth notification, and the seven
    notifications that follow change nothing. *)
Lemma answered_read_abandons_once (Math_log : number -> number) :
  map outcomeKind
      (fst (Abandon.run Math_log Ok abandonRuleWithStates longSlowDownload))
  = [0; 0; 0; 0; 0; 1; 0; 0; 0; 0; 0; 0; 0]%nat.
Proof. vm_compute. reflexivity. Qed.

(* ===================================================================== *)
(** * Further properties of the code *)
(* ===================================================================== *)

(** ** The utility model *)

Lemma jlt_jle_trans (x y z : number) :
  jlt x y = true -> jle y z = true -> jlt x z = true.
Proof.
  unfold jlt. rewrite !andb_true_iff, !negb_true_iff.
  intros [H1 H2] H3. split; [eapply jle_trans; eassumption|].
  destruct (jle z x) eqn:E; [|reflexivity].
  rewrite (jle_trans y z x H3 E) in H2. discriminate.
Qed.

(** What the [reduce] of [calculateBolaParameters] has established after the
    first [n] utilities. *)
Lemma reduceFrom_first_maximum (l : list number) : forall (rest pre : list number) (acc : nat),
  l = pre ++ rest ->
  firstMaximumSoFar l (length pre) acc ->
  firstMaximumSoFar l (length l)
    (reduceFrom (fun highestIndex u uIndex =>
                   if jgt u (at_index l highestIndex) then uIndex else highestIndex)
                rest (length pre) acc).
Proof.
  induction rest as [|x t IH]; intros pre acc Hl Hacc.
  - cbn [reduceFrom]. subst l. rewrite length_app, Nat.add_0_r. exact Hacc.
  - cbn [reduceFrom].
    assert (Hx : at_index l (length pre) = x).
    { subst l. unfold at_index. rewrite app_nth2 by lia. now rewrite Nat.sub_diag. }
    replace (S (length pre)) with (length (pre ++ [x])) by (rewrite length_app; cbn; lia).
    apply IH; [now rewrite <- app_assoc|].
    rewrite length_app. cbn [length]. rewrite Nat.add_1_r.
    destruct Hacc as (Hrange & Hmax & Hfirst).
    destruct (jgt x (at_index l acc)) eqn:E.
    + unfold jgt in E. split; [right; lia|]. split.
      * intros i Hi. destruct (Nat.eq_dec i (length pre)) as [->|Hne];
          [apply jlt_irrefl|].
        destruct (jgt (at_index l i) (at_index l (length pre))) eqn:Ei; [|reflexivity].
        unfold jgt in Ei. rewrite Hx in Ei.
        rewrite <- (Hmax i ltac:(lia)). unfold jgt. symmetry.
        eapply jlt_trans; eassumption.
      * intros i Hi.
        destruct (jge (at_index l i) (at_index l (length pre))) eqn:Ei; [|reflexivity].
        unfold jge in Ei. rewrite Hx in Ei.
        rewrite <- (Hmax i ltac:(lia)). unfold jgt. symmetry.
        eapply jlt_jle_trans; eassumption.
    + split; [destruct Hrange; [left; assumption | right; lia]|]. split.
      * intros i Hi. destruct (Nat.eq_dec i (length pre)) as [->|Hne];
          [now rewrite Hx | apply Hmax; lia].
      * exact Hfirst.
Qed.

(** X1.  On a non-empty array of utilities the index kept by the [reduce]
    is an index of the array, no utility is greater than the one it holds,
    and no earlier index holds one as great: it is the first maximum. *)
Theorem highestUtilityIndex_first_maximum (utilities : list number) :
  utilities <> [] ->
  (highestUtilityIndex utilities < length utilities)%nat
  /\ (forall i, (i < length utilities)%nat ->
        jgt (at_index utilities i)
            (at_index utilities (highestUtilityIndex utilities)) = false)
  /\ (forall i, (i < highestUtilityIndex utilities)%nat ->
        jge (at_index utilities i)
            (at_index utilities (highestUtilityIndex utilities)) = false).
Proof.
  intros Hne.
  assert (Hinit : firstMaximumSoFar utilities (length (@nil number)) 0%nat).
  { split; [left; reflexivity|]. split; intros i Hi; cbn in Hi; lia. }
  pose proof (reduceFrom_first_maximum utilities utilities [] 0%nat eq_refl Hinit) as H.
  change (firstMaximumSoFar utilities (length utilities) (highestUtilityIndex utilities)) in H.
  destruct H as (Hrange & Hmax & Hfirst).
  split; [|split; assumption].
  destruct Hrange as [->|H]; [|exact H].
  destruct utilities; [contradiction|cbn; lia].
Qed.

Lemma highestUtilityIndex_first_maximum_witness :
  (highestUtilityIndex utilities3 < length utilities3)%nat.
Proof.
  apply (highestUtilityIndex_first_maximum utilities3). discriminate.
Defined.

(** The index that holds the first maximum is the one the [reduce] keeps. *)
Lemma highestUtilityIndex_unique (utilities : list number) (h : nat) :
  (h < length utilities)%nat ->
  (forall i, (i < length utilities)%nat ->
     jle (at_index utilities i) (at_index utilities h) = true) ->
  (forall i, (i < h)%nat ->
     jlt (at_index utilities i) (at_index utilities h) = true) ->
  highestUtilityIndex utilities = h.
Proof.
  intros Hh Hmax Hfirst.
  assert (Hinit : firstMaximumSoFar utilities (length (@nil number)) 0%nat).
  { split; [left; reflexivity|]. split; intros i Hi; cbn in Hi; lia. }
  pose proof (reduceFrom_first_maximum utilities utilities [] 0%nat eq_refl Hinit) as H.
  change (firstMaximumSoFar utilities (length utilities) (highestUtilityIndex utilities)) in H.
  set (h0 := highestUtilityIndex utilities) in *.
  destruct H as (Hrange & Hmax0 & Hfirst0).
  assert (Hh0 : (h0 < length utilities)%nat) by (destruct Hrange; lia).
  pose proof (Hmax h0 Hh0) as Hle.
  pose proof (Hmax0 h Hh) as Hgt. unfold jgt, jlt in Hgt. rewrite Hle in Hgt.
  cbn [andb] in Hgt. apply negb_false_iff in Hgt.
  destruct (lt_eq_lt_dec h0 h) as [[Hlt|Heq]|Hlt]; [exfalso|exact Heq|exfalso].
  - specialize (Hfirst h0 Hlt). unfold jlt in Hfirst. rewrite Hgt in Hfirst.
    rewrite andb_false_r in Hfirst. discriminate Hfirst.
  - specialize (Hfirst0 h Hlt). unfold jge in Hfirst0. congruence.
Qed.

(** C2.  Let [h] be the highest-utility index of the ladder: the utility at
    [h] is a number that no utility exceeds, and every utility before [h] is
    smaller.  Then [calculateBolaParameters] returns null exactly when [h]
    is 0, and otherwise
    [gp = (utilities[h] - 1) / (bufferTime / 10 - 1)] and [Vp = 10 / gp] with
    [bufferTime = max(stableBufferTime, 10 + 2 * bitrates.length)]. *)
Theorem calculateBolaParameters_closed_form
    (stableBufferTime : number) (bitrates utilities : list number) (h : nat) :
  (h < length utilities)%nat ->
  (forall i, (i < length utilities)%nat ->
     jle (at_index utilities i) (at_index utilities h) = true) ->
  (forall i, (i < h)%nat ->
     jlt (at_index utilities i) (at_index utilities h) = true) ->
  let bufferTime :=
    Math_max stableBufferTime (jadd (num 10) (jmul (num 2) (length_of bitrates))) in
  let gp := jdiv (jsub (at_index utilities h) (num 1))
                 (jsub (jdiv bufferTime (num 10)) (num 1)) in
  (calculateBolaParameters stableBufferTime bitrates utilities = None <-> h = 0%nat)
  /\ (h <> 0%nat ->
      calculateBolaParameters stableBufferTime bitrates utilities
      = Some {| p_gp := gp; p_Vp := jdiv (num 10) gp |}).
Proof.
  intros Hh Hmax Hfirst bufferTime gp.
  pose proof (highestUtilityIndex_unique utilities h Hh Hmax Hfirst) as E.
  unfold calculateBolaParameters. rewrite E.
  destruct (Nat.eqb_spec h 0) as [E0|E0].
  - split; [split; auto|]. intros H. contradiction.
  - split; [split; [discriminate | intros H; contradiction]|]. intros _. reflexivity.
Qed.

(** Utilities 1, 2 and 3 over three bitrates with a 20 s target: the buffer
    time is 20, [gp = (3 - 1) / (20 / 10 - 1)] and [Vp = 10 / gp]. *)
Lemma calculateBolaParameters_closed_form_witness :
  (calculateBolaParameters (num 20) ladder3 [num 1; num 2; num 3] = None <-> 2%nat = 0%nat)
  /\ (2%nat <> 0%nat ->
      calculateBolaParameters (num 20) ladder3 [num 1; num 2; num 3]
      = Some {| p_gp := jdiv (jsub (num 3) (num 1))
                             (jsub (jdiv (Math_max (num 20)
                                            (jadd (num 10) (jmul (num 2) (length_of ladder3))))
                                         (num 10))
                                   (num 1));
                p_Vp := jdiv (num 10)
                          (jdiv (jsub (num 3) (num 1))
                                (jsub (jdiv (Math_max (num 20)
                                               (jadd (num 10)
                                                     (jmul (num 2) (length_of ladder3))))
                                            (num 10))
                                      (num 1))) |}).
Proof.
  apply (calculateBolaParameters_closed_form (num 20) ladder3 [num 1; num 2; num 3] 2).
  - cbn. lia.
  - intros i Hi. destruct i as [|[|[|i]]]; try (cbn in Hi; lia); reflexivity.
  - intros i Hi. destruct i as [|[|i]]; try lia; reflexivity.
Defined.



Lemma reduceFrom_stays_at_NaN (l : list number) : forall (rest : list number) (i : nat),
  at_index l 0 = NaN ->
  reduceFrom (fun highestIndex u uIndex =>
                if jgt u (at_index l highestIndex) then uIndex else highestIndex)
             rest i 0%nat = 0%nat.
Proof.
  induction rest as [|x t IH]; intros i H0; [reflexivity|].
  cbn [reduceFrom]. rewrite H0. unfold jgt, jlt. cbn [jle andb]. now apply IH.
Qed.

(** X3.  When the logarithm of the lowest bitrate is not a finite number (a
    bitrate of 0, say), the first normalised utility is [NaN] and there are
    no parameters, whatever the rest of the ladder is. *)
Theorem no_parameters_without_first_logarithm
    (Math_log : number -> number) (stableBufferTime b : number) (rest : list number) :
  isFinite (Math_log b) = false ->
  at_index (normalize (utilitiesFromBitrates Math_log (b :: rest))) 0 = NaN
  /\ calculateBolaParameters stableBufferTime (b :: rest)
       (normalize (utilitiesFromBitrates Math_log (b :: rest))) = None.
Proof.
  intros Hb.
  assert (H0 : at_index (normalize (utilitiesFromBitrates Math_log (b :: rest))) 0 = NaN).
  { cbn. destruct (Math_log b) as [|[]|q]; try reflexivity. discriminate Hb. }
  split; [exact H0|].
  unfold calculateBolaParameters, highestUtilityIndex, reduce.
  now rewrite reduceFrom_stays_at_NaN.
Qed.

Lemma no_parameters_without_first_logarithm_witness :
  calculateBolaParameters (num 12) [num 0; num 1000000]
    (normalize (utilitiesFromBitrates (fun x => if jeq x (num 0) then Inf true else logTable x)
                                      [num 0; num 1000000])) = None.
Proof.
  apply (no_parameters_without_first_logarithm
           (fun x => if jeq x (num 0) then Inf true else logTable x)
           (num 12) (num 0) [num 1000000]).
  reflexivity.
Defined.

(** ** The result of the quality selection *)

Section LoopResult.

Variables (bolaState : BolaState) (bufferLevel throughput segmentDuration : number).

Local Abbreviation pass := (Bola.loopPass bolaState bufferLevel throughput segmentDuration).
Local Abbreviation init := (Bola.loopInit bolaState bufferLevel).

Lemma iter_pass_quality_in_range (k : nat) :
  (0 < length (bitrates bolaState))%nat ->
  exists c, quality_ (Nat.iter (S k) pass init) = QIndex c
            /\ (c < length (bitrates bolaState))%nat.
Proof.
  intros Hn. rewrite Nat.iter_succ. cbn [Bola.loopPass quality_].
  unfold Bola.bitrateCount.
  destruct (length (bitrates bolaState)) as [|n] eqn:En; [lia|].
  destruct (scoringPass_bestSoFar bolaState
              (LABLevel (Nat.iter k pass init)) n (quality_ (Nat.iter k pass init)))
    as (c & E & Hc & _).
  exists c. rewrite E. split; [reflexivity|exact Hc].
Qed.

Lemma iter_pass_quality_empty (k : nat) :
  bitrates bolaState = [] -> quality_ (Nat.iter k pass init) = QNaN.
Proof.
  intros He. induction k as [|k IH]; [reflexivity|].
  rewrite Nat.iter_succ. cbn [Bola.loopPass quality_].
  unfold Bola.bitrateCount. rewrite He. cbn. exact IH.
Qed.

End LoopResult.

(** X5.  On a ladder with at least one bitrate the quality selection
    returns an index of the ladder, index 0 when there is a single bitrate;
    on an empty ladder it returns [NaN]. *)
Theorem getQualityFromBufferLevel_in_range
    (bolaState : BolaState) (bufferLevel throughput segmentDuration : number) :
  ((0 < length (bitrates bolaState))%nat ->
   exists c,
     Bola.getQualityFromBufferLevel bolaState bufferLevel throughput segmentDuration
     = QIndex c
     /\ (c < length (bitrates bolaState))%nat)
  /\ (length (bitrates bolaState) = 1%nat ->
      Bola.getQualityFromBufferLevel bolaState bufferLevel throughput segmentDuration
      = QIndex 0)
  /\ (bitrates bolaState = [] ->
      Bola.getQualityFromBufferLevel bolaState bufferLevel throughput segmentDuration
      = QNaN).
Proof.
  destruct (lookAhead_terminates bolaState bufferLevel throughput segmentDuration)
    as (k & Hk & _ & Hloop & _).
  unfold Bola.getQualityFromBufferLevel. rewrite Hloop.
  destruct k as [|k]; [lia|].
  assert (Hrange : (0 < length (bitrates bolaState))%nat ->
            exists c, quality_ (Nat.iter (S k)
                        (Bola.loopPass bolaState bufferLevel throughput segmentDuration)
                        (Bola.loopInit bolaState bufferLevel)) = QIndex c
                      /\ (c < length (bitrates bolaState))%nat)
    by apply iter_pass_quality_in_range.
  split; [exact Hrange|]. split.
  - intros H1. destruct Hrange as (c & -> & Hc); [lia|]. f_equal. lia.
  - apply iter_pass_quality_empty.
Qed.

(** The returned state is some [k >= 1] passes from the start, and either
    its bitrate is a number equal to the previous one or its [maxIte] is
    below 0. *)
Lemma lookAhead_projection_exit_aux
    (bolaState : BolaState) (bufferLevel throughput segmentDuration : number) :
  exists k, (1 <= k)%nat
    /\ Bola.lookAheadLoop bolaState bufferLevel throughput segmentDuration
       = Nat.iter k (Bola.loopPass bolaState bufferLevel throughput segmentDuration)
                  (Bola.loopInit bolaState bufferLevel)
    /\ ((isNaN (bitrate (Nat.iter k
                   (Bola.loopPass bolaState bufferLevel throughput segmentDuration)
                   (Bola.loopInit bolaState bufferLevel))) = false
         /\ jeq (bitrate (Nat.iter k
                   (Bola.loopPass bolaState bufferLevel throughput segmentDuration)
                   (Bola.loopInit bolaState bufferLevel)))
                (prev_bitrate (Nat.iter k
                   (Bola.loopPass bolaState bufferLevel throughput segmentDuration)
                   (Bola.loopInit bolaState bufferLevel))) = true)
        \/ (maxIte (Nat.iter k
                   (Bola.loopPass bolaState bufferLevel throughput segmentDuration)
                   (Bola.loopInit bolaState bufferLevel)) < 0)%Z).
Proof.
  destruct (lookAhead_terminates bolaState bufferLevel throughput segmentDuration)
    as (k & Hk & _ & Hloop & _ & Hend).
  exists k. split; [lia|]. split; [exact Hloop|].
  destruct Hend as [H| ->].
  - left. unfold Bola.loopCond, jne in H. apply orb_false_iff in H.
    destruct H as [H1 H2]. split; [exact H1|]. now apply negb_false_iff in H2.
  - right.
    assert (H : forall n st,
               maxIte (Nat.iter n (Bola.loopPass bolaState bufferLevel throughput
                                                 segmentDuration) st)
               = (maxIte st - Z.of_nat n)%Z).
    { induction n as [|n IH]; intros st; [cbn; lia|].
      rewrite Nat.iter_succ, loopPass_maxIte, IH. lia. }
    rewrite H. cbn [maxIte Bola.loopInit]. lia.
Qed.

(** X6.  When the loop leaves before its cap is exhausted, the quality it
    returns is the choice of a scoring pass at the level projected from a
    bitrate equal to the bitrate of that quality: the look-ahead is
    consistent with its own outcome. *)
Theorem lookAhead_is_self_consistent
    (bolaState : BolaState) (bufferLevel throughput segmentDuration : number) :
  (0 <= maxIte (Bola.lookAheadLoop bolaState bufferLevel throughput segmentDuration))%Z ->
  exists (previous : quality) (b : number),
    let chosen :=
      Bola.getQualityFromBufferLevel bolaState bufferLevel throughput segmentDuration in
    jeq (bitrate_at bolaState chosen) b = true
    /\ chosen
       = snd (scoringPass bolaState (length (bitrates bolaState))
                (Bola.projectedLevel bufferLevel throughput segmentDuration b)
                previous).
Proof.
  intros Hcap.
  destruct (lookAhead_projection_exit_aux bolaState bufferLevel throughput segmentDuration)
    as (k & Hk & Hloop & Hend).
  unfold Bola.getQualityFromBufferLevel. rewrite Hloop in *.
  set (pass := Bola.loopPass bolaState bufferLevel throughput segmentDuration) in *.
  set (init := Bola.loopInit bolaState bufferLevel) in *.
  destruct Hend as [[Hnan Heq]|Hneg]; [|lia].
  destruct k as [|[|k]]; [lia| |].
  - (* one pass: the previous bitrate is still NaN *)
    cbn in Heq. unfold jeq in Heq. rewrite jle_NaN_r in Heq. discriminate Heq.
  - exists (quality_ (Nat.iter (S k) pass init)), (bitrate (Nat.iter (S k) pass init)).
    cbn zeta. split.
    + rewrite Nat.iter_succ in Heq. exact Heq.
    + rewrite (Nat.iter_succ (S k)). rewrite (Nat.iter_succ k). reflexivity.
Qed.

Lemma getQualityFromBufferLevel_in_range_witness :
  exists c,
    Bola.getQualityFromBufferLevel state3 (num 11) (num 1000) (num 8) = QIndex c
    /\ (c < 3)%nat.
Proof.
  apply (getQualityFromBufferLevel_in_range state3 (num 11) (num 1000) (num 8)).
  cbn. lia.
Defined.

Lemma lookAhead_is_self_consistent_witness :
  exists (previous : quality) (b : number),
    jeq (bitrate_at state3
           (Bola.getQualityFromBufferLevel state3 (num 12) (num 1000) (num 8))) b = true
    /\ Bola.getQualityFromBufferLevel state3 (num 12) (num 1000) (num 8)
       = snd (scoringPass state3 3
                (Bola.projectedLevel (num 12) (num 1000) (num 8) b) previous).
Proof.
  apply (lookAhead_is_self_consistent state3 (num 12) (num 1000) (num 8)).
  assert (E : maxIte (Bola.lookAheadLoop state3 (num 12) (num 1000) (num 8)) = 1%Z)
    by (vm_compute; reflexivity).
  rewrite E. lia.
Defined.

(** ** The switch rule *)

(** [getInitialBolaState] of the switch rule succeeds exactly when the
    context has a media info whose ladder has parameters. *)
Lemma Bola_getInitialBolaState_cases
    (Math_log : number -> number) (env : Environment) (ctx : RulesContext) :
  match getMediaInfo ctx with
  | None => Bola.getInitialBolaState Math_log env ctx = Throw TypeError
  | Some mediaInfo =>
      match calculateBolaParameters (getStableBufferTime env) (bitrateList mediaInfo)
              (normalize (utilitiesFromBitrates Math_log (bitrateList mediaInfo))) with
      | None => Bola.getInitialBolaState Math_log env ctx = Throw TypeError
      | Some params =>
          exists bolaState,
            Bola.getInitialBolaState Math_log env ctx = Ok bolaState
            /\ bitrates bolaState = bitrateList mediaInfo
            /\ utilities bolaState
               = normalize (utilitiesFromBitrates Math_log (bitrateList mediaInfo))
            /\ stableBufferTime bolaState = getStableBufferTime env
            /\ Vp bolaState = p_Vp params /\ gp bolaState = p_gp params
            /\ lastQuality bolaState = QIndex 0
            /\ placeholderBuffer bolaState = num 0
      end
  end.
Proof.
  unfold Bola.getInitialBolaState.
  destruct (getMediaInfo ctx) as [mediaInfo|]; [|reflexivity]. cbn [deref bind].
  destruct (calculateBolaParameters _ _ _) as [params|]; [|reflexivity].
  cbn [deref bind]. eexists. split; [reflexivity|]. repeat split.
Qed.

(** X7.  [getMaxIndex] throws in three situations only, always with a
    [TypeError]: the context passes the guard but has no
    [getRepresentationInfo]; buffer-occupancy ABR is switched on, no state
    exists yet for the track, and the track's ladder has no parameters; or
    buffer-occupancy ABR is switched on and the throughput is known, in
    which case the call goes as far as the read of [PRIORITY] on the request
    object. *)
Theorem getMaxIndex_throws_iff
    (Math_log : number -> number) (env : Environment)
    (rulesContext : option RulesContext) (r : Bola.Rule) (e : error) :
  snd (Bola.getMaxIndex Math_log env rulesContext r) = Throw e
  <-> e = TypeError
      /\ exists ctx mediaType mediaInfo abrController,
           rulesContext = Some ctx
           /\ offersSwitchAccessors ctx = true
           /\ getMediaType ctx = Some mediaType
           /\ getMediaInfo ctx = Some mediaInfo
           /\ getAbrController ctx = Some abrController
           /\ (getRepresentationInfo ctx = None
               \/ (useBufferOccupancyABR ctx = Some true
                   /\ ((Bola.bolaStateDict r !! mediaType = None
                        /\ calculateBolaParameters (getStableBufferTime env)
                             (bitrateList mediaInfo)
                             (normalize (utilitiesFromBitrates Math_log
                                                               (bitrateList mediaInfo)))
                           = None)
                       \/ isNaN (averageThroughput abrController) = false))).
Proof.
  unfold Bola.getMaxIndex.
  destruct rulesContext as [ctx|].
  2:{ cbn. split; [discriminate|]. intros (_ & ctx & ? & ? & ? & H & _). discriminate H. }
  unfold offersSwitchAccessors.
  pose proof (Bola_getInitialBolaState_cases Math_log env ctx) as Hinit.
  unfold Bola.getBolaState.
  destruct (getMediaInfo ctx) as [mediaInfo|] eqn:Emi;
    destruct (getMediaType ctx) as [mediaType|] eqn:Emt;
    destruct (getScheduleController ctx) as [sc|] eqn:Esc;
    destruct (getStreamInfo ctx) as [si|] eqn:Esi;
    destruct (getAbrController ctx) as [abr|] eqn:Eac;
    destruct (useBufferOccupancyABR ctx) as [opt|] eqn:Eub;
    cbn [has negb orb andb snd];
    try (split;
         [discriminate
         | intros (_ & c & t & m & a & E & H & _); injection E as <-;
           rewrite ?Emi, ?Emt, ?Esc, ?Esi, ?Eac, ?Eub in H; discriminate H]).
  destruct (getRepresentationInfo ctx) as [ri|] eqn:Eri; cbn [snd].
  2:{ split.
      - intros H. injection H as <-. split; [reflexivity|].
        exists ctx, mediaType, mediaInfo, abr.
        rewrite Emi, Emt, Esc, Esi, Eac, Eub. repeat split; auto.
      - intros (-> & _). reflexivity. }
  destruct opt; cbn [negb snd Bola.bolaStateDict].
  2:{ split; [discriminate|].
      intros (_ & c & t & m & a & E & _ & _ & _ & _ & [H|(H & _)]); injection E as <-;
        [rewrite Eri in H | rewrite Eub in H]; discriminate H. }
  match goal with |- _ <-> _ /\ ?rhs => set (P := rhs) end.
  assert (HP1 : isNaN (averageThroughput abr) = false -> P).
  { intros En. exists ctx, mediaType, mediaInfo, abr.
    split; [reflexivity|]. split; [now rewrite Emi, Emt, Esc, Esi, Eac, Eub|].
    repeat (split; [solve [auto]|]). right. split; [exact Eub|]. right. exact En. }
  assert (HP2 : Bola.bolaStateDict r !! mediaType <> None
                \/ calculateBolaParameters (getStableBufferTime env)
                     (bitrateList mediaInfo)
                     (normalize (utilitiesFromBitrates Math_log (bitrateList mediaInfo)))
                   <> None ->
                isNaN (averageThroughput abr) = true -> ~ P).
  { intros Hstate En
           (c & t & m & a & E & _ & Et & Em & Ea & [H|(_ & [(H1 & H2)|H])]);
      injection E as <-.
    - rewrite Eri in H. discriminate H.
    - rewrite Emt in Et. injection Et as <-. rewrite Emi in Em. injection Em as <-.
      destruct Hstate as [Hs|Hs]; contradiction.
    - rewrite Eac in Ea. injection Ea as <-. congruence. }
  assert (Hgo : forall (r1 : Bola.Rule) (ok : SwitchRequest),
            Bola.bolaStateDict r !! mediaType <> None
            \/ calculateBolaParameters (getStableBufferTime env)
                 (bitrateList mediaInfo)
                 (normalize (utilitiesFromBitrates Math_log (bitrateList mediaInfo)))
               <> None ->
            snd (if isNaN (averageThroughput abr)
                 then (r1, Ok ok) else (r1, Throw TypeError)) = Throw e
            <-> e = TypeError /\ P).
  { intros r1 ok Hstate. destruct (isNaN (averageThroughput abr)) eqn:En; cbn [snd]; split.
    - discriminate.
    - intros (_ & HP). destruct (HP2 Hstate eq_refl HP).
    - intros H. injection H as <-. auto.
    - intros (-> & _). reflexivity. }
  assert (HP3 : Bola.bolaStateDict r !! mediaType = None ->
                calculateBolaParameters (getStableBufferTime env)
                  (bitrateList mediaInfo)
                  (normalize (utilitiesFromBitrates Math_log (bitrateList mediaInfo)))
                = None -> P).
  { intros Hd Hc. exists ctx, mediaType, mediaInfo, abr.
    split; [reflexivity|]. split; [now rewrite Emi, Emt, Esc, Esi, Eac, Eub|].
    repeat (split; [solve [auto]|]). right. split; [exact Eub|]. left. auto. }
  clearbody P.
  destruct (Bola.bolaStateDict r !! mediaType) as [bolaState|] eqn:Edict.
  - apply Hgo. left. discriminate.
  - destruct (calculateBolaParameters _ _ _) as [params|] eqn:Ecalc.
    + destruct Hinit as (bolaState & -> & _). apply Hgo. right. discriminate.
    + rewrite Hinit. cbn [snd]. split.
      * intros H. injection H as <-. split; [reflexivity|]. now apply HP3.
      * intros (-> & _). reflexivity.
Qed.

(** What [getBolaState] of the switch rule does: it returns the state the
    dictionary holds for the track, or creates one, files it under the track
    and returns it; when it throws, the rule is as before. *)
Lemma Bola_getBolaState_cases
    (Math_log : number -> number) (env : Environment) (ctx : RulesContext)
    (r r' : Bola.Rule) (o : result BolaState) :
  Bola.getBolaState Math_log env ctx r = (r', o) ->
  (r' = r /\ o = Throw TypeError)
  \/ (exists mediaType bolaState,
        getMediaType ctx = Some mediaType /\ o = Ok bolaState
        /\ Bola.timeToLoadDelay r' = Bola.timeToLoadDelay r
        /\ ((r' = r /\ Bola.bolaStateDict r !! mediaType = Some bolaState)
            \/ (Bola.bolaStateDict r !! mediaType = None
                /\ Bola.getInitialBolaState Math_log env ctx = Ok bolaState
                /\ Bola.bolaStateDict r'
                   = <[mediaType := bolaState]> (Bola.bolaStateDict r)))).
Proof.
  unfold Bola.getBolaState. intros H.
  destruct (getMediaType ctx) as [mediaType|]; [|injection H as <- <-; auto].
  destruct (Bola.bolaStateDict r !! mediaType) as [bolaState|] eqn:Ed.
  - injection H as <- <-. right. exists mediaType, bolaState. auto 10.
  - pose proof (Bola_getInitialBolaState_cases Math_log env ctx) as Hinit.
    destruct (Bola.getInitialBolaState Math_log env ctx) as [bolaState|e] eqn:Ei.
    + injection H as <- <-. right. exists mediaType, bolaState. auto 10.
    + injection H as <- <-. left. split; [reflexivity|].
      destruct (getMediaInfo ctx); [destruct (calculateBolaParameters _ _ _)|];
        try congruence.
      destruct Hinit as (s & Hs & _). discriminate Hs.
Qed.

(** A state just created has at least two bitrates. *)
Lemma created_state_has_ladder
    (Math_log : number -> number) (env : Environment) (ctx : RulesContext)
    (bolaState : BolaState) :
  Bola.getInitialBolaState Math_log env ctx = Ok bolaState ->
  (1 < length (bitrates bolaState))%nat.
Proof.
  intros H. pose proof (Bola_getInitialBolaState_cases Math_log env ctx) as Hinit.
  destruct (getMediaInfo ctx) as [mediaInfo|]; [|congruence].
  destruct (calculateBolaParameters _ _ _) as [params|] eqn:Ec; [|congruence].
  destruct Hinit as (s & Hs & Hb & _). rewrite H in Hs. injection Hs as <-.
  rewrite Hb. unfold calculateBolaParameters in Ec.
  destruct (Nat.eqb_spec (highestUtilityIndex
              (normalize (utilitiesFromBitrates Math_log (bitrateList mediaInfo)))) 0)
    as [|Hh]; [discriminate Ec|].
  pose proof (highestUtilityIndex_spec _ Hh) as [Hlt _].
  unfold utilitiesFromBitrates in Hlt, Hh. rewrite normalize_length, length_map in Hlt. lia.
Qed.

(** One call of the switch rule leaves every state as created and answers
    as [switchOutcomeOk] says. *)
Lemma getMaxIndex_step
    (Math_log : number -> number) (env : Environment)
    (rulesContext : option RulesContext) (r r' : Bola.Rule) (o : result SwitchRequest) :
  statesAsCreated r ->
  Bola.getMaxIndex Math_log env rulesContext r = (r', o) ->
  statesAsCreated r' /\ switchOutcomeOk o.
Proof.
  intros Hl. unfold Bola.getMaxIndex.
  assert (Hquiet : statesAsCreated r /\ switchOutcomeOk (Ok SwitchRequest_create))
    by (split; [exact Hl | split; reflexivity]).
  destruct rulesContext as [ctx|]; [|intros H; injection H as <- <-; exact Hquiet].
  destruct (_ || _); [intros H; injection H as <- <-; exact Hquiet|].
  destruct (getMediaType ctx) as [mediaType|] eqn:Emt;
    [|intros H; injection H as <- <-; exact Hquiet].
  destruct (getAbrController ctx) as [abr|];
    [|intros H; injection H as <- <-; exact Hquiet].
  destruct (useBufferOccupancyABR ctx) as [opt|];
    [|intros H; injection H as <- <-; exact Hquiet].
  destruct (getRepresentationInfo ctx) as [ri|];
    [|intros H; injection H as <- <-; split; [exact Hl|reflexivity]].
  destruct opt; cbn [negb]; [|intros H; injection H as <- <-; exact Hquiet].
  set (r0 := {| Bola.bolaStateDict := Bola.bolaStateDict r;
                Bola.timeToLoadDelay := Some (num 0) |}).
  destruct (Bola.getBolaState Math_log env ctx r0) as [r1 res] eqn:Eg.
  apply Bola_getBolaState_cases in Eg.
  destruct Eg as [[-> ->]|(t & s & Et & -> & Hdelay & Hdict)].
  { intros H. injection H as <- <-. split; [exact Hl|reflexivity]. }
  assert (Hl1 : statesAsCreated r1).
  { destruct Hdict as [[-> Hs]|(Hnone & Hinit & Hd)]; [exact Hl|].
    pose proof (created_state_has_ladder _ _ _ _ Hinit) as Hlen.
    pose proof (Bola_getInitialBolaState_cases Math_log env ctx) as Hcases.
    intros t' s' Hs'. rewrite Hd in Hs'.
    destruct (decide (t = t')) as [<-|Hne].
    - rewrite lookup_insert_eq in Hs'. injection Hs' as <-.
      split; [exact Hlen|].
      destruct (getMediaInfo ctx) as [mediaInfo|]; [|congruence].
      destruct (calculateBolaParameters _ _ _) as [params|]; [|congruence].
      destruct Hcases as (s0 & Hs0 & _ & _ & _ & _ & _ & Hq & Hp).
      rewrite Hinit in Hs0. injection Hs0 as <-. auto.
    - rewrite lookup_insert_ne in Hs' by exact Hne. exact (Hl t' s' Hs'). }
  destruct (isNaN (averageThroughput abr)).
  { intros H. injection H as <- <-. split; [exact Hl1|]. split; reflexivity. }
  cbn [sr_PRIORITY deref]. intros H. injection H as <- <-.
  split; [exact Hl1|reflexivity].
Qed.

Lemma statesAsCreated_setup : statesAsCreated Bola.setup.
Proof. intros t s H. cbn in H. discriminate H. Qed.

Lemma switchRun_step
    (Math_log : number -> number) (calls : list SwitchCall) :
  forall (r r' : Bola.Rule) outs,
    statesAsCreated r -> switchRun Math_log r calls = (outs, r') ->
    Forall switchOutcomeOk outs /\ statesAsCreated r'.
Proof.
  induction calls as [|c calls IH]; intros r r' outs Hl Hrun.
  - cbn in Hrun. injection Hrun as <- <-. auto.
  - cbn [switchRun] in Hrun.
    destruct (Bola.getMaxIndex Math_log (c_env c) (c_context c) r) as [r1 o1] eqn:Es.
    destruct (switchRun Math_log r1 calls) as [outs1 r2] eqn:Er.
    injection Hrun as <- <-.
    destruct (getMaxIndex_step _ _ _ _ _ _ Hl Es) as [Hl1 Hok].
    destruct (IH r1 r2 outs1 Hl1 Er) as [Hall Hl2].
    split; [constructor; assumption | exact Hl2].
Qed.

(** X8.  The switch rule never answers with a quality.  Over any sequence
    of calls on a fresh rule, every call throws a [TypeError] or returns a
    request that has no quality and [DEFAULT] priority: a call that gets to
    choose an index throws at the read of [PRIORITY] before it returns.  So
    the write of the last quality is never reached, and every state of the
    dictionary stays as its creation left it, with at least two bitrates, 0
    as last quality and a placeholder buffer of 0. *)
Theorem switch_rule_never_returns_a_quality
    (Math_log : number -> number) (calls : list SwitchCall) :
  Forall switchOutcomeOk (fst (switchRun Math_log Bola.setup calls))
  /\ statesAsCreated (snd (switchRun Math_log Bola.setup calls)).
Proof.
  destruct (switchRun Math_log Bola.setup calls) as [outs r'] eqn:Er.
  exact (switchRun_step Math_log calls Bola.setup r' outs statesAsCreated_setup Er).
Qed.

(** X9.  The switch rule creates the state of a track once: after a call
    of [getBolaState] that returns a state, the dictionary holds that state
    for the track, the other tracks are as before, and any later call for
    the track returns the same state and leaves the rule alone, whatever
    the target buffer time and the ladder have become.  This rule never
    retargets. *)
Theorem Bola_getBolaState_creates_once
    (Math_log : number -> number) (env : Environment) (ctx : RulesContext)
    (r r' : Bola.Rule) (bolaState : BolaState) :
  Bola.getBolaState Math_log env ctx r = (r', Ok bolaState) ->
  exists mediaType,
    getMediaType ctx = Some mediaType
    /\ Bola.bolaStateDict r' !! mediaType = Some bolaState
    /\ (forall other, other <> mediaType ->
          Bola.bolaStateDict r' !! other = Bola.bolaStateDict r !! other)
    /\ (forall env' ctx',
          getMediaType ctx' = Some mediaType ->
          Bola.getBolaState Math_log env' ctx' r' = (r', Ok bolaState)).
Proof.
  intros H. apply Bola_getBolaState_cases in H.
  destruct H as [[_ H]|(t & s & Et & Es & _ & Hd)]; [discriminate H|].
  injection Es as <-. exists t. split; [exact Et|].
  assert (Hs : Bola.bolaStateDict r' !! t = Some bolaState).
  { destruct Hd as [[-> Hs]|(_ & _ & ->)]; [exact Hs|apply lookup_insert_eq]. }
  split; [exact Hs|]. split.
  - intros other Hne. destruct Hd as [[-> _]|(_ & _ & ->)]; [reflexivity|].
    now rewrite lookup_insert_ne.
  - intros env' ctx' Et'. unfold Bola.getBolaState. now rewrite Et', Hs.
Qed.

Lemma Bola_getBolaState_creates_once_witness :
  exists r' bolaState,
    Bola.getBolaState logTable (envOf (num 12) (num 11) (num 0))
      (videoContext ladder3 (num 1000) (num 8) 0 (fragment7 0)) Bola.setup
    = (r', Ok bolaState)
    /\ Bola.bolaStateDict r' !! "video"%string = Some bolaState.
Proof.
  eexists _, _. split.
  - vm_compute. reflexivity.
  - match goal with |- Bola.bolaStateDict ?rule !! _ = Some ?state =>
      destruct (Bola_getBolaState_creates_once logTable (envOf (num 12) (num 11) (num 0))
                  (videoContext ladder3 (num 1000) (num 8) 0 (fragment7 0))
                  Bola.setup rule state) as (t & Et & Hs & _)
    end.
    + vm_compute. reflexivity.
    + injection Et as <-. exact Hs.
Defined.

(** X10.  A call of [getMaxIndex] never removes a state from the
    dictionary and never changes one that is there: whatever the call
    returns or throws, a state the dictionary held before the call is held
    unchanged after it, its last quality included. *)
Theorem getMaxIndex_preserves_states
    (Math_log : number -> number) (env : Environment)
    (rulesContext : option RulesContext) (r r' : Bola.Rule) (o : result SwitchRequest)
    (mediaType : string) (bolaState : BolaState) :
  Bola.getMaxIndex Math_log env rulesContext r = (r', o) ->
  Bola.bolaStateDict r !! mediaType = Some bolaState ->
  Bola.bolaStateDict r' !! mediaType = Some bolaState.
Proof.
  unfold Bola.getMaxIndex. intros H Hs.
  destruct rulesContext as [ctx|]; [|injection H as <- <-; auto].
  destruct (_ || _); [injection H as <- <-; auto|].
  destruct (getMediaType ctx) as [t|] eqn:Emt; [|injection H as <- <-; auto].
  destruct (getAbrController ctx) as [abr|]; [|injection H as <- <-; auto].
  destruct (useBufferOccupancyABR ctx) as [opt|]; [|injection H as <- <-; auto].
  destruct (getRepresentationInfo ctx) as [ri|]; [|injection H as <- <-; auto].
  destruct opt; cbn [negb] in H; [|injection H as <- <-; auto].
  set (r0 := {| Bola.bolaStateDict := Bola.bolaStateDict r;
                Bola.timeToLoadDelay := Some (num 0) |}) in H.
  destruct (Bola.getBolaState Math_log env ctx r0) as [r1 res] eqn:Eg.
  apply Bola_getBolaState_cases in Eg.
  destruct Eg as [[-> ->]|(t' & s & Et & -> & _ & Hd)].
  { injection H as <- <-. auto. }
  assert (Hs1 : Bola.bolaStateDict r1 !! mediaType = Some bolaState).
  { destruct Hd as [[-> Hs']|(Hnone & _ & ->)]; [auto|].
    cbn [Bola.bolaStateDict r0] in Hnone.
    rewrite lookup_insert_ne; [exact Hs|]. intros <-. congruence. }
  destruct (isNaN (averageThroughput abr)); [injection H as <- <-; exact Hs1|].
  cbn [sr_PRIORITY deref] in H. injection H as <- <-. exact Hs1.
Qed.

Lemma getMaxIndex_preserves_states_witness :
  Bola.bolaStateDict
    (fst (Bola.getMaxIndex logTable (c_env (videoCall 12)) (c_context (videoCall 12))
            ruleWithVideoState)) !! "video"%string = Some state3.
Proof.
  apply (getMaxIndex_preserves_states logTable (c_env (videoCall 12))
           (c_context (videoCall 12)) ruleWithVideoState _
           (snd (Bola.getMaxIndex logTable (c_env (videoCall 12))
                   (c_context (videoCall 12)) ruleWithVideoState))).
  - apply surjective_pairing.
  - apply lookup_singleton_eq.
Defined.

(** X11.  The guard of [getMaxIndex] is pure: with no context, with a context
    that lacks one of the six accessors asked for, or with buffer-occupancy
    ABR switched off (the representation info being there), the call
    returns the fresh request, with no quality and [DEFAULT] priority, and
    leaves the rule as it was: no state is created and no delay is asked
    for. *)
Theorem getMaxIndex_guard_is_pure
    (Math_log : number -> number) (env : Environment)
    (rulesContext : option RulesContext) (r : Bola.Rule) :
  (forall ctx, rulesContext = Some ctx ->
     offersSwitchAccessors ctx = false
     \/ (has (getRepresentationInfo ctx) = true
         /\ useBufferOccupancyABR ctx = Some false)) ->
  Bola.getMaxIndex Math_log env rulesContext r = (r, Ok SwitchRequest_create).
Proof.
  intros H. unfold Bola.getMaxIndex.
  destruct rulesContext as [ctx|]; [|reflexivity].
  specialize (H ctx eq_refl). unfold offersSwitchAccessors in H.
  destruct (getMediaInfo ctx), (getMediaType ctx), (getScheduleController ctx),
    (getStreamInfo ctx), (getAbrController ctx), (useBufferOccupancyABR ctx) as [[|]|];
    cbn [has negb orb andb] in *; try reflexivity;
    destruct (getRepresentationInfo ctx); cbn [has] in H; try reflexivity;
    destruct H as [H|[H1 H2]]; discriminate.
Qed.

Lemma getMaxIndex_guard_is_pure_witness :
  Bola.getMaxIndex logTable (envOf (num 12) (num 11) (num 0))
                   (Some optedOutContext) Bola.setup
  = (Bola.setup, Ok SwitchRequest_create).
Proof.
  apply (getMaxIndex_guard_is_pure logTable (envOf (num 12) (num 11) (num 0))
           (Some optedOutContext) Bola.setup).
  intros ctx H. injection H as <-. right. split; reflexivity.
Defined.

(** ** Retargeting and state creation in the abandonment rule *)

Lemma jdiv_NaN_r (x : number) : jdiv x NaN = NaN.
Proof. destruct x; reflexivity. Qed.

Lemma jmul_NaN_r (x : number) : jmul x NaN = NaN.
Proof. destruct x; reflexivity. Qed.

Lemma jeq_refl (x : number) : isNaN x = false -> jeq x x = true.
Proof. intros H. unfold jeq. now rewrite jle_refl. Qed.

(** With a [NaN] target the parameters, if any, are [NaN]. *)
Lemma calculateBolaParameters_NaN (bitrates utilities : list number) (params : BolaParameters) :
  calculateBolaParameters NaN bitrates utilities = Some params ->
  params = {| p_gp := NaN; p_Vp := NaN |}.
Proof.
  unfold calculateBolaParameters.
  destruct (Nat.eqb _ 0); [discriminate|]. intros H. injection H as <-.
  cbn [Math_max]. unfold jsub at 2. cbn [jadd jdiv]. now rewrite !jdiv_NaN_r.
Qed.

(** X13.  Retargeting is idempotent: a second retarget under the same
    configuration and buffer level returns the state the first one left,
    unchanged. *)
Theorem retarget_is_idempotent
    (env : Environment) (bolaState bolaState' : BolaState) (mediaType : string) :
  Abandon.checkBolaStateStableBufferTime env bolaState mediaType = Ok bolaState' ->
  Abandon.checkBolaStateStableBufferTime env bolaState' mediaType = Ok bolaState'.
Proof.
  intros H. pose proof H as H1. unfold Abandon.checkBolaStateStableBufferTime in H.
  destruct (jne (stableBufferTime bolaState) (getStableBufferTime env)) eqn:Ene;
    [|injection H as <-; exact H1].
  destruct (calculateBolaParameters _ _ _) as [params|] eqn:Ec; [|discriminate H].
  cbn [deref bind] in H.
  destruct (_ || _) eqn:Ed; [|injection H as <-; exact H1].
  injection H as <-. clear H1.
  unfold Abandon.checkBolaStateStableBufferTime.
  cbn [Abandon.retargeted stableBufferTime bitrates utilities Vp gp placeholderBuffer].
  destruct (isNaN (getStableBufferTime env)) eqn:En.
  - destruct (getStableBufferTime env); try discriminate En.
    apply calculateBolaParameters_NaN in Ec as Ep. rewrite Ec. subst params.
    cbn [deref bind p_Vp p_gp jne jeq jle andb negb orb jdiv].
    rewrite !jmul_NaN_r. reflexivity.
  - unfold jne. rewrite jeq_refl by exact En. reflexivity.
Qed.

Lemma retarget_is_idempotent_witness :
  exists bolaState',
    Abandon.checkBolaStateStableBufferTime (envOf (num 30) (num 15) (num 0)) state3 "video"
    = Ok bolaState'
    /\ Abandon.checkBolaStateStableBufferTime (envOf (num 30) (num 15) (num 0))
         bolaState' "video"
       = Ok bolaState'.
Proof.
  eexists. split; [vm_compute; reflexivity|].
  apply (retarget_is_idempotent (envOf (num 30) (num 15) (num 0)) state3).
  vm_compute. reflexivity.
Defined.

(** X14.  State creation in the abandonment rule does not throw on a
    context with a media info.  It gives the one-bitrate state exactly when
    the highest-utility index is 0, which covers the empty ladder and the
    ladder of a single bitrate; any other state it gives has at least two
    bitrates, the ladder of the media info, a placeholder buffer of 0 and
    0 as last quality. *)
Theorem Abandon_getInitialBolaState_total
    (Math_log : number -> number) (env : Environment) (ctx : RulesContext)
    (mediaInfo : MediaInfo) :
  getMediaInfo ctx = Some mediaInfo ->
  let normalized := normalize (utilitiesFromBitrates Math_log (bitrateList mediaInfo)) in
  exists trackState,
    Abandon.getInitialBolaState Math_log env ctx = Ok trackState
    /\ (trackState = Abandon.OneBitrate <-> highestUtilityIndex normalized = 0%nat)
    /\ ((length (bitrateList mediaInfo) <= 1)%nat -> trackState = Abandon.OneBitrate)
    /\ (forall fields, trackState = Abandon.Startup fields ->
          bitrates fields = bitrateList mediaInfo
          /\ utilities fields = normalized
          /\ (2 <= length (bitrates fields))%nat
          /\ placeholderBuffer fields = num 0
          /\ lastQuality fields = QIndex 0
          /\ stableBufferTime fields = getStableBufferTime env).
Proof.
  intros Hm normalized. unfold Abandon.getInitialBolaState. rewrite Hm.
  cbn [deref bind]. fold normalized.
  assert (Hshort : (length (bitrateList mediaInfo) <= 1)%nat ->
                   highestUtilityIndex normalized = 0%nat).
  { intros Hlen. unfold normalized.
    destruct (bitrateList mediaInfo) as [|b [|b' rest]]; [reflexivity| |cbn in Hlen; lia].
    apply highestUtilityIndex_single. }
  unfold calculateBolaParameters.
  destruct (Nat.eqb_spec (highestUtilityIndex normalized) 0) as [E|E].
  - exists Abandon.OneBitrate. split; [reflexivity|]. split; [tauto|].
    split; [reflexivity|]. intros fields H. discriminate H.
  - eexists. split; [reflexivity|]. split; [split; [discriminate|contradiction]|].
    split; [intros Hlen; destruct (E (Hshort Hlen))|].
    intros fields H. injection H as <-.
    cbn [clearBolaStateOnSeek bitrates utilities placeholderBuffer lastQuality
         stableBufferTime].
    repeat split.
    pose proof (highestUtilityIndex_spec normalized E) as [Hlt _].
    unfold normalized, utilitiesFromBitrates in Hlt, E.
    rewrite normalize_length, length_map in Hlt. lia.
Qed.

Lemma Abandon_getInitialBolaState_total_witness :
  exists trackState,
    Abandon.getInitialBolaState logTable (envOf (num 12) (num 9) (num 0))
      singleBitrateContext = Ok trackState
    /\ trackState = Abandon.OneBitrate.
Proof.
  destruct (Abandon_getInitialBolaState_total logTable (envOf (num 12) (num 9) (num 0))
              singleBitrateContext {| bitrateList := [num 500000] |} eq_refl)
    as (trackState & H & _ & Hshort & _).
  exists trackState. split; [exact H|]. apply Hshort. cbn. lia.
Defined.

(** ** Bookkeeping of the abandonment rule *)

(** X15.  [setFragmentRequestDict] makes sure that the entry of a request
    exists: an entry already there is kept as it is, a missing one is
    created empty, no other entry changes, and doing it twice is the same
    as doing it once. *)
Theorem setFragmentRequestDict_ensures_entry
    (type : string) (k : Z) (fragmentDict : gmap string (gmap Z Abandon.FragmentInfo)) :
  fragmentAt (Abandon.setFragmentRequestDict type k fragmentDict) type k
  = Some (default Abandon.emptyFragmentInfo (fragmentAt fragmentDict type k))
  /\ (forall type' k', ~ (type = type' /\ k = k') ->
        fragmentAt (Abandon.setFragmentRequestDict type k fragmentDict) type' k'
        = fragmentAt fragmentDict type' k')
  /\ Abandon.setFragmentRequestDict type k
       (Abandon.setFragmentRequestDict type k fragmentDict)
     = Abandon.setFragmentRequestDict type k fragmentDict.
Proof.
  unfold Abandon.setFragmentRequestDict. split; [|split].
  - rewrite fragmentAt_store. now rewrite decide_True.
  - intros type' k' Hne. rewrite fragmentAt_store. now rewrite decide_False.
  - rewrite lookup_insert_eq. simpl. rewrite lookup_insert_eq. simpl.
    now rewrite insert_insert_eq, insert_insert_eq.
Qed.

Lemma abandonDecision_commit (Math_log : number -> number)
    (readEarly : number -> result number) (env : Environment) (ctx : RulesContext)
    (ri : RepresentationInfo) (abr : AbrController)
    (t : string) (level : number) (info : Abandon.FragmentInfo)
    (r r' : Abandon.Rule) (sr : SwitchRequest) :
  Abandon.abandonDecision Math_log readEarly env ctx ri abr t level info
    SwitchRequest_create r = (r', Ok sr) ->
  sr_quality sr <> NO_CHANGE ->
  Abandon.abandonDict r' = <[Abandon.id info := info]> (Abandon.abandonDict r)
  /\ Abandon.throughputArray r' = Abandon.throughputArray r
  /\ (forall k, Abandon.id info = Some k ->
        fragmentAt (Abandon.fragmentDict r') t k = None)
  /\ r_throughput (sr_reason sr)
     = Some (Abandon.numOf (Abandon.measuredBandwidthInKbps info))
  /\ r_fragmentID (sr_reason sr) = Some (Abandon.id info)
  /\ exists newQuality newBitrate currentBitrate,
       sr_quality sr = Chosen newQuality
       /\ Abandon.bitrateOf (abrBitrateList abr) newQuality = Ok newBitrate
       /\ Abandon.bitrateOf (abrBitrateList abr) (QIndex (qualityFor abr))
          = Ok currentBitrate
       /\ jgt (jsub (Abandon.numOf (Abandon.f_bytesTotal info))
                    (Abandon.numOf (Abandon.f_bytesLoaded info)))
              (jdiv (jmul (Abandon.numOf (Abandon.f_bytesTotal info)) newBitrate)
                    currentBitrate) = true.
Proof.
  unfold Abandon.abandonDecision. intros H Hq.
  destruct (Abandon.getBolaState Math_log env ctx r) as [r1 [bolaState|e]] eqn:Eg;
    destruct (getBolaState_frame _ _ _ _ _ _ Eg) as (Hf & Ha & Ht);
    [|discriminate H].
  destruct (readEarly (fragmentDuration ri)) as [segmentDuration|e];
    cbn [bind] in H; [|discriminate H].
  destruct (Abandon.getQualityFromBufferLevel _ _ _ _) as [newQuality|e];
    cbn [bind] in H; [|discriminate H].
  destruct (Abandon.bitrateOf (abrBitrateList abr) newQuality) as [newBitrate|e] eqn:En;
    cbn [bind] in H; [|discriminate H].
  destruct (Abandon.bitrateOf (abrBitrateList abr) (QIndex (qualityFor abr)))
    as [currentBitrate|e] eqn:Ec; cbn [bind] in H; [|discriminate H].
  destruct (jgt _ _) eqn:Egt.
  2:{ injection H as <- <-. contradiction Hq. reflexivity. }
  injection H as <- <-. cbn [sr_reason r_throughput r_fragmentID sr_quality].
  split; [destruct (Abandon.id info); cbn; now rewrite Ha|].
  split; [destruct (Abandon.id info); cbn; now rewrite Ht|].
  split.
  { intros k Hk. rewrite Hk. cbn [Abandon.deleteFragmentInfo Abandon.fragmentDict].
    rewrite fragmentAt_delete. now rewrite decide_True. }
  repeat split. exists newQuality, newBitrate, currentBitrate. auto.
Qed.

Lemma evaluateProgress_commit (Math_log : number -> number)
    (readEarly : number -> result number) (env : Environment) (ctx : RulesContext)
    (ri : RepresentationInfo) (abr : AbrController) (t : string) (k : Z)
    (level : number) (samples : list number)
    (info : Abandon.FragmentInfo) (r r' : Abandon.Rule) (sr : SwitchRequest) :
  Abandon.id info = Some k ->
  Abandon.throughputArray r !! t = Some samples ->
  Abandon.evaluateProgress Math_log readEarly env ctx ri abr t k level
    SwitchRequest_create samples info r = (r', Ok sr) ->
  sr_quality sr <> NO_CHANGE ->
  exists info' newQuality,
    Abandon.abandonDict r' !! Some k = Some info'
    /\ Abandon.f_bytesLoaded info' = Abandon.f_bytesLoaded info
    /\ Abandon.elapsedTime info' = Abandon.elapsedTime info
    /\ fragmentAt (Abandon.fragmentDict r') t k = None
    /\ Abandon.throughputArray r' !! t = Some samples
    /\ sr_quality sr = Chosen newQuality
    /\ r_fragmentID (sr_reason sr) = Some (Some k)
    /\ r_throughput (sr_reason sr)
       = Some (Abandon.numOf (Abandon.measuredBandwidthInKbps info'))
    /\ abandonConditions info' samples abr newQuality.
Proof.
  intros Hid Hs. unfold Abandon.evaluateProgress.
  destruct (_ && _) eqn:Econd.
  2:{ destruct (jeq _ _); intros H Hq; injection H as <- <-; contradiction Hq; reflexivity. }
  set (info2 := Abandon.withEstimate info _ _).
  set (r2 := Abandon.storeFragmentInfo t k info2 r).
  destruct (_ || _) eqn:Elate.
  { intros H Hq; injection H as <- <-; contradiction Hq; reflexivity. }
  destruct (negb _).
  2:{ intros H Hq; injection H as <- <-; contradiction Hq; reflexivity. }
  intros H Hq.
  destruct (abandonDecision_commit _ _ _ _ _ _ _ _ _ _ _ _ H Hq)
    as (Ha & Ht & Hgone & Hthr & Hfid & (nq & nb & cb & Hnq & Hnb & Hcb & Hcheap)).
  change (Abandon.id info2) with (Abandon.id info) in *. rewrite Hid in *.
  exists info2, nq. rewrite Ha, Ht.
  split; [apply lookup_insert_eq|]. split; [reflexivity|]. split; [reflexivity|].
  split; [now apply Hgone|]. split; [exact Hs|]. split; [exact Hnq|].
  split; [exact Hfid|]. split; [exact Hthr|].
  apply andb_true_iff in Econd as [Econd Hloaded].
  apply andb_true_iff in Econd as [Hlen Helapsed].
  apply orb_false_iff in Elate as [Hlate _].
  unfold abandonConditions. split; [now apply Nat.leb_le|].
  split; [exact Helapsed|]. split; [exact Hloaded|]. split; [reflexivity|].
  split; [reflexivity|]. split; [exact Hlate|]. exists nb, cb. auto.
Qed.

(** A call that returns an abandon decision got it from the evaluation of
    the progress of a request with an index that is not in [abandonDict]. *)
Lemma shouldAbandon_reaches_evaluation
    (Math_log : number -> number) (readEarly : number -> result number)
    (n : Abandon.Notification) (r r' : Abandon.Rule) (sr : SwitchRequest) :
  wfRule r ->
  Abandon.shouldAbandonWith Math_log readEarly (Abandon.n_env n) (Abandon.n_context n) r
  = (r', Ok sr) ->
  sr_quality sr <> NO_CHANGE ->
  exists ctx req ri abr t k samples info r3,
    Abandon.n_context n = Some ctx
    /\ getCurrentRequest ctx = Some req /\ index req = Some k
    /\ getAbrController ctx = Some abr /\ getMediaType ctx = Some t
    /\ Abandon.abandonDict r !! Some k = None
    /\ Abandon.id info = Some k
    /\ Abandon.f_bytesLoaded info = Some (bytesLoaded req)
    /\ Abandon.throughputArray r3 !! t = Some samples
    /\ Abandon.evaluateProgress Math_log readEarly (Abandon.n_env n) ctx ri abr t k
         (getCurrentBufferLevel (Abandon.n_env n) t) SwitchRequest_create samples info r3
       = (r', Ok sr).
Proof.
  intros Hwf Hstep Hq.
  pose proof (shouldAbandon_step Math_log readEarly n r r' (Ok sr) Hwf Hstep)
    as (_ & _ & Habandons & _).
  revert Hstep. unfold Abandon.shouldAbandonWith.
  assert (Hno : forall x : Abandon.Rule,
            (x, Ok SwitchRequest_create) = (r', Ok sr) -> False).
  { intros x H. injection H as _ <-. contradiction Hq. reflexivity. }
  destruct (Abandon.n_context n) as [ctx|] eqn:Ectx; [|intros H; destruct (Hno _ H)].
  destruct (_ || _); [intros H; destruct (Hno _ H)|].
  destruct (getMediaType ctx) as [t|] eqn:Emt; [|intros H; destruct (Hno _ H)].
  destruct (getCurrentRequest ctx) as [req|] eqn:Ereq; [|intros H; destruct (Hno _ H)].
  destruct (getRepresentationInfo ctx) as [ri|]; [|intros H; destruct (Hno _ H)].
  destruct (getAbrController ctx) as [abr|] eqn:Eabr; [|intros H; destruct (Hno _ H)].
  destruct (getStreamInfo ctx) as [si|]; [|discriminate].
  destruct (index req) as [k|] eqn:Ek; [|intros H; destruct (Hno _ H)].
  pose proof (sameExceptAt_set t k r Hwf) as Hsame1.
  set (r1 := {| Abandon.fragmentDict := _ |}) in *.
  assert (Hinfo : wfInfo k (default Abandon.emptyFragmentInfo
                              (default ∅ (Abandon.fragmentDict r1 !! t) !! k))).
  { change (default ∅ (Abandon.fragmentDict r1 !! t) !! k)
      with (fragmentAt (Abandon.fragmentDict r1) t k).
    apply wfInfo_default. eapply wfRule_sameExceptAt; eassumption. }
  set (info := default Abandon.emptyFragmentInfo _) in *.
  cbv zeta.
  destruct (firstByteDate req) as [firstByte|]; [|intros H; destruct (Hno _ H)].
  destruct (has (Abandon.abandonDict r1 !! Abandon.id info));
    [intros H; destruct (Hno _ H)|].
  destruct (Abandon.noteFirstProgress req firstByte t k info r1) as [info2 r2] eqn:E2.
  destruct (noteFirstProgress_spec _ _ _ _ _ _ _ _ Hinfo E2)
    as (Hid2 & Hfb2 & Hf2 & Ha2 & Hta2).
  destruct (Abandon.noteProgress (Abandon.n_env n) req t k info2 r2) as [info3 r3] eqn:E3.
  destruct (noteProgress_spec _ _ _ _ _ _ _ _ Hid2 Hfb2 E3)
    as (Hid3 & Hfb3 & Hsame3 & Ha3 & Hta3).
  assert (Hloaded : Abandon.f_bytesLoaded info3 = Some (bytesLoaded req)).
  { unfold Abandon.noteProgress in E3. injection E3 as <- _. reflexivity. }
  destruct (Abandon.throughputArray r3 !! t) as [samples|] eqn:Esamples; [|discriminate].
  intros H.
  exists ctx, req, ri, abr, t, k, samples, info3, r3.
  split; [reflexivity|]. split; [exact Ereq|]. split; [exact Ek|].
  split; [exact Eabr|]. split; [exact Emt|].
  split.
  { destruct (Habandons k) as (Hfresh & _); [|exact Hfresh].
    exists sr. split; [reflexivity|]. split; [exact Hq|].
    unfold Abandon.evaluateProgress in H.
    destruct (_ && _) in H.
    2:{ destruct (jeq _ _) in H; injection H as _ <-; contradiction Hq; reflexivity. }
    destruct (_ || _) in H; [injection H as _ <-; contradiction Hq; reflexivity|].
    destruct (negb _) in H; [|injection H as _ <-; contradiction Hq; reflexivity].
    destruct (abandonDecision_commit _ _ _ _ _ _ _ _ _ _ _ _ H Hq)
      as (_ & _ & _ & _ & Hfid & _).
    rewrite Hfid. cbn [Abandon.withEstimate Abandon.id]. now rewrite Hid3. }
  split; [exact Hid3|]. split; [exact Hloaded|]. split; [exact Esamples|]. exact H.
Qed.

(** X16.  The rule abandons only under its conditions.  When a call on a
    well-formed rule returns an abandon decision, the notification is about
    a request with an index [k] on a context with a media type; the entry
    of the request has moved from [fragmentDict] to [abandonDict] under
    [k]; it records the bytes loaded that the request reports; the
    diagnostics carry [k] and the measured bandwidth; and the entry, the
    samples of the track and the new quality meet [abandonConditions]. *)
Theorem abandon_only_under_conditions
    (Math_log : number -> number) (readEarly : number -> result number)
    (n : Abandon.Notification) (r r' : Abandon.Rule) (sr : SwitchRequest) :
  wfRule r ->
  Abandon.shouldAbandonWith Math_log readEarly (Abandon.n_env n) (Abandon.n_context n) r
  = (r', Ok sr) ->
  sr_quality sr <> NO_CHANGE ->
  exists ctx req abr t k info samples newQuality,
    Abandon.n_context n = Some ctx
    /\ getCurrentRequest ctx = Some req /\ index req = Some k
    /\ getAbrController ctx = Some abr /\ getMediaType ctx = Some t
    /\ Abandon.abandonDict r !! Some k = None
    /\ Abandon.abandonDict r' !! Some k = Some info
    /\ fragmentAt (Abandon.fragmentDict r') t k = None
    /\ Abandon.throughputArray r' !! t = Some samples
    /\ Abandon.f_bytesLoaded info = Some (bytesLoaded req)
    /\ sr_quality sr = Chosen newQuality
    /\ r_fragmentID (sr_reason sr) = Some (Some k)
    /\ r_throughput (sr_reason sr)
       = Some (Abandon.numOf (Abandon.measuredBandwidthInKbps info))
    /\ abandonConditions info samples abr newQuality.
Proof.
  intros Hwf Hstep Hq.
  destruct (shouldAbandon_reaches_evaluation _ _ _ _ _ _ Hwf Hstep Hq)
    as (ctx & req & ri & abr & t & k & samples & info3 & r3
        & Ectx & Ereq & Ek & Eabr & Emt & Hfresh & Hid & Hloaded & Esamples & H).
  destruct (evaluateProgress_commit _ _ _ _ _ _ _ _ _ _ _ _ _ _ Hid Esamples H Hq)
    as (info' & nq & H1 & H2 & H3 & H4 & H5 & H6 & H7 & H8 & H9).
  exists ctx, req, abr, t, k, info', samples, nq.
  split; [exact Ectx|]. split; [exact Ereq|]. split; [exact Ek|].
  split; [exact Eabr|]. split; [exact Emt|]. split; [exact Hfresh|].
  split; [exact H1|]. split; [exact H4|]. split; [exact H5|].
  split; [congruence|]. split; [exact H6|]. split; [exact H7|].
  split; [exact H8|]. exact H9.
Qed.

Lemma wfRule_no_fragments (r : Abandon.Rule) :
  Abandon.fragmentDict r = ∅ -> wfRule r.
Proof.
  intros E type k info H. unfold fragmentAt in H. rewrite E, lookup_empty in H.
  simpl in H. rewrite lookup_empty in H. discriminate H.
Qed.

Lemma run_wfRule (Math_log : number -> number) (readEarly : number -> result number)
    (ns : list Abandon.Notification) : forall (r r' : Abandon.Rule) outs,
  wfRule r -> Abandon.run Math_log readEarly r ns = (outs, r') -> wfRule r'.
Proof.
  induction ns as [|n ns IH]; intros r r' outs Hwf Hrun.
  - cbn in Hrun. injection Hrun as _ <-. exact Hwf.
  - cbn [Abandon.run] in Hrun.
    destruct (Abandon.shouldAbandonWith Math_log readEarly (Abandon.n_env n)
                (Abandon.n_context n) r) as [r1 o] eqn:Estep.
    destruct (Abandon.run Math_log readEarly r1 ns) as [outs1 r2] eqn:Erest.
    injection Hrun as _ <-.
    apply (IH r1 r2 outs1); [|exact Erest].
    exact (proj1 (shouldAbandon_step _ _ _ _ _ _ Hwf Estep)).
Qed.

Lemma abandon_only_under_conditions_witness :
  exists ctx req abr t k info samples newQuality,
    Abandon.n_context (progress7 600) = Some ctx
    /\ getCurrentRequest ctx = Some req /\ index req = Some k
    /\ getAbrController ctx = Some abr /\ getMediaType ctx = Some t
    /\ Abandon.abandonDict ruleAfterFiveSamples !! Some k = None
    /\ Abandon.abandonDict
         (fst (Abandon.shouldAbandonWith logTable Ok (Abandon.n_env (progress7 600))
                 (Abandon.n_context (progress7 600)) ruleAfterFiveSamples)) !! Some k
       = Some info
    /\ fragmentAt
         (Abandon.fragmentDict
            (fst (Abandon.shouldAbandonWith logTable Ok (Abandon.n_env (progress7 600))
                    (Abandon.n_context (progress7 600)) ruleAfterFiveSamples))) t k
       = None
    /\ Abandon.throughputArray
         (fst (Abandon.shouldAbandonWith logTable Ok (Abandon.n_env (progress7 600))
                 (Abandon.n_context (progress7 600)) ruleAfterFiveSamples)) !! t
       = Some samples
    /\ Abandon.f_bytesLoaded info = Some (bytesLoaded req)
    /\ sr_quality
         (decisionOf
            (snd (Abandon.shouldAbandonWith logTable Ok (Abandon.n_env (progress7 600))
                    (Abandon.n_context (progress7 600)) ruleAfterFiveSamples)))
       = Chosen newQuality
    /\ r_fragmentID
         (sr_reason
            (decisionOf
               (snd (Abandon.shouldAbandonWith logTable Ok (Abandon.n_env (progress7 600))
                       (Abandon.n_context (progress7 600)) ruleAfterFiveSamples))))
       = Some (Some k)
    /\ r_throughput
         (sr_reason
            (decisionOf
               (snd (Abandon.shouldAbandonWith logTable Ok (Abandon.n_env (progress7 600))
                       (Abandon.n_context (progress7 600)) ruleAfterFiveSamples))))
       = Some (Abandon.numOf (Abandon.measuredBandwidthInKbps info))
    /\ abandonConditions info samples abr newQuality.
Proof.
  apply (abandon_only_under_conditions logTable Ok (progress7 600) ruleAfterFiveSamples).
  - apply (run_wfRule logTable Ok (take 5 slowDownload) abandonRuleWithStates _
             (fst (Abandon.run logTable Ok abandonRuleWithStates (take 5 slowDownload)))).
    + apply wfRule_no_fragments. reflexivity.
    + apply surjective_pairing.
  - vm_compute. reflexivity.
  - vm_compute. intros H. discriminate H.
Defined.

Lemma jeq_not_jlt (x y : number) : jeq x y = true -> jlt x y = false.
Proof.
  unfold jeq, jlt. intros H. apply andb_true_iff in H as [_ H]. rewrite H.
  apply andb_false_r.
Qed.

(** X17.  A notification that reports the download complete makes the rule
    forget the request.  On a well-formed rule, with a context that offers
    the accessors and a request with an index [k] and a first byte date
    whose entry is not in [abandonDict], when the bytes loaded equal the
    total the entry records (the total of the request, when this is the
    first progress of the request), the call returns the decision that
    changes nothing, whatever the early read would answer; afterwards
    [fragmentDict] has no entry for the request, every other entry is as
    before, and [abandonDict] and the state dictionary are unchanged. *)
Theorem completed_download_is_forgotten
    (Math_log : number -> number) (readEarly : number -> result number)
    (n : Abandon.Notification) (r : Abandon.Rule)
    (ctx : RulesContext) (t : string) (req : FragmentRequest) (k : Z)
    (firstByte : number) :
  let stored :=
    default Abandon.emptyFragmentInfo (fragmentAt (Abandon.fragmentDict r) t k) in
  let total :=
    if has (Abandon.firstByteTime stored)
    then Abandon.numOf (Abandon.f_bytesTotal stored) else bytesTotal req in
  wfRule r ->
  Abandon.n_context n = Some ctx ->
  has (getMediaInfo ctx) = true -> getMediaType ctx = Some t ->
  getCurrentRequest ctx = Some req -> has (getRepresentationInfo ctx) = true ->
  has (getAbrController ctx) = true -> has (getStreamInfo ctx) = true ->
  index req = Some k -> firstByteDate req = Some firstByte ->
  Abandon.abandonDict r !! Abandon.id stored = None ->
  (has (Abandon.firstByteTime stored) = true ->
   is_Some (Abandon.throughputArray r !! t)) ->
  jeq (bytesLoaded req) total = true ->
  exists r',
    Abandon.shouldAbandonWith Math_log readEarly (Abandon.n_env n) (Abandon.n_context n) r
    = (r', Ok SwitchRequest_create)
    /\ fragmentAt (Abandon.fragmentDict r') t k = None
    /\ (forall t' k', ~ (t = t' /\ k = k') ->
          fragmentAt (Abandon.fragmentDict r') t' k'
          = fragmentAt (Abandon.fragmentDict r) t' k')
    /\ Abandon.abandonDict r' = Abandon.abandonDict r
    /\ Abandon.bolaStateDict r' = Abandon.bolaStateDict r.
Proof.
  intros stored total Hwf Ectx Hmi Emt Ereq Hri Hac Hsi Ek Efb Hfresh Hsamples Hdone.
  pose proof (wfInfo_default r t k Hwf) as Hinfo. fold stored in Hinfo.
  unfold Abandon.shouldAbandonWith. rewrite Ectx, Emt, Ereq, Hmi, Hri, Hac.
  cbn [has negb orb].
  destruct (getRepresentationInfo ctx) as [ri|]; [|discriminate Hri].
  destruct (getAbrController ctx) as [abr|]; [|discriminate Hac].
  destruct (getStreamInfo ctx) as [si|]; [|discriminate Hsi].
  rewrite Ek, Efb. cbv zeta. cbn [Abandon.fragmentDict Abandon.abandonDict].
  assert (Estored :
            default Abandon.emptyFragmentInfo
              (default ∅ (Abandon.setFragmentRequestDict t k (Abandon.fragmentDict r) !! t)
                 !! k) = stored).
  { change (default ∅ (Abandon.setFragmentRequestDict t k (Abandon.fragmentDict r) !! t)
              !! k)
      with (fragmentAt (Abandon.setFragmentRequestDict t k (Abandon.fragmentDict r)) t k).
    unfold Abandon.setFragmentRequestDict.
    rewrite fragmentAt_store, decide_True by (split; reflexivity). reflexivity. }
  rewrite !Estored, Hfresh. cbn [has].
  set (r1 := {| Abandon.fragmentDict := _ |}).
  unfold Abandon.noteFirstProgress, Abandon.noteProgress.
  assert (Hdel : forall (info : Abandon.FragmentInfo) (r2 : Abandon.Rule),
            Abandon.fragmentDict r2 = Abandon.fragmentDict r1 ->
            forall t' k',
              fragmentAt
                (<[t := delete k
                         (default ∅ (<[t := <[k := info]>
                                              (default ∅ (Abandon.fragmentDict r2 !! t))]>
                                       (Abandon.fragmentDict r2) !! t))]>
                   (<[t := <[k := info]> (default ∅ (Abandon.fragmentDict r2 !! t))]>
                      (Abandon.fragmentDict r2))) t' k'
              = if decide (t = t' /\ k = k') then None
                else fragmentAt (Abandon.fragmentDict r) t' k').
  { intros info r2 E t' k'. rewrite fragmentAt_delete.
    destruct (decide (t = t' /\ k = k')) as [Hd|Hd]; [reflexivity|].
    rewrite fragmentAt_store, decide_False by exact Hd.
    rewrite E. unfold r1. cbn [Abandon.fragmentDict].
    unfold Abandon.setFragmentRequestDict.
    rewrite fragmentAt_store, decide_False by exact Hd. reflexivity. }
  destruct (Abandon.firstByteTime stored) as [fbt|] eqn:Efbt.
  - (* the entry was initialised by an earlier notification *)
    assert (Hid : Abandon.id stored = Some k).
    { destruct Hinfo as [[H _]|[_ H]]; [congruence|exact H]. }
    cbn [has] in total, Hsamples.
    destruct (Hsamples eq_refl) as [samples0 Es0].
    set (info3 := Abandon.withProgress stored _ _).
    match goal with
    | |- context [if ?c then Abandon.withThroughputArray ?a ?b else ?a] =>
        set (r3 := if c then Abandon.withThroughputArray a b else a)
    end.
    assert (Hr3 : Abandon.fragmentDict r3
                  = Abandon.fragmentDict (Abandon.storeFragmentInfo t k info3 r1)
                  /\ Abandon.abandonDict r3 = Abandon.abandonDict r
                  /\ Abandon.bolaStateDict r3 = Abandon.bolaStateDict r
                  /\ is_Some (Abandon.throughputArray r3 !! t)).
    { unfold r3. destruct (_ && _); cbn; repeat split; auto;
        try (unfold Abandon.storeLastRequestThroughputByType;
             rewrite lookup_insert_eq; eauto);
        try (rewrite Es0; eauto). }
    destruct Hr3 as (Hf3 & Ha3 & Hb3 & [samples Es]).
    rewrite Es. unfold Abandon.evaluateProgress.
    change (Abandon.f_bytesLoaded info3) with (Some (bytesLoaded req)).
    change (Abandon.f_bytesTotal info3) with (Abandon.f_bytesTotal stored).
    change (Abandon.numOf (Some (bytesLoaded req))) with (bytesLoaded req).
    fold total. rewrite (jeq_not_jlt _ _ Hdone), andb_false_r, Hdone.
    change (Abandon.id info3) with (Abandon.id stored). rewrite Hid.
    eexists. split; [reflexivity|].
    cbn [Abandon.deleteFragmentInfo Abandon.fragmentDict Abandon.abandonDict
         Abandon.bolaStateDict].
    rewrite Hf3. cbn [Abandon.storeFragmentInfo Abandon.fragmentDict].
    split; [rewrite Hdel by reflexivity; now rewrite decide_True|].
    split; [intros t' k' Hne; rewrite Hdel by reflexivity; now rewrite decide_False|].
    split; assumption.
  - (* first progress of the request *)
    cbn [has] in total.
    set (info2 := Abandon.initFragmentInfo req firstByte k).
    set (r2 := Abandon.withThroughputArray r1 _).
    set (info3 := Abandon.withProgress info2 _ _).
    match goal with
    | |- context [if ?c then Abandon.withThroughputArray ?a ?b else ?a] =>
        set (r3 := if c then Abandon.withThroughputArray a b else a)
    end.
    assert (Hr3 : Abandon.fragmentDict r3
                  = Abandon.fragmentDict (Abandon.storeFragmentInfo t k info3 r2)
                  /\ Abandon.abandonDict r3 = Abandon.abandonDict r
                  /\ Abandon.bolaStateDict r3 = Abandon.bolaStateDict r
                  /\ is_Some (Abandon.throughputArray r3 !! t)).
    { unfold r3. destruct (_ && _); cbn; repeat split; auto;
        try (unfold Abandon.storeLastRequestThroughputByType);
        rewrite lookup_insert_eq; eauto. }
    destruct Hr3 as (Hf3 & Ha3 & Hb3 & [samples Es]).
    rewrite Es. unfold Abandon.evaluateProgress.
    change (Abandon.f_bytesLoaded info3) with (Some (bytesLoaded req)).
    change (Abandon.f_bytesTotal info3) with (Some (bytesTotal req)).
    change (Abandon.numOf (Some (bytesLoaded req))) with (bytesLoaded req).
    change (Abandon.numOf (Some (bytesTotal req))) with (bytesTotal req).
    fold total. rewrite (jeq_not_jlt _ _ Hdone), andb_false_r, Hdone.
    change (Abandon.id info3) with (Some k).
    eexists. split; [reflexivity|].
    cbn [Abandon.deleteFragmentInfo Abandon.fragmentDict Abandon.abandonDict
         Abandon.bolaStateDict].
    rewrite Hf3. cbn [Abandon.storeFragmentInfo Abandon.fragmentDict].
    split; [rewrite Hdel by reflexivity; now rewrite decide_True|].
    split; [intros t' k' Hne; rewrite Hdel by reflexivity; now rewrite decide_False|].
    split; assumption.
Qed.

Lemma completed_download_is_forgotten_witness :
  exists r',
    Abandon.shouldAbandonWith logTable Abandon.temporalDeadZone
      (Abandon.n_env (progress7 80000)) (Abandon.n_context (progress7 80000))
      abandonRuleWithStates
    = (r', Ok SwitchRequest_create)
    /\ fragmentAt (Abandon.fragmentDict r') "video" 7 = None
    /\ (forall t' k', ~ ("video"%string = t' /\ 7%Z = k') ->
          fragmentAt (Abandon.fragmentDict r') t' k'
          = fragmentAt (Abandon.fragmentDict abandonRuleWithStates) t' k')
    /\ Abandon.abandonDict r' = Abandon.abandonDict abandonRuleWithStates
    /\ Abandon.bolaStateDict r' = Abandon.bolaStateDict abandonRuleWithStates.
Proof.
  apply (completed_download_is_forgotten logTable Abandon.temporalDeadZone
           (progress7 80000) abandonRuleWithStates
           (videoContext ladder3 (num 1000) (num 4) 2 (fragment7 2000000))
           "video" (fragment7 2000000) 7 (num 0)).
  - apply wfRule_no_fragments. reflexivity.
  - reflexivity.
  - reflexivity.
  - reflexivity.
  - reflexivity.
  - reflexivity.
  - reflexivity.
  - reflexivity.
  - reflexivity.
  - reflexivity.
  - reflexivity.
  - intros H. vm_compute in H. discriminate H.
  - vm_compute. reflexivity.
Defined.

(** ** The abandonment rule as it is set up *)

Lemma getBolaState_without_states (Math_log : number -> number)
    (env : Environment) (ctx : RulesContext) (r : Abandon.Rule) :
  Abandon.bolaStateDict r = None ->
  Abandon.getBolaState Math_log env ctx r = (r, Throw TypeError).
Proof.
  intros H. unfold Abandon.getBolaState. rewrite H.
  destruct (getMediaType ctx); reflexivity.
Qed.

Lemma shouldAbandon_without_states (Math_log : number -> number)
    (readEarly : number -> result number) (env : Environment)
    (rulesContext : option RulesContext) (r r' : Abandon.Rule)
    (o : result SwitchRequest) :
  Abandon.bolaStateDict r = None ->
  Abandon.shouldAbandonWith Math_log readEarly env rulesContext r = (r', o) ->
  Abandon.bolaStateDict r' = None
  /\ Abandon.abandonDict r' = Abandon.abandonDict r
  /\ (o = Ok SwitchRequest_create \/ o = Throw TypeError).
Proof.
  intros Hnone. unfold Abandon.shouldAbandonWith.
  assert (Hq : forall x : Abandon.Rule,
            Abandon.bolaStateDict x = None ->
            Abandon.abandonDict x = Abandon.abandonDict r ->
            forall e, (e = Ok SwitchRequest_create \/ e = Throw TypeError) ->
            (x, e) = (r', o) ->
            Abandon.bolaStateDict r' = None
            /\ Abandon.abandonDict r' = Abandon.abandonDict r
            /\ (o = Ok SwitchRequest_create \/ o = Throw TypeError)).
  { intros x H1 H2 e He E. injection E as <- <-. auto. }
  destruct rulesContext as [ctx|]; [|apply Hq; auto].
  destruct (_ || _); [apply Hq; auto|].
  destruct (getMediaType ctx) as [t|]; [|apply Hq; auto].
  destruct (getCurrentRequest ctx) as [req|]; [|apply Hq; auto].
  destruct (getRepresentationInfo ctx) as [ri|]; [|apply Hq; auto].
  destruct (getAbrController ctx) as [abr|]; [|apply Hq; auto].
  destruct (getStreamInfo ctx) as [si|]; [|apply Hq; auto].
  destruct (index req) as [k|]; [|apply Hq; auto].
  cbv zeta. set (r1 := {| Abandon.fragmentDict := _ |}).
  set (info := default Abandon.emptyFragmentInfo _).
  destruct (firstByteDate req) as [firstByte|]; [|apply Hq; auto].
  destruct (has _); [apply Hq; auto|].
  assert (H2 : exists info2 r2,
            Abandon.noteFirstProgress req firstByte t k info r1 = (info2, r2)
            /\ Abandon.bolaStateDict r2 = None
            /\ Abandon.abandonDict r2 = Abandon.abandonDict r).
  { unfold Abandon.noteFirstProgress.
    destruct (Abandon.firstByteTime info); eexists _, _; split; try reflexivity; auto. }
  destruct H2 as (info2 & r2 & -> & Hb2 & Ha2).
  assert (H3 : exists info3 r3,
            Abandon.noteProgress env req t k info2 r2 = (info3, r3)
            /\ Abandon.bolaStateDict r3 = None
            /\ Abandon.abandonDict r3 = Abandon.abandonDict r).
  { unfold Abandon.noteProgress.
    destruct (_ && _); eexists _, _; split; try reflexivity; auto. }
  destruct H3 as (info3 & r3 & -> & Hb3 & Ha3).
  destruct (Abandon.throughputArray r3 !! t) as [samples|]; [|apply Hq; auto].
  unfold Abandon.evaluateProgress.
  destruct (_ && _).
  - destruct (_ || _); [apply Hq; auto|].
    destruct (negb _); [|apply Hq; auto].
    unfold Abandon.abandonDecision.
    rewrite getBolaState_without_states by exact Hb3. apply Hq; auto.
  - destruct (jeq _ _); [|apply Hq; auto].
    destruct (Abandon.id info3); apply Hq; auto.
Qed.

(** X18.  The rule as the source sets it up never abandons.  No statement
    of the file assigns the state dictionary, and no call changes that: in
    any sequence of notifications, whatever the early read of the segment
    duration would answer, the dictionary stays undefined, [abandonDict]
    stays as it was, and every call returns the request that changes nothing
    or throws a [TypeError]. *)
Theorem no_state_dictionary_no_abandon
    (Math_log : number -> number) (readEarly : number -> result number)
    (ns : list Abandon.Notification) : forall (r r' : Abandon.Rule) outs,
  Abandon.bolaStateDict r = None ->
  Abandon.run Math_log readEarly r ns = (outs, r') ->
  Abandon.bolaStateDict r' = None
  /\ Abandon.abandonDict r' = Abandon.abandonDict r
  /\ Forall (fun o => o = Ok SwitchRequest_create \/ o = Throw TypeError) outs.
Proof.
  induction ns as [|n ns IH]; intros r r' outs Hnone Hrun.
  - cbn in Hrun. injection Hrun as <- <-. auto.
  - cbn [Abandon.run] in Hrun.
    destruct (Abandon.shouldAbandonWith Math_log readEarly (Abandon.n_env n)
                (Abandon.n_context n) r) as [r1 o] eqn:Estep.
    destruct (Abandon.run Math_log readEarly r1 ns) as [outs1 r2] eqn:Erest.
    injection Hrun as <- <-.
    destruct (shouldAbandon_without_states _ _ _ _ _ _ _ Hnone Estep) as (Hb & Ha & Ho).
    destruct (IH r1 r2 outs1 Hb Erest) as (Hb' & Ha' & Hall).
    split; [exact Hb'|]. split; [congruence|]. constructor; assumption.
Qed.

Lemma no_state_dictionary_no_abandon_witness :
  Abandon.bolaStateDict
    (snd (Abandon.run logTable Ok Abandon.setup longSlowDownload)) = None
  /\ Abandon.abandonDict
       (snd (Abandon.run logTable Ok Abandon.setup longSlowDownload))
     = Abandon.abandonDict Abandon.setup
  /\ Forall (fun o => o = Ok SwitchRequest_create \/ o = Throw TypeError)
            (fst (Abandon.run logTable Ok Abandon.setup longSlowDownload)).
Proof.
  apply (no_state_dictionary_no_abandon logTable Ok longSlowDownload Abandon.setup).
  - reflexivity.
  - apply surjective_pairing.
Defined.

(** ** The sample rule's loop and the capped loop *)

Section TwoLoops.

Variables (state : BolaState) (bufferLevel throughput segmentDuration : number).

Local Abbreviation pass := (Bola.loopPass state bufferLevel throughput segmentDuration).
Local Abbreviation init := (Bola.loopInit state bufferLevel).
Local Abbreviation labBody :=
  (LABRule.loopBody (Some state) state bufferLevel throughput segmentDuration).

(** With the free name bound to the state, a pass of the sample rule's loop
    is a pass of the capped loop without the counter. *)
Lemma LABRule_pass (st : LoopState) :
  labBody (withoutCap st) = Ok (withoutCap (pass st), false).
Proof.
  unfold LABRule.loopBody, LABRule.scoringPassOf, Bola.loopPass, withoutCap,
    LABRule.bitrateCount, Bola.bitrateCount, LABRule.projectedLevel, Bola.projectedLevel.
  cbn [quality_ bitrate prev_bitrate LABLevel maxIte].
  destruct (length (bitrates state)) eqn:E; reflexivity.
Qed.

Lemma LABRule_cond (st : LoopState) :
  LABRule.loopCond (withoutCap st) = Bola.loopCond st.
Proof. reflexivity. Qed.

(** The sample rule's loop follows the passes of the capped loop for as
    long as the condition holds. *)
Lemma LABRule_follows (k : nat) : forall (fuel : nat) (st : LoopState),
  (forall j, (j < k)%nat -> Bola.loopCond (Nat.iter j pass st) = true) ->
  while_loop LABRule.loopCond labBody (k + fuel) (withoutCap st)
  = while_loop LABRule.loopCond labBody fuel (withoutCap (Nat.iter k pass st)).
Proof.
  induction k as [|k IH]; intros fuel st Hcond; [reflexivity|].
  cbn [Nat.add while_loop]. rewrite LABRule_cond.
  pose proof (Hcond 0%nat ltac:(lia)) as H0. cbn [Nat.iter nat_rect] in H0. rewrite H0.
  rewrite LABRule_pass. rewrite IH.
  - now rewrite <- Nat.iter_succ_r.
  - intros j Hj. rewrite <- Nat.iter_succ_r. apply Hcond. lia.
Qed.

End TwoLoops.

(** X19.  The cap changes nothing when the loop it guards ends on a stable
    bitrate: if the state the capped loop returns fails the loop condition,
    the loop of the sample rule, its free name [bolaState] bound to the same
    state, returns the same index once it is given more than
    [bitrateCount + 1] passes. *)
Theorem cap_is_invisible_on_stable_exit
    (state : BolaState) (bufferLevel throughput segmentDuration : number) :
  Bola.loopCond (Bola.lookAheadLoop state bufferLevel throughput segmentDuration) = false ->
  forall fuel, (S (Bola.bitrateCount state) < fuel)%nat ->
    LABRule.getQualityFromBufferLevel (Some state) state bufferLevel throughput
                                      segmentDuration fuel
    = Some (Ok (Bola.getQualityFromBufferLevel state bufferLevel throughput
                                               segmentDuration)).
Proof.
  intros Hstable fuel Hfuel.
  destruct (lookAhead_terminates state bufferLevel throughput segmentDuration)
    as (k & Hk & _ & Hloop & Hcond & _).
  unfold Bola.getQualityFromBufferLevel, LABRule.getQualityFromBufferLevel.
  rewrite Hloop in *.
  change (LABRule.loopInit bufferLevel) with (withoutCap (Bola.loopInit state bufferLevel)).
  replace fuel with (k + S (fuel - k - 1))%nat by lia.
  rewrite LABRule_follows by exact Hcond.
  cbn [while_loop]. rewrite LABRule_cond, Hstable. reflexivity.
Qed.

Lemma cap_is_invisible_on_stable_exit_witness :
  LABRule.getQualityFromBufferLevel (Some state3) state3 (num 12) (num 1000) (num 8) 5
  = Some (Ok (Bola.getQualityFromBufferLevel state3 (num 12) (num 1000) (num 8))).
Proof.
  apply (cap_is_invisible_on_stable_exit state3 (num 12) (num 1000) (num 8)).
  - vm_compute. reflexivity.
  - vm_compute. lia.
Defined.

(** X20.  When the cap does fire on a state that still meets the loop
    condition, the loop of the sample rule (its free name bound to the same
    state) is still running after [bitrateCount + 2] passes: the capped
    loop returns an index where the sample rule has not returned. *)
Theorem cap_fires_where_sample_loop_runs_on
    (state : BolaState) (bufferLevel throughput segmentDuration : number) :
  Bola.loopCond (Bola.lookAheadLoop state bufferLevel throughput segmentDuration) = true ->
  (maxIte (Bola.lookAheadLoop state bufferLevel throughput segmentDuration) < 0)%Z
  /\ forall fuel, (fuel <= S (S (Bola.bitrateCount state)))%nat ->
       LABRule.getQualityFromBufferLevel (Some state) state bufferLevel throughput
                                         segmentDuration fuel
       = None.
Proof.
  intros Hrunning.
  destruct (lookAhead_terminates state bufferLevel throughput segmentDuration)
    as (k & Hk & _ & Hloop & Hcond & Hend).
  rewrite Hloop in *.
  destruct Hend as [Hend| ->]; [congruence|].
  split.
  { assert (H : forall n st,
               maxIte (Nat.iter n (Bola.loopPass state bufferLevel throughput
                                                 segmentDuration) st)
               = (maxIte st - Z.of_nat n)%Z).
    { induction n as [|n IH]; intros st; [cbn; lia|].
      rewrite Nat.iter_succ, loopPass_maxIte, IH. lia. }
    rewrite H. cbn [maxIte Bola.loopInit]. lia. }
  intros fuel Hfuel. unfold LABRule.getQualityFromBufferLevel.
  change (LABRule.loopInit bufferLevel) with (withoutCap (Bola.loopInit state bufferLevel)).
  assert (Hall : forall j, (j < S (S (Bola.bitrateCount state)))%nat ->
            Bola.loopCond (Nat.iter j (Bola.loopPass state bufferLevel throughput
                                                     segmentDuration)
                                    (Bola.loopInit state bufferLevel)) = true).
  { intros j Hj. destruct (Nat.eq_dec j (S (Bola.bitrateCount state))) as [->|Hne].
    - exact Hrunning.
    - apply Hcond. lia. }
  replace fuel with (fuel + 0)%nat by lia.
  rewrite LABRule_follows by (intros j Hj; apply Hall; lia).
  reflexivity.
Qed.

Lemma cap_fires_where_sample_loop_runs_on_witness :
  (maxIte (Bola.lookAheadLoop state3 (num 11) (num 1000) (num 8)) < 0)%Z
  /\ forall fuel, (fuel <= S (S (Bola.bitrateCount state3)))%nat ->
       LABRule.getQualityFromBufferLevel (Some state3) state3 (num 11) (num 1000) (num 8)
                                         fuel
       = None.
Proof.
  apply (cap_fires_where_sample_loop_runs_on state3 (num 11) (num 1000) (num 8)).
  vm_compute. reflexivity.
Defined.

(** X21.  As the sample rule stands, with no variable named [bolaState] in
    scope, its selection function never returns an index: on a ladder with
    at least one bitrate the first pass throws a [ReferenceError], and on
    an empty ladder the loop runs for ever. *)
Theorem LABRule_selection_never_returns
    (state : BolaState) (bufferLevel throughput segmentDuration : number) (fuel : nat) :
  LABRule.getQualityFromBufferLevel None state bufferLevel throughput segmentDuration fuel
  = match fuel, bitrates state with
    | S _, _ :: _ => Some (Throw ReferenceError)
    | _, _ => None
    end.
Proof.
  destruct (bitrates state) as [|b0 ladder] eqn:E.
  - rewrite LABRule_empty_ladder_never_returns by exact E. now destruct fuel.
  - destruct fuel as [|fuel]; [reflexivity|].
    unfold LABRule.getQualityFromBufferLevel. cbn [while_loop].
    unfold LABRule.loopCond at 1. cbn [LABRule.loopInit bitrate isNaN orb].
    unfold LABRule.loopBody, LABRule.scoringPassOf, LABRule.bitrateCount.
    rewrite E. reflexivity.
Qed.

(** ** The byte count of a request *)

Lemma getBytesLength_from (trace : list HTTPRequest.TraceEntry) :
  forall (qs : list Q) (i : nat) (acc : Q),
  firstByteCounts trace = Some qs ->
  exists s,
    reduceFrom (fun a entry (_ : nat) =>
                  let! a := a in
                  let! bytes := deref (HTTPRequest.b entry) in
                  Ok (jadd a (at_index bytes 0)))
               trace i (Ok (Fin acc))
    = Ok (Fin s)
    /\ s == acc + fold_right Qplus 0 qs.
Proof.
  induction trace as [|entry rest IH]; intros qs i acc H.
  - cbn in H. injection H as <-. exists acc. split; [reflexivity|]. cbn. lra.
  - cbn [firstByteCounts] in H.
    destruct (HTTPRequest.b entry) as [[|[| |q] bytes]|] eqn:Eb; try discriminate H.
    destruct (firstByteCounts rest) as [qs'|] eqn:Er; [|discriminate H].
    injection H as <-. cbn [reduceFrom bind]. rewrite Eb.
    cbn [deref bind at_index nth jadd].
    destruct (IH qs' (S i) (acc + q) eq_refl) as (s & -> & Hs).
    exists s. split; [reflexivity|]. cbn [fold_right]. rewrite Hs. lra.
Qed.

Lemma sum_dominates (qs : list Q) :
  Forall (fun q => 0 <= q) qs ->
  0 <= fold_right Qplus 0 qs /\ Forall (fun q => q <= fold_right Qplus 0 qs) qs.
Proof.
  induction 1 as [|q qs Hq Hqs [IH0 IH]]; cbn [fold_right].
  - split; [lra|constructor].
  - split; [lra|]. constructor; [lra|].
    eapply Forall_impl; [exact IH|]. cbn. intros x Hx. lra.
Qed.

(** X22.  [getBytesLength] returns a number that no first byte count
    exceeds: when each entry has its array [b] and the array starts with a
    finite number that is not negative, the call returns a number that is
    not [NaN], is at least 0 and is at least the first count of every entry;
    the other elements of the arrays play no part. *)
Theorem getBytesLength_bounds_first_counts
    (request : HTTPRequest.t) (trace : list HTTPRequest.TraceEntry) (qs : list Q) :
  HTTPRequest.trace request = Some trace ->
  firstByteCounts trace = Some qs ->
  Forall (fun q => 0 <= q) qs ->
  exists total,
    getBytesLength request = Ok total
    /\ isNaN total = false
    /\ jle (num 0) total = true
    /\ Forall (fun q => jle (Fin q) total = true) qs.
Proof.
  intros Et Hqs Hpos. unfold getBytesLength, reduce. rewrite Et. cbn [deref bind].
  destruct (getBytesLength_from trace qs 0%nat (inject_Z 0) Hqs) as (s & Hs & Hsum).
  destruct (sum_dominates qs Hpos) as [H0 Hall].
  assert (Hz : inject_Z 0 == 0) by reflexivity.
  exists (Fin s). split; [exact Hs|]. split; [reflexivity|]. split.
  - cbn [jle num]. apply Qle_bool_iff. rewrite Hsum, Hz. lra.
  - eapply Forall_impl; [exact Hall|]. cbn. intros q Hq.
    apply Qle_bool_iff. rewrite Hsum, Hz. lra.
Qed.

Lemma getBytesLength_bounds_first_counts_witness :
  exists total,
    getBytesLength tracedRequest = Ok total
    /\ isNaN total = false
    /\ jle (num 0) total = true
    /\ Forall (fun q => jle (Fin q) total = true)
              [inject_Z 1000; inject_Z 500; inject_Z 250].
Proof.
  apply (getBytesLength_bounds_first_counts tracedRequest
           [ {| HTTPRequest.b := Some [num 1000] |};
             {| HTTPRequest.b := Some [num 500; num 7] |};
             {| HTTPRequest.b := Some [num 250] |} ]).
  - reflexivity.
  - reflexivity.
  - repeat constructor; discriminate.
Defined.

Lemma getBytesLength_NaN_from (trace : list HTTPRequest.TraceEntry) : forall (i : nat),
  Forall (fun entry => HTTPRequest.b entry <> None) trace ->
  reduceFrom (fun a entry (_ : nat) =>
                let! a := a in
                let! bytes := deref (HTTPRequest.b entry) in
                Ok (jadd a (at_index bytes 0)))
             trace i (Ok NaN)
  = Ok NaN.
Proof.
  induction trace as [|entry rest IH]; intros i Hall; [reflexivity|].
  inversion Hall as [|? ? Hentry Hrest]; subst.
  cbn [reduceFrom bind]. destruct (HTTPRequest.b entry) as [bytes|]; [|congruence].
  cbn [deref bind jadd]. now apply IH.
Qed.

Lemma getBytesLength_gap_from (before after : list HTTPRequest.TraceEntry)
    (entry : HTTPRequest.TraceEntry) (bytes : list number) :
  Forall (fun entry => HTTPRequest.b entry <> None) before ->
  Forall (fun entry => HTTPRequest.b entry <> None) after ->
  HTTPRequest.b entry = Some bytes -> isNaN (at_index bytes 0) = true ->
  forall (i : nat) (acc : number),
    reduceFrom (fun a entry (_ : nat) =>
                  let! a := a in
                  let! bytes := deref (HTTPRequest.b entry) in
                  Ok (jadd a (at_index bytes 0)))
               (before ++ entry :: after) i (Ok acc)
    = Ok NaN.
Proof.
  intros Hbefore Hafter Eb Hnan.
  induction Hbefore as [|e0 before He0 Hbefore IH]; intros i acc.
  - cbn [app reduceFrom bind]. rewrite Eb. cbn [deref bind].
    destruct (at_index bytes 0); try discriminate Hnan.
    replace (jadd acc NaN) with NaN by (destruct acc; reflexivity).
    now apply getBytesLength_NaN_from.
  - cbn [app reduceFrom bind]. destruct (HTTPRequest.b e0) as [bytes0|]; [|congruence].
    cbn [deref bind]. apply IH.
Qed.

(** X23.  A gap makes the byte count [NaN]: when every entry of the trace
    has its array [b] but one array does not start with a number (it is
    empty, or its first element is [NaN]), [getBytesLength] returns [NaN],
    whatever the other entries hold. *)
Theorem getBytesLength_gap_gives_NaN
    (request : HTTPRequest.t) (before after : list HTTPRequest.TraceEntry)
    (entry : HTTPRequest.TraceEntry) (bytes : list number) :
  HTTPRequest.trace request = Some (before ++ entry :: after) ->
  Forall (fun entry => HTTPRequest.b entry <> None) (before ++ entry :: after) ->
  HTTPRequest.b entry = Some bytes -> isNaN (at_index bytes 0) = true ->
  getBytesLength request = Ok NaN.
Proof.
  intros Et Hall Eb Hnan. unfold getBytesLength, reduce. rewrite Et. cbn [deref bind].
  apply Forall_app in Hall as [Hbefore Hrest].
  inversion Hrest as [|? ? _ Hafter]; subst.
  now apply (getBytesLength_gap_from before after entry bytes).
Qed.

Lemma getBytesLength_gap_gives_NaN_witness :
  getBytesLength gappedRequest = Ok NaN.
Proof.
  apply (getBytesLength_gap_gives_NaN gappedRequest
           [ {| HTTPRequest.b := Some [num 1000] |} ]
           [ {| HTTPRequest.b := Some [num 250] |} ]
           {| HTTPRequest.b := Some [] |} []).
  - reflexivity.
  - repeat constructor; discriminate.
  - reflexivity.
  - reflexivity.
Defined.

(** ** The state dictionary of the abandonment rule, were it defined *)

Lemma calculateBolaParameters_is_some (stableBufferTime : number)
    (bitrates utilities : list number) :
  highestUtilityIndex utilities <> 0%nat ->
  exists params, calculateBolaParameters stableBufferTime bitrates utilities = Some params.
Proof.
  intros H. unfold calculateBolaParameters.
  destruct (Nat.eqb_spec (highestUtilityIndex utilities) 0); [contradiction|]. eauto.
Qed.

Lemma calculateBolaParameters_some_index (stableBufferTime : number)
    (bitrates utilities : list number) (params : BolaParameters) :
  calculateBolaParameters stableBufferTime bitrates utilities = Some params ->
  highestUtilityIndex utilities <> 0%nat.
Proof.
  unfold calculateBolaParameters.
  destruct (Nat.eqb_spec (highestUtilityIndex utilities) 0); [discriminate|auto].
Qed.

Lemma retarget_does_not_throw (env : Environment) (fields : BolaState) (mediaType : string) :
  highestUtilityIndex (utilities fields) <> 0%nat ->
  exists fields',
    Abandon.checkBolaStateStableBufferTime env fields mediaType = Ok fields'
    /\ utilities fields' = utilities fields.
Proof.
  intros H. unfold Abandon.checkBolaStateStableBufferTime.
  destruct (jne _ _); [|eauto].
  destruct (calculateBolaParameters_is_some (getStableBufferTime env) (bitrates fields)
              (utilities fields) H) as (params & ->).
  cbn [deref bind]. destruct (_ || _); eauto.
Qed.

(** X24.  With a state dictionary in place, [getBolaState] of the
    abandonment rule does not throw: on a dictionary whose full states are
    of the kind the rule creates, and a context with a media type (and a
    media info when the track has no state yet), the call returns a state,
    stores it under the media type, leaves the other tracks alone and keeps
    the dictionary of that kind.  The unguarded read of [params.Vp] in the
    retarget is never reached with [params] null. *)
Theorem Abandon_getBolaState_does_not_throw
    (Math_log : number -> number) (env : Environment) (ctx : RulesContext)
    (r : Abandon.Rule) (dict : gmap string Abandon.TrackState) (mediaType : string) :
  Abandon.bolaStateDict r = Some dict -> createdByRule dict ->
  getMediaType ctx = Some mediaType ->
  (dict !! mediaType = None -> has (getMediaInfo ctx) = true) ->
  exists r' bolaState dict',
    Abandon.getBolaState Math_log env ctx r = (r', Ok bolaState)
    /\ Abandon.bolaStateDict r' = Some dict'
    /\ dict' !! mediaType = Some bolaState
    /\ (forall other, other <> mediaType -> dict' !! other = dict !! other)
    /\ createdByRule dict'.
Proof.
  intros Ed Hdict Emt Hmi. unfold Abandon.getBolaState. rewrite Emt, Ed.
  destruct (dict !! mediaType) as [[|fields]|] eqn:Es.
  - exists r, Abandon.OneBitrate, dict. repeat split; auto.
  - destruct (retarget_does_not_throw env fields mediaType (Hdict _ _ Es))
      as (fields' & -> & Hu).
    eexists _, _, _. split; [reflexivity|]. cbn [Abandon.withStates Abandon.bolaStateDict].
    split; [reflexivity|]. split; [apply lookup_insert_eq|].
    split; [intros other Hne; now apply lookup_insert_ne|].
    intros t s. destruct (decide (mediaType = t)) as [<-|Hne].
    + rewrite lookup_insert_eq. intros H. injection H as <-. rewrite Hu.
      exact (Hdict _ _ Es).
    + rewrite lookup_insert_ne by exact Hne. apply Hdict.
  - specialize (Hmi eq_refl). destruct (getMediaInfo ctx) as [mediaInfo|] eqn:Emi;
      [|discriminate Hmi].
    unfold Abandon.getInitialBolaState. rewrite Emi. cbn [deref bind].
    destruct (calculateBolaParameters _ _ _) as [params|] eqn:Ec.
    + eexists _, _, _. split; [reflexivity|].
      cbn [Abandon.withStates Abandon.bolaStateDict].
      split; [reflexivity|]. split; [apply lookup_insert_eq|].
      split; [intros other Hne; now apply lookup_insert_ne|].
      intros t s. destruct (decide (mediaType = t)) as [<-|Hne].
      * rewrite lookup_insert_eq. intros H. injection H as <-.
        cbn [clearBolaStateOnSeek utilities].
        exact (calculateBolaParameters_some_index _ _ _ _ Ec).
      * rewrite lookup_insert_ne by exact Hne. apply Hdict.
    + eexists _, _, _. split; [reflexivity|].
      cbn [Abandon.withStates Abandon.bolaStateDict].
      split; [reflexivity|]. split; [apply lookup_insert_eq|].
      split; [intros other Hne; now apply lookup_insert_ne|].
      intros t s. destruct (decide (mediaType = t)) as [<-|Hne].
      * rewrite lookup_insert_eq. intros H. discriminate H.
      * rewrite lookup_insert_ne by exact Hne. apply Hdict.
Qed.

Lemma Abandon_getBolaState_does_not_throw_witness :
  exists r' bolaState dict',
    Abandon.getBolaState logTable (envOf (num 30) (num 9) (num 0))
      (videoContext ladder3 (num 1000) (num 4) 2 (fragment7 0))
      (Abandon.withStates Abandon.setup ∅)
    = (r', Ok bolaState)
    /\ Abandon.bolaStateDict r' = Some dict'
    /\ dict' !! "video"%string = Some bolaState
    /\ (forall other, other <> "video"%string ->
          dict' !! other = (∅ : gmap string Abandon.TrackState) !! other)
    /\ createdByRule dict'.
Proof.
  apply (Abandon_getBolaState_does_not_throw logTable (envOf (num 30) (num 9) (num 0))
           (videoContext ladder3 (num 1000) (num 4) 2 (fragment7 0))
           (Abandon.withStates Abandon.setup ∅) ∅ "video").
  - reflexivity.
  - intros t s H. rewrite lookup_empty in H. discriminate H.
  - reflexivity.
  - intros _. reflexivity.
Defined.

(** ** Throughput samples *)

Lemma abandonDecision_keeps_samples (Math_log : number -> number)
    (readEarly : number -> result number) (env : Environment) (ctx : RulesContext)
    (representationInfo : RepresentationInfo) (abrController : AbrController)
    (mediaType : string) (bufferLevel : number) (info : Abandon.FragmentInfo)
    (switchRequest : SwitchRequest) (r r' : Abandon.Rule) (o : result SwitchRequest) :
  Abandon.abandonDecision Math_log readEarly env ctx representationInfo abrController
    mediaType bufferLevel info switchRequest r = (r', o) ->
  Abandon.throughputArray r' = Abandon.throughputArray r.
Proof.
  unfold Abandon.abandonDecision. intros H.
  destruct (Abandon.getBolaState Math_log env ctx r) as [r1 [bolaState|e]] eqn:Eg;
    destruct (getBolaState_frame _ _ _ _ _ _ Eg) as (_ & _ & Ht);
    [|injection H as <- _; exact Ht].
  match type of H with
  | context [match ?d with _ => _ end] => destruct d as [[newQuality [|]]|e]
  end; injection H as <- _; try exact Ht.
  destruct (Abandon.id info); exact Ht.
Qed.

(** A call adds at most one sample to the array of a track. *)
Lemma shouldAbandon_adds_at_most_one_sample (Math_log : number -> number)
    (readEarly : number -> result number) (env : Environment)
    (rulesContext : option RulesContext) (r r' : Abandon.Rule)
    (o : result SwitchRequest) (type : string) :
  Abandon.shouldAbandonWith Math_log readEarly env rulesContext r = (r', o) ->
  (samplesOf r' type <= S (samplesOf r type))%nat.
Proof.
  unfold Abandon.shouldAbandonWith.
  assert (Hq : forall (x : Abandon.Rule) e,
            (samplesOf x type <= S (samplesOf r type))%nat ->
            (x, e) = (r', o) -> (samplesOf r' type <= S (samplesOf r type))%nat).
  { intros x e H E. injection E as <- _. exact H. }
  assert (Hr : (samplesOf r type <= S (samplesOf r type))%nat) by lia.
  destruct rulesContext as [ctx|]; [|now apply Hq].
  destruct (_ || _); [now apply Hq|].
  destruct (getMediaType ctx) as [t|]; [|now apply Hq].
  destruct (getCurrentRequest ctx) as [req|]; [|now apply Hq].
  destruct (getRepresentationInfo ctx) as [ri|]; [|now apply Hq].
  destruct (getAbrController ctx) as [abr|]; [|now apply Hq].
  destruct (getStreamInfo ctx) as [si|]; [|now apply Hq].
  destruct (index req) as [k|]; [|now apply Hq].
  cbv zeta. set (r1 := {| Abandon.fragmentDict := _ |}).
  set (info := default Abandon.emptyFragmentInfo _).
  destruct (firstByteDate req) as [firstByte|]; [|now apply Hq].
  destruct (has _); [now apply Hq|].
  assert (H2 : exists info2 r2,
            Abandon.noteFirstProgress req firstByte t k info r1 = (info2, r2)
            /\ (samplesOf r2 type <= samplesOf r type)%nat
            /\ (type <> t ->
                Abandon.throughputArray r2 !! type = Abandon.throughputArray r !! type)).
  { unfold Abandon.noteFirstProgress.
    destruct (Abandon.firstByteTime info); eexists _, _; split; try reflexivity.
    - split; [unfold samplesOf; cbn; lia | reflexivity].
    - unfold samplesOf. cbn [Abandon.withThroughputArray Abandon.throughputArray r1].
      destruct (decide (type = t)) as [->|Hne].
      + rewrite lookup_insert_eq. cbn. split; [lia|congruence].
      + rewrite lookup_insert_ne by congruence. split; [lia|reflexivity]. }
  destruct H2 as (info2 & r2 & -> & Hlen2 & _).
  assert (H3 : exists info3 r3,
            Abandon.noteProgress env req t k info2 r2 = (info3, r3)
            /\ (samplesOf r3 type <= S (samplesOf r2 type))%nat).
  { unfold Abandon.noteProgress.
    destruct (_ && _); eexists _, _; (split; [reflexivity|]).
    - unfold samplesOf.
      cbn [Abandon.withThroughputArray Abandon.throughputArray Abandon.storeFragmentInfo].
      unfold Abandon.storeLastRequestThroughputByType.
      destruct (decide (type = t)) as [->|Hne].
      + rewrite lookup_insert_eq. cbn [default from_option id].
        rewrite length_app. cbn. lia.
      + rewrite lookup_insert_ne by congruence. lia.
    - unfold samplesOf. cbn. lia. }
  destruct H3 as (info3 & r3 & -> & Hlen3).
  assert (Hr3 : (samplesOf r3 type <= S (samplesOf r type))%nat) by lia.
  destruct (Abandon.throughputArray r3 !! t) as [samples|]; [|now apply Hq].
  unfold Abandon.evaluateProgress.
  destruct (_ && _).
  - destruct (_ || _); [now apply Hq|].
    destruct (negb _); [|now apply Hq].
    intros H. set (r4 := Abandon.storeFragmentInfo t k _ r3) in H.
    apply abandonDecision_keeps_samples in H.
    unfold samplesOf in *. rewrite H. exact Hr3.
  - destruct (jeq _ _); [|now apply Hq].
    destruct (Abandon.id info3); now apply Hq.
Qed.

Lemma run_needs_samples (Math_log : number -> number)
    (readEarly : number -> result number) (ns : list Abandon.Notification) :
  forall (r r' : Abandon.Rule) outs j o k,
  wfRule r ->
  Abandon.run Math_log readEarly r ns = (outs, r') ->
  outs !! j = Some o -> abandons o k ->
  exists type, (Abandon.MIN_LENGTH_TO_AVERAGE <= samplesOf r type + S j)%nat.
Proof.
  induction ns as [|n ns IH]; intros r r' outs j o k Hwf Hrun Hj Hab.
  - cbn in Hrun. injection Hrun as <- _. discriminate Hj.
  - cbn [Abandon.run] in Hrun.
    destruct (Abandon.shouldAbandonWith Math_log readEarly (Abandon.n_env n)
                (Abandon.n_context n) r) as [r1 o1] eqn:Estep.
    destruct (Abandon.run Math_log readEarly r1 ns) as [outs1 r2] eqn:Erest.
    injection Hrun as <- <-.
    destruct j as [|j].
    + cbn in Hj. injection Hj as ->.
      destruct Hab as (sr & -> & Hq & _).
      destruct (shouldAbandon_reaches_evaluation _ _ _ _ _ _ Hwf Estep Hq)
        as (ctx & req & ri & abr & t & k' & samples & info & r3
            & _ & _ & _ & _ & _ & _ & Hid & _ & Esamples & H).
      destruct (evaluateProgress_commit _ _ _ _ _ _ _ _ _ _ _ _ _ _ Hid Esamples H Hq)
        as (info' & nq & _ & _ & _ & _ & Hs & _ & _ & _ & Hmin & _).
      exists t.
      pose proof (shouldAbandon_adds_at_most_one_sample _ _ _ _ _ _ _ t Estep) as Hle.
      unfold samplesOf in Hle at 1. rewrite Hs in Hle. cbn [default from_option id] in Hle.
      lia.
    + cbn in Hj.
      destruct (IH r1 r2 outs1 j o k
                  (proj1 (shouldAbandon_step _ _ _ _ _ _ Hwf Estep)) Erest Hj Hab)
        as (t & Ht).
      exists t.
      pose proof (shouldAbandon_adds_at_most_one_sample _ _ _ _ _ _ _ t Estep) as Hle.
      lia.
Qed.

(** X25.  After [reset()] the rule needs five notifications before it can
    abandon: the throughput arrays start empty, a call adds at most one
    sample, and a decision asks for five, so whatever the notifications are,
    none of the first four calls returns an abandon decision. *)
Theorem no_abandon_in_first_four_calls
    (Math_log : number -> number) (readEarly : number -> result number)
    (ns : list Abandon.Notification) (r0 r' : Abandon.Rule)
    (outs : list (result SwitchRequest)) (j : nat) (o : result SwitchRequest) (k : Z) :
  Abandon.run Math_log readEarly (Abandon.reset r0) ns = (outs, r') ->
  outs !! j = Some o -> abandons o k ->
  (4 <= j)%nat.
Proof.
  intros Hrun Hj Hab.
  destruct (run_needs_samples _ _ _ _ _ _ _ _ _ (wfRule_reset r0) Hrun Hj Hab)
    as (t & Ht).
  unfold samplesOf, Abandon.reset in Ht. cbn [Abandon.throughputArray] in Ht.
  rewrite lookup_empty in Ht. cbn in Ht. unfold Abandon.MIN_LENGTH_TO_AVERAGE in Ht. lia.
Qed.

Lemma no_abandon_in_first_four_calls_witness : (4 <= 5)%nat.
Proof.
  apply (no_abandon_in_first_four_calls logTable Ok longSlowDownload abandonRuleWithStates
           (snd (Abandon.run logTable Ok (Abandon.reset abandonRuleWithStates)
                   longSlowDownload))
           (fst (Abandon.run logTable Ok (Abandon.reset abandonRuleWithStates)
                   longSlowDownload))
           5
           (default (Throw TypeError)
              (fst (Abandon.run logTable Ok (Abandon.reset abandonRuleWithStates)
                      longSlowDownload) !! 5%nat))
           7).
  - apply surjective_pairing.
  - vm_compute. reflexivity.
  - eexists. split; [vm_compute; reflexivity|].
    split; [intros H; discriminate H|reflexivity].
Defined.

(** ** Monotonicity of the selection in the buffer level *)

(** On a proper ladder two indices with equal bitrates are one index. *)
Lemma proper_bitrates_injective (bolaState : BolaState) (i j : nat) :
  properLadder bolaState = true ->
  (i < length (bitrates bolaState))%nat -> (j < length (bitrates bolaState))%nat ->
  jeq (at_index (bitrates bolaState) i) (at_index (bitrates bolaState) j) = true ->
  i = j.
Proof.
  intros Hp Hi Hj He.
  destruct (proper_bitrates bolaState Hp) as [_ Hasc].
  assert (Hf : forallb isFinite (bitrates bolaState) = true).
  { unfold properLadder in Hp. repeat (apply andb_true_iff in Hp as [Hp ?]). assumption. }
  rewrite (forallb_at_index _ i Hf Hi), (forallb_at_index _ j Hf Hj) in He.
  unfold jeq in He. cbn [jle] in He. apply andb_true_iff in He as [H1 H2].
  apply Qle_bool_iff in H1, H2.
  destruct (lt_eq_lt_dec i j) as [[Hlt|Heq]|Hlt]; [exfalso|exact Heq|exfalso].
  - specialize (Hasc i j (conj Hlt Hj)). lra.
  - specialize (Hasc j i (conj Hlt Hi)). lra.
Qed.

(** What one pass of the loop assigns. *)
Lemma loopPass_fields
    (bolaState : BolaState) (bufferLevel throughput segmentDuration : number)
    (st : LoopState) :
  let st' := Bola.loopPass bolaState bufferLevel throughput segmentDuration st in
  quality_ st'
  = snd (scoringPass bolaState (length (bitrates bolaState)) (LABLevel st) (quality_ st))
  /\ bitrate st' = bitrate_at bolaState (quality_ st')
  /\ prev_bitrate st' = bitrate st
  /\ LABLevel st'
     = Bola.projectedLevel bufferLevel throughput segmentDuration (bitrate st').
Proof. repeat split. Qed.

(** A run that leaves on a stable bitrate returns a fixed point of the
    look-ahead: the index it returns is the one a scoring pass chooses at
    the level projected from the bitrate of that index. *)
Lemma stable_exit_is_fixed_point
    (bolaState : BolaState) (bufferLevel throughput segmentDuration : number) :
  properLadder bolaState = true ->
  Bola.loopCond (Bola.lookAheadLoop bolaState bufferLevel throughput segmentDuration)
  = false ->
  exists c,
    Bola.getQualityFromBufferLevel bolaState bufferLevel throughput segmentDuration
    = QIndex c
    /\ (c < length (bitrates bolaState))%nat
    /\ snd (scoringPass bolaState (length (bitrates bolaState))
              (Bola.projectedLevel bufferLevel throughput segmentDuration
                 (at_index (bitrates bolaState) c))
              (QIndex c))
       = QIndex c.
Proof.
  intros Hp Hstop.
  destruct (lookAhead_terminates bolaState bufferLevel throughput segmentDuration)
    as (k & Hk & _ & Hloop & _ & _).
  unfold Bola.getQualityFromBufferLevel. rewrite Hloop in *.
  set (pass := Bola.loopPass bolaState bufferLevel throughput segmentDuration) in *.
  set (init := Bola.loopInit bolaState bufferLevel) in *.
  unfold Bola.loopCond, jne in Hstop. apply orb_false_iff in Hstop as [Hnum Hsame].
  apply negb_false_iff in Hsame.
  destruct k as [|k]; [lia|]. rewrite Nat.iter_succ in *.
  set (st1 := Nat.iter k pass init) in *.
  destruct (loopPass_fields bolaState bufferLevel throughput segmentDuration st1)
    as (Hq2 & Hb2 & Hp2 & _).
  fold pass in Hq2, Hb2, Hp2.
  destruct k as [|k].
  - (* one pass: the previous bitrate is not a number *)
    rewrite Hp2 in Hsame. unfold st1, init in Hsame.
    cbn [Nat.iter nat_rect Bola.loopInit bitrate] in Hsame.
    unfold jeq in Hsame. rewrite jle_NaN_r in Hsame. discriminate Hsame.
  - assert (Hn : (0 < length (bitrates bolaState))%nat).
    { destruct (bitrates bolaState) as [|b0 l] eqn:E; [|cbn; lia].
      assert (Hq : quality_ (pass st1) = QNaN).
      { unfold st1, pass, init. rewrite <- Nat.iter_succ.
        apply iter_pass_quality_empty. exact E. }
      rewrite Hb2, Hq in Hnum. discriminate Hnum. }
    destruct (iter_pass_quality_in_range bolaState bufferLevel throughput
                segmentDuration k Hn) as (c0 & Hc0 & Hlt0).
    destruct (iter_pass_quality_in_range bolaState bufferLevel throughput
                segmentDuration (S k) Hn) as (c & Hc & Hlt).
    assert (Est1 : st1 = pass (Nat.iter k pass init)) by (unfold st1; apply Nat.iter_succ).
    change (quality_ st1 = QIndex c0) in Hc0.
    assert (Hc' : quality_ (pass st1) = QIndex c).
    { rewrite <- Hc. unfold st1, pass, init. now rewrite <- Nat.iter_succ. }
    clear Hc. rename Hc' into Hc.
    destruct (loopPass_fields bolaState bufferLevel throughput segmentDuration
                (Nat.iter k pass init)) as (_ & Hb1 & _ & Hl1).
    fold pass in Hb1, Hl1. rewrite <- Est1 in Hb1, Hl1.
    rewrite Hc0 in Hb1. cbn [bitrate_at] in Hb1.
    rewrite Hc in Hb2. cbn [bitrate_at] in Hb2.
    rewrite Hb2, Hp2, Hb1 in Hsame.
    pose proof (proper_bitrates_injective bolaState c c0 Hp Hlt Hlt0 Hsame) as <-.
    exists c. split; [exact Hc|]. split; [exact Hlt|].
    rewrite <- Hb1, <- Hl1. rewrite <- Hc at 2. rewrite Hq2. now rewrite Hc0.
Qed.

(** The projected level on finite numbers. *)
Lemma projectedLevel_Fin (bufferLevel throughput segmentDuration bitrate : Q) :
  ~ throughput == 0 ->
  exists level,
    Bola.projectedLevel (Fin bufferLevel) (Fin throughput) (Fin segmentDuration)
                        (Fin bitrate)
    = Fin level
    /\ level == bufferLevel + (1 - bitrate / throughput / 1000) * segmentDuration.
Proof.
  intros Ht. unfold Bola.projectedLevel.
  rewrite (jdiv_Fin bitrate throughput) by exact Ht.
  unfold num. rewrite (jdiv_Fin (bitrate / throughput) (inject_Z 1000))
    by (intros H; discriminate H).
  unfold jsub. cbn [jneg jadd jmul].
  eexists. split; [reflexivity|].
  assert (H1 : inject_Z 1 == 1) by reflexivity.
  assert (H2 : inject_Z 1000 == 1000) by reflexivity.
  rewrite H1, H2. lra.
Qed.

(** C3, as amended.  On a proper ladder, for a positive throughput and a
    segment duration that is not negative, the index the quality selection
    returns does not decrease when the buffer level increases, provided
    both runs leave the loop on a stable bitrate (the loop condition fails
    on the state returned: the cap has not cut the run short) and the inputs
    are such that rounding keeps the order of the scores.  Nothing is said
    of a run that the cap ends. *)
Theorem lookAhead_monotone_on_stable_exit
    (bolaState : BolaState) (bufferLevel1 bufferLevel2 throughput segmentDuration : Q) :
  properLadder bolaState = true ->
  bufferLevel1 <= bufferLevel2 -> 0 < throughput -> 0 <= segmentDuration ->
  roundingKeepsOrder bolaState bufferLevel1 throughput segmentDuration = true ->
  roundingKeepsOrder bolaState bufferLevel2 throughput segmentDuration = true ->
  Bola.loopCond (Bola.lookAheadLoop bolaState (Fin bufferLevel1) (Fin throughput)
                                    (Fin segmentDuration)) = false ->
  Bola.loopCond (Bola.lookAheadLoop bolaState (Fin bufferLevel2) (Fin throughput)
                                    (Fin segmentDuration)) = false ->
  quality_leb
    (Bola.getQualityFromBufferLevel bolaState (Fin bufferLevel1) (Fin throughput)
                                    (Fin segmentDuration))
    (Bola.getQualityFromBufferLevel bolaState (Fin bufferLevel2) (Fin throughput)
                                    (Fin segmentDuration))
  = true.
Proof.
  intros Hp Hlevels Hthr Hdur _ _ Hstable1 Hstable2.
  destruct (stable_exit_is_fixed_point _ _ _ _ Hp Hstable1) as (c1 & -> & Hc1 & Hfix1).
  destruct (stable_exit_is_fixed_point _ _ _ _ Hp Hstable2) as (c2 & -> & Hc2 & Hfix2).
  cbn [quality_leb]. apply Nat.leb_le.
  destruct (le_lt_dec c1 c2) as [Hle|Hlt]; [exact Hle|exfalso].
  destruct (proper_bitrates bolaState Hp) as [_ Hasc].
  specialize (Hasc c2 c1 (conj Hlt Hc1)). cbn beta in Hasc.
  assert (Hf : forallb isFinite (bitrates bolaState) = true).
  { unfold properLadder in Hp. repeat (apply andb_true_iff in Hp as [Hp ?]). assumption. }
  rewrite (forallb_at_index _ c1 Hf Hc1) in Hfix1.
  rewrite (forallb_at_index _ c2 Hf Hc2) in Hfix2.
  set (b1 := qOf (at_index (bitrates bolaState) c1)) in *.
  set (b2 := qOf (at_index (bitrates bolaState) c2)) in *.
  assert (Ht0 : ~ throughput == 0) by lra.
  destruct (projectedLevel_Fin bufferLevel1 throughput segmentDuration b1 Ht0)
    as (level1 & E1 & Hl1).
  destruct (projectedLevel_Fin bufferLevel2 throughput segmentDuration b2 Ht0)
    as (level2 & E2 & Hl2).
  rewrite E1 in Hfix1. rewrite E2 in Hfix2.
  assert (Hle : level1 <= level2).
  { rewrite Hl1, Hl2.
    assert (Hr : b2 / throughput / 1000 <= b1 / throughput / 1000).
    { unfold Qdiv.
      apply Qmult_le_compat_r;
        [|apply Qlt_le_weak, Qinv_lt_0_compat; reflexivity].
      apply Qmult_le_compat_r; [lra|]. apply Qlt_le_weak, Qinv_lt_0_compat, Hthr. }
    nra. }
  destruct (scoringPass_monotone bolaState level1 level2 (QIndex c1) (QIndex c2) Hp
              ltac:(lia) Hle) as (c1' & c2' & H1 & H2 & H12).
  rewrite Hfix1 in H1. rewrite Hfix2 in H2.
  injection H1 as <-. injection H2 as <-. lia.
Qed.

(** The three-tier state with a throughput of 1000 kbit/s and 8 s segments:
    7 s in the buffer give index 0 and 12 s give index 1, both runs leaving
    on a stable bitrate. *)
Lemma lookAhead_monotone_on_stable_exit_witness :
  quality_leb
    (Bola.getQualityFromBufferLevel state3 (Fin 7) (Fin 1000) (Fin 8))
    (Bola.getQualityFromBufferLevel state3 (Fin 12) (Fin 1000) (Fin 8))
  = true.
Proof.
  apply (lookAhead_monotone_on_stable_exit state3 7 12 1000 8).
  - reflexivity.
  - vm_compute. discriminate.
  - reflexivity.
  - vm_compute. discriminate.
  - vm_compute. reflexivity.
  - vm_compute. reflexivity.
  - vm_compute. reflexivity.
  - vm_compute. reflexivity.
Defined.
